(** * Centy installer: a shallow embedding of the installer scripts

    The repository ships four programs:
    - the multi-format shell installer ([install.sh], the script that tries
      several release-asset naming schemes), embedded in [Module InstallSh];
    - its archive-only predecessor (the first script of [install.sh]),
      of which the attempt for one binary is embedded in
      [Module ArchiveOnly];
    - the npm installer [scripts/install.js] and the npm bin wrapper,
      embedded in [Module Npm];
    - the raw-binary shell installer that follows the npm installer in
      [scripts/install.js], embedded in [Module RawOnly].

    Shell state is threaded explicitly: the file system, the trace of
    output lines and network requests, the [DOWNLOAD_CMD] variable, the
    [EXIT] trap and the [mktemp] counter form the state of a small
    state-and-status monad.  Paths are the strings the scripts build, and
    commands have their documented meaning on that state: a command fails
    when a regular file is where it needs a directory, when the directory
    it needs is missing, or when a directory is where it needs a file.
    Where a statement depends on it, it says so in a hypothesis that names
    are single path components, that versions are one line without
    backslashes, that the list of binaries has no pattern characters, or
    that no symbolic link or file is in the way. *)

From Stdlib Require Import String Ascii List Bool Arith Lia DecimalString.
Import ListNotations.
Local Open Scope list_scope.
Local Open Scope string_scope.

#[local] Arguments Ascii.eqb : simpl never.

(** ** Strings *)

Module Str.

Definition dquote : string := String "034"%char EmptyString.
Definition nl : ascii := "010"%char.
Definition backslash : ascii := "092"%char.

Definition is_empty (s : string) : bool :=
  match s with EmptyString => true | String _ _ => false end.

(** [starts_with p s]: the shell pattern [p*] matches [s]. *)
Fixpoint starts_with (p s : string) : bool :=
  match p, s with
  | EmptyString, _ => true
  | String _ _, EmptyString => false
  | String a p', String b s' => Ascii.eqb a b && starts_with p' s'
  end.

(** [contains p s]: the shell pattern [*p*] matches [s]. *)
Fixpoint contains (p s : string) : bool :=
  starts_with p s ||
  match s with
  | EmptyString => false
  | String _ s' => contains p s'
  end.

Fixpoint has_char (c : ascii) (s : string) : bool :=
  match s with
  | EmptyString => false
  | String a s' => Ascii.eqb a c || has_char c s'
  end.

End Str.

(** ** Version strings (install.sh, [install_binary]: the steps commented
    as ensuring the v prefix and as the version without v for display)

    Version strings are single-line: a tag name scanned out of one line of
    the release record, or the [VERSION] setting. *)

Module Version.

Definition marker : ascii := "v"%char.

(** The [case] on the version: a version matching the pattern v-star is
    kept, any other gets the letter v put in front. *)
Definition ensure_v_prefix (version : string) : string :=
  if Str.starts_with "v" version then version else "v" ++ version.

(** The [sed] substitution [s/^v//] on one line; the version is what
    [echo] hands to [sed] when it is on one line and has no backslash
    ([one_line] below). *)
Definition strip_v (version : string) : string :=
  match version with
  | String c rest => if Ascii.eqb c marker then rest else version
  | EmptyString => EmptyString
  end.

(** The script's [version_display], computed from the version the
    script was handed. *)
Definition version_display (raw : string) : string :=
  strip_v (ensure_v_prefix raw).

Definition has_marker (s : string) : bool := Str.starts_with "v" s.

(** A version on a single line and without a backslash: what the [echo]
    of every shell hands to [sed] as it is, what [sed] reads as one
    line, and what the command substitution returns whole. *)
Definition one_line (s : string) : bool :=
  negb (Str.has_char Str.nl s) && negb (Str.has_char Str.backslash s).

End Version.

Import Version.

(** ** Platform detection (install.sh, [detect_os], [detect_os_legacy],
    [detect_arch], [get_archive_ext])

    Each detection function is a [case] over the output of [uname]; the
    result is what the function echoes, [None] standing for the branch
    that reports an error and exits. *)

Module Platform.

Definition detect_os_name (uname_s : string) : option string :=
  if Str.starts_with "Darwin" uname_s then Some "apple-darwin"
  else if Str.starts_with "Linux" uname_s then Some "unknown-linux-gnu"
  else if Str.starts_with "MINGW" uname_s
          || Str.starts_with "MSYS" uname_s
          || Str.starts_with "CYGWIN" uname_s then Some "pc-windows-msvc"
  else None.

Definition detect_os_legacy_name (uname_s : string) : option string :=
  if Str.starts_with "Darwin" uname_s then Some "darwin"
  else if Str.starts_with "Linux" uname_s then Some "linux"
  else if Str.starts_with "MINGW" uname_s
          || Str.starts_with "MSYS" uname_s
          || Str.starts_with "CYGWIN" uname_s then Some "windows"
  else None.

Definition detect_arch_name (uname_m : string) : option string :=
  if (uname_m =? "x86_64") || (uname_m =? "amd64") then Some "x86_64"
  else if (uname_m =? "aarch64") || (uname_m =? "arm64") then Some "aarch64"
  else if uname_m =? "armv7l" then Some "armv7"
  else None.

Definition get_archive_ext (os : string) : string :=
  if os =? "pc-windows-msvc" then "zip" else "tar.gz".

End Platform.

(** ** The file system

    A file system is an association list from paths to nodes; the order of
    the list stands for the order in which a directory walk enumerates the
    entries, which [find] exposes through [head -1].  Paths are compared
    as strings, so a path names the entry it spells when it is in normal
    form ([normal] below); directories need no entry of their own to
    hold files; and a symbolic link is an entry with a target that is
    not followed: a test or a command that would go through a link is
    covered only by statements that ask for no link there. *)

Module Fs.

Inductive node : Type :=
| File (content : string) (exec : bool)
| Dir
| Symlink (target : string).

Definition fs : Type := list (string * node).

Fixpoint lookup (p : string) (f : fs) : option node :=
  match f with
  | [] => None
  | (q, n) :: r => if q =? p then Some n else lookup p r
  end.

(** Writing keeps the position of an entry that exists and appends a new
    one. *)
Fixpoint write (p : string) (n : node) (f : fs) : fs :=
  match f with
  | [] => [(p, n)]
  | (q, m) :: r => if q =? p then (p, n) :: r else (q, m) :: write p n r
  end.

Definition remove (p : string) (f : fs) : fs :=
  filter (fun e => negb (fst e =? p)) f.

Definition under (dir p : string) : bool := Str.starts_with (dir ++ "/") p.

(** [rm -rf dir] *)
Definition rm_rf (dir : string) (f : fs) : fs :=
  filter (fun e => negb ((fst e =? dir) || under dir (fst e))) f.

(** The test [-f p], for a path that is not a symbolic link (the test
    follows links, this file system does not). *)
Definition is_file (p : string) (f : fs) : bool :=
  match lookup p f with Some (File _ _) => true | _ => false end.

(** The test [-L p]. *)
Definition is_symlink (p : string) (f : fs) : bool :=
  match lookup p f with Some (Symlink _) => true | _ => false end.

(** The last component of a path that does not end in a slash. *)
Fixpoint basename (p : string) : string :=
  match p with
  | EmptyString => EmptyString
  | String c r =>
      if Str.has_char "/" r then basename r
      else if Ascii.eqb c "/" then r else p
  end.

(** The directory a path lies in: what precedes its last slash, and
    nothing for a name directly in the root or in the working
    directory. *)
Fixpoint dirname (p : string) : string :=
  match p with
  | EmptyString => EmptyString
  | String c r =>
      if Str.has_char "/" r then String c (dirname r) else EmptyString
  end.

(** A path in normal form: absolute, without an empty component (so
    without a slash at its end), and without the components [.] and
    [..].  The paths of the entries of a disk are in normal form, and a
    path the script builds names the entry it spells only when it is in
    normal form as well. *)
Definition normal (p : string) : bool :=
  Str.starts_with "/" p
  && negb (Str.contains "//" (p ++ "/"))
  && negb (Str.contains "/./" (p ++ "/"))
  && negb (Str.contains "/../" (p ++ "/")).

(** Some entry lies in [p]. *)
Definition inhabited (p : string) (f : fs) : bool :=
  existsb (fun e => under p (fst e)) f.

(** [p] is a directory: it has an entry that says so, or it has none and
    some entry lies in it. *)
Definition is_dir (p : string) (f : fs) : bool :=
  match lookup p f with
  | Some Dir => true
  | Some _ => false
  | None => inhabited p f
  end.

(** [p] is no directory, whichever way a directory shows: no entry says
    that it is one and no entry lies in it. *)
Definition no_dir (p : string) (f : fs) : bool :=
  match lookup p f with
  | Some Dir => false
  | _ => negb (inhabited p f)
  end.

(** The directory in which a name is to be made exists; the root and the
    working directory, which the empty path stands for, always do. *)
Definition dir_exists (p : string) (f : fs) : bool :=
  Str.is_empty p || is_dir p f.

Definition not_a_dir (n : node) : bool :=
  match n with Dir => false | _ => true end.

(** A regular file or a symbolic link is at [p] or at a path in which [p]
    lies: [mkdir -p p] is taken to fail.  What a link leads to is not
    part of this file system, and a link that leads to a directory would
    let [mkdir] through; so statements that need [mkdir] to work ask for
    [blocked] to be false, and statements about its failure ask for a
    regular file in the way ([barred] below). *)
Definition blocked (p : string) (f : fs) : bool :=
  existsb (fun e => not_a_dir (snd e) && ((fst e =? p) || under (fst e) p)) f.

(** A regular file is at [p] or at a path in which [p] lies: whatever
    the links of the disk lead to, [mkdir -p p] fails. *)
Definition barred (p : string) (f : fs) : bool :=
  existsb (fun e => match snd e with File _ _ => true | _ => false end
                    && ((fst e =? p) || under (fst e) p)) f.

(** A redirection to [p] can open it: [p] is a regular file, or nothing
    is at [p] and the directory it lies in exists.  It fails on a
    directory.  What a symbolic link at [p] leads to is not part of this
    file system; the redirection is taken to fail there, and statements
    about a write that works or fails ask for no link at [p]. *)
Definition writable (p : string) (f : fs) : bool :=
  match lookup p f with
  | Some (File _ _) => true
  | Some _ => false
  | None => negb (is_dir p f) && dir_exists (dirname p) f
  end.

(** [find dir -name name -type f], in enumeration order. *)
Definition find_name_type_f (dir name : string) (f : fs) : list string :=
  filter (fun p => is_file p f && under dir p && (basename p =? name))
         (map fst f).

(** [mkdir -p p]: fails, changing nothing, when a file or a link is in
    the way; nothing to do when [p] is a directory. *)
Definition mkdir_p (p : string) (f : fs) : fs :=
  if blocked p f then f
  else match lookup p f with
       | None => write p Dir f
       | Some _ => f
       end.

(** [mv src dst] of a regular file.  When [dst] is a directory the file
    goes into it under its own name, unless a directory of that name is
    there; otherwise it replaces what is at [dst], and the directory that
    [dst] lies in has to exist.  The command fails, changing nothing, in
    the other cases and when [src] is not a regular file. *)
Definition mv (src dst : string) (f : fs) : fs :=
  match lookup src f with
  | Some (File c x) =>
      if is_dir dst f then
        if is_dir (dst ++ "/" ++ basename src) f then f
        else write (dst ++ "/" ++ basename src) (File c x) (remove src f)
      else if dir_exists (dirname dst) f
           then write dst (File c x) (remove src f)
           else f
  | _ => f
  end.

(** [chmod +x p] *)
Definition chmod_x (p : string) (f : fs) : fs :=
  match lookup p f with
  | Some (File c _) => write p (File c true) f
  | _ => f
  end.

(** [rm -f p]: directories are refused. *)
Definition rm_f (p : string) (f : fs) : fs :=
  match lookup p f with
  | Some Dir => f
  | _ => remove p f
  end.

(** [ln -s target link]: when [link] is a directory the link is made
    inside it, under the last component of [target]; otherwise it is made
    at [link], in a directory that has to exist.  The command fails,
    changing nothing, when the name it would give the link is taken. *)
Definition ln_s (target link : string) (f : fs) : fs :=
  if is_dir link f then
    match lookup (link ++ "/" ++ basename target) f with
    | None =>
        if is_dir (link ++ "/" ++ basename target) f then f
        else write (link ++ "/" ++ basename target) (Symlink target) f
    | Some _ => f
    end
  else
    match lookup link f with
    | None =>
        if dir_exists (dirname link) f then write link (Symlink target) f
        else f
    | Some _ => f
    end.

(** Unpacking archive members below [dest]; members are regular files
    with their mode. *)
Fixpoint unpack (dest : string) (members : list (string * (string * bool)))
         (f : fs) : fs :=
  match members with
  | [] => f
  | (name, (c, x)) :: r => unpack dest r (write (dest ++ "/" ++ name) (File c x) f)
  end.

(** Text files: what [echo line >> p] and [echo line > p] do when the
    redirection can open [p] (see [writable]). *)
Definition line (l : string) : string := l ++ String Str.nl EmptyString.

Definition append_line (p l : string) (f : fs) : fs :=
  match lookup p f with
  | Some (File c x) => write p (File (c ++ line l) x) f
  | None => write p (File (line l) false) f
  | _ => f
  end.

Definition create_with_line (p l : string) (f : fs) : fs :=
  match lookup p f with
  | Some (File _ x) => write p (File (line l) x) f
  | None => write p (File (line l) false) f
  | _ => f
  end.

End Fs.

Import Fs.

(** ** [grep -q pattern file] (install.sh, [setup_path])

    [grep] reads its pattern as a basic regular expression and searches the
    file line by line.  The fragment embedded here has ordinary characters,
    the dot, bracket expressions with ranges and negation, the star, the
    two anchors and backslash-escaped special characters.  A pattern
    outside the fragment (groups, intervals, back-references, character
    classes) is not embedded, and [grep_q] finds nothing for it; neither
    is the reading of a pattern that starts with a dash as options.
    Statements about what [grep] finds ask for a pattern of the fragment
    that does not start with a dash. *)

Module Grep.

Inductive atom : Type :=
| Lit (c : ascii)
| AnyChar
| Bracket (negated : bool) (ranges : list (ascii * ascii)).

Inductive piece : Type :=
| One (a : atom)
| Star (a : atom).

Record bre : Type := { bol : bool; pieces : list piece; eol : bool }.

Inductive mode : Type :=
| Normal
| Escaped
| BracketOpen
| BracketFirst (negated : bool)
| InBracket (negated : bool) (members : list ascii).

Definition special (c : ascii) : bool :=
  Str.has_char c ".[]\*^$".

(** Members of a bracket expression, [a-b] standing for a range. *)
Fixpoint ranges_of (cs : list ascii) : list (ascii * ascii) :=
  match cs with
  | [] => []
  | a :: rest =>
      match rest with
      | dash :: b :: rest' =>
          if Ascii.eqb dash "-" then (a, b) :: ranges_of rest'
          else (a, a) :: ranges_of rest
      | _ => (a, a) :: ranges_of rest
      end
  end.

Definition opens_class (r : string) : bool :=
  match r with
  | String c _ => Ascii.eqb c ":" || Ascii.eqb c "." || Ascii.eqb c "="
  | EmptyString => false
  end.

(** The pieces of a pattern, read left to right; [acc] holds the pieces
    read so far, last first.  The boolean tells whether the pattern ends
    in the end-of-line anchor. *)
Fixpoint parse (m : mode) (acc : list piece) (s : string)
  : option (list piece * bool) :=
  match m, s with
  | Normal, EmptyString => Some (rev acc, false)
  | Normal, String c r =>
      if Ascii.eqb c "\" then parse Escaped acc r
      else if Ascii.eqb c "[" then parse BracketOpen acc r
      else if Ascii.eqb c "*" then
        match acc with
        | [] => parse Normal [One (Lit c)] r
        | One a :: acc' => parse Normal (Star a :: acc') r
        | Star _ :: _ => parse Normal acc r
        end
      else if Ascii.eqb c "." then parse Normal (One AnyChar :: acc) r
      else if Ascii.eqb c "$" && Str.is_empty r then Some (rev acc, true)
      else parse Normal (One (Lit c) :: acc) r
  | Escaped, EmptyString => None
  | Escaped, String c r =>
      if special c then parse Normal (One (Lit c) :: acc) r else None
  | BracketOpen, EmptyString => None
  | BracketOpen, String c r =>
      if Ascii.eqb c "^" then parse (BracketFirst true) acc r
      else if Ascii.eqb c "[" && opens_class r then None
      else parse (InBracket false [c]) acc r
  | BracketFirst _, EmptyString => None
  | BracketFirst neg, String c r =>
      if Ascii.eqb c "[" && opens_class r then None
      else parse (InBracket neg [c]) acc r
  | InBracket _ _, EmptyString => None
  | InBracket neg cs, String c r =>
      if Ascii.eqb c "]" then
        parse Normal (One (Bracket neg (ranges_of (rev cs))) :: acc) r
      else if Ascii.eqb c "[" && opens_class r then None
      else parse (InBracket neg (c :: cs)) acc r
  end.

Definition compile (pattern : string) : option bre :=
  let (anchored, rest) :=
    match pattern with
    | String c r => if Ascii.eqb c "^" then (true, r) else (false, pattern)
    | EmptyString => (false, pattern)
    end in
  match parse Normal [] rest with
  | Some (ps, e) => Some {| bol := anchored; pieces := ps; eol := e |}
  | None => None
  end.

Definition in_range (c : ascii) (r : ascii * ascii) : bool :=
  (nat_of_ascii (fst r) <=? nat_of_ascii c)%nat
  && (nat_of_ascii c <=? nat_of_ascii (snd r))%nat.

Definition atom_matches (a : atom) (c : ascii) : bool :=
  match a with
  | Lit x => Ascii.eqb x c
  | AnyChar => true
  | Bracket neg rs => xorb neg (existsb (in_range c) rs)
  end.

(** The pieces match a prefix of [s] (all of [s] under the end
    anchor). *)
Fixpoint match_here (ps : list piece) (e : bool) (s : string) {struct ps}
  : bool :=
  match ps with
  | [] => if e then Str.is_empty s else true
  | One a :: ps' =>
      match s with
      | String c s' => atom_matches a c && match_here ps' e s'
      | EmptyString => false
      end
  | Star a :: ps' =>
      (fix star (s : string) : bool :=
         match_here ps' e s ||
         match s with
         | String c s' => atom_matches a c && star s'
         | EmptyString => false
         end) s
  end.

Fixpoint match_from (ps : list piece) (e : bool) (s : string) : bool :=
  match_here ps e s ||
  match s with
  | String _ s' => match_from ps e s'
  | EmptyString => false
  end.

Definition matches_line (re : bre) (l : string) : bool :=
  if bol re then match_here (pieces re) (eol re) l
  else match_from (pieces re) (eol re) l.

(** The lines of a text; a final newline ends the last line. *)
Fixpoint lines (s : string) : list string :=
  match s with
  | EmptyString => []
  | String c r =>
      if Ascii.eqb c Str.nl then EmptyString :: lines r
      else match lines r with
           | [] => [String c EmptyString]
           | l :: ls => String c l :: ls
           end
  end.

(** Exit status 0 of [grep -q pattern] on a file with this content. *)
Definition grep_q (pattern content : string) : bool :=
  match compile pattern with
  | Some re => existsb (matches_line re) (lines content)
  | None => false
  end.

(** Patterns in which every character stands for itself (or, for the
    dot, for any character). *)
Definition plain_char (c : ascii) : bool :=
  negb (Str.has_char c "\[*^$") && negb (Ascii.eqb c Str.nl).

Fixpoint plain (s : string) : bool :=
  match s with
  | EmptyString => true
  | String c r => plain_char c && plain r
  end.

(** The pieces a plain pattern compiles to. *)
Fixpoint plain_pieces (s : string) : list piece :=
  match s with
  | EmptyString => []
  | String c r =>
      One (if Ascii.eqb c "." then AnyChar else Lit c) :: plain_pieces r
  end.

End Grep.

(** ** The shell: host, state and control flow *)

Module Shell.

(** What the script finds on the machine it runs on: [uname], the
    environment, the tools, the release host and the archive formats.
    A command whose redirection cannot be opened is not run and has the
    status [S redirect_error], which is the shell's choice (1 in bash, 2
    in dash).
    [scan_tag_name] is the [sed | head -1] scan of [get_latest_version];
    [tar_members] and [zip_members] turn the bytes of a well-formed
    archive into its members. *)
Record host : Type := {
  uname_s : string;
  uname_m : string;
  HOME : string;
  SHELL : string;
  PATH : string;
  env_INSTALL_DIR : string;
  env_BINARIES : string;
  VERSION : string;
  has_curl : bool;
  has_wget : bool;
  has_tar : bool;
  has_unzip : bool;
  redirect_error : nat;
  release_index : string -> option string;
  scan_tag_name : string -> string;
  asset : string -> option string;
  tar_members : string -> option (list (string * (string * bool)));
  zip_members : string -> option (list (string * (string * bool)))
}.

(** Lines the script prints and requests it sends, in order. *)
Inductive event : Type :=
| Info (msg : string)
| Success (msg : string)
| Warn (msg : string)
| Error (msg : string)
| Echo (text : string)
| Fetch (url : string)
| Download (url : string).

Record state : Type := {
  files : fs;
  trace : list event;
  DOWNLOAD_CMD : string;
  exit_trap : option string;
  mktemp_count : nat
}.

(** How a command list ends: it runs to its end, a function [return]s,
    or the shell [exit]s. *)
Inductive flow (A : Type) : Type :=
| Next (a : A)
| Return (status : nat)
| Exit (status : nat).
Arguments Next {A} a.
Arguments Return {A} status.
Arguments Exit {A} status.

Definition sh (A : Type) : Type := state -> flow A * state.

Definition ret {A} (a : A) : sh A := fun s => (Next a, s).

Definition bind {A B} (c : sh A) (k : A -> sh B) : sh B :=
  fun s =>
    match c s with
    | (Next a, s') => k a s'
    | (Return n, s') => (Return n, s')
    | (Exit n, s') => (Exit n, s')
    end.

Definition return_ {A} (status : nat) : sh A := fun s => (Return status, s).
Definition exit_ {A} (status : nat) : sh A := fun s => (Exit status, s).

Definition with_files (f : fs) (s : state) : state :=
  {| files := f; trace := trace s; DOWNLOAD_CMD := DOWNLOAD_CMD s;
     exit_trap := exit_trap s; mktemp_count := mktemp_count s |}.

Definition emit (e : event) : sh unit :=
  fun s => (Next tt,
            {| files := files s; trace := (trace s ++ [e])%list;
               DOWNLOAD_CMD := DOWNLOAD_CMD s; exit_trap := exit_trap s;
               mktemp_count := mktemp_count s |}).

Definition modify (f : fs -> fs) : sh unit :=
  fun s => (Next tt, with_files (f (files s)) s).

Definition query {A} (f : fs -> A) : sh A := fun s => (Next (f (files s)), s).

Definition get_DOWNLOAD_CMD : sh string := fun s => (Next (DOWNLOAD_CMD s), s).

Definition set_DOWNLOAD_CMD (v : string) : sh unit :=
  fun s => (Next tt,
            {| files := files s; trace := trace s; DOWNLOAD_CMD := v;
               exit_trap := exit_trap s; mktemp_count := mktemp_count s |}).

(** [trap "rm -rf 'dir'" EXIT]: the shell has one EXIT action, and
    setting it replaces the one set before. *)
Definition trap_EXIT (dir : string) : sh unit :=
  fun s => (Next tt,
            {| files := files s; trace := trace s;
               DOWNLOAD_CMD := DOWNLOAD_CMD s; exit_trap := Some dir;
               mktemp_count := mktemp_count s |}).

Definition tmp_name (n : nat) : string :=
  "/tmp/tmp." ++ NilEmpty.string_of_uint (Nat.to_uint n).

(** [mktemp -d]: a new directory under a name not handed out before. *)
Definition mktemp_d : sh string :=
  fun s =>
    let d := tmp_name (mktemp_count s) in
    (Next d,
     {| files := write d Dir (files s); trace := trace s;
        DOWNLOAD_CMD := DOWNLOAD_CMD s; exit_trap := exit_trap s;
        mktemp_count := S (mktemp_count s) |}).

(** A function called where its status is tested ([if f; then]): a
    [return] ends the function only, and running to the end of these
    functions leaves status 0. *)
Definition call (c : sh unit) : sh nat :=
  fun s =>
    match c s with
    | (Next _, s') => (Next 0, s')
    | (Return n, s') => (Next n, s')
    | (Exit n, s') => (Exit n, s')
    end.

(** A function called as a plain command under [set -e]. *)
Definition run (c : sh unit) : sh unit :=
  bind (call c) (fun n => if (n =? 0)%nat then ret tt else exit_ n).

(** Command substitution: the function runs in a subshell, so neither a
    [return] nor an [exit] leaves the substitution, and the variables and
    the trap of the calling shell are untouched; what was echoed is the
    value. *)
Definition capture (c : sh string) : sh (nat * string) :=
  fun s =>
    match c s with
    | (r, s') =>
        (Next match r with
              | Next v => (0, v)
              | Return n => (n, EmptyString)
              | Exit n => (n, EmptyString)
              end,
         {| files := files s'; trace := trace s';
            DOWNLOAD_CMD := DOWNLOAD_CMD s; exit_trap := exit_trap s;
            mktemp_count := mktemp_count s' |})
    end.

(** The end of the shell: the EXIT action runs. *)
Definition at_exit (s : state) : state :=
  match exit_trap s with
  | Some dir => with_files (rm_rf dir (files s)) s
  | None => s
  end.

Definition exit_status {A} (r : flow A) : nat :=
  match r with Next _ => 0 | Return n => n | Exit n => n end.

Definition is_space (c : ascii) : bool :=
  Ascii.eqb c " " || Ascii.eqb c "009" || Ascii.eqb c Str.nl.

(** Field splitting of an unquoted expansion.  Pathname expansion, which
    follows it, changes nothing when there is no pattern character
    ([pattern_free] below). *)
Fixpoint split_words (s : string) : string * list string :=
  match s with
  | EmptyString => (EmptyString, [])
  | String c r =>
      let (w, ws) := split_words r in
      if is_space c then (EmptyString, if Str.is_empty w then ws else w :: ws)
      else (String c w, ws)
  end.

Definition words (s : string) : list string :=
  let (w, ws) := split_words s in if Str.is_empty w then ws else w :: ws.

(** A list of words that pathname expansion leaves as it is: it has none
    of the pattern characters and no backslash.  For such a list the
    words of [for w in $LIST] are those of field splitting, [words]. *)
Definition pattern_free (s : string) : bool :=
  negb (Str.has_char "*" s) && negb (Str.has_char "?" s)
  && negb (Str.has_char "[" s) && negb (Str.has_char Str.backslash s).

End Shell.

Declare Scope sh_scope.
Delimit Scope sh_scope with sh.
Notation "x <- c ;; k" := (Shell.bind c (fun x => k))
  (at level 61, c at next level, right associativity) : sh_scope.
Notation "' pat <- c ;; k" := (Shell.bind c (fun x => match x with pat => k end))
  (at level 61, pat pattern, c at next level, right associativity) : sh_scope.
Notation "c ;; k" := (Shell.bind c (fun _ => k))
  (at level 61, right associativity) : sh_scope.

(** ** The multi-format installer (install.sh, second script) *)

Module InstallSh.

Import Shell Platform.
Local Open Scope sh_scope.

Section Script.

Variable h : host.

Definition GITHUB_ORG : string := "centy-io".
Definition DEFAULT_INSTALL_DIR : string := HOME h ++ "/.centy".

(** A setting that is unset or empty gives way to the default. *)
Definition INSTALL_DIR : string :=
  if Str.is_empty (env_INSTALL_DIR h) then DEFAULT_INSTALL_DIR
  else env_INSTALL_DIR h.
Definition BIN_DIR : string := INSTALL_DIR ++ "/bin".
Definition VERSIONS_DIR : string := INSTALL_DIR ++ "/versions".

Definition DEFAULT_BINARIES : string := "centy-daemon centy-tui".
Definition BINARIES : string :=
  if Str.is_empty (env_BINARIES h) then DEFAULT_BINARIES else env_BINARIES h.

Definition info (msg : string) : sh unit := emit (Info msg).
Definition success (msg : string) : sh unit := emit (Success msg).
Definition warn (msg : string) : sh unit := emit (Warn msg).
Definition error (msg : string) : sh unit := emit (Error msg).
Definition echo (text : string) : sh unit := emit (Echo text).

Definition detect_os : sh string :=
  match detect_os_name (uname_s h) with
  | Some os => ret os
  | None =>
      error ("Unsupported operating system: " ++ uname_s h) ;; exit_ 1
  end.

Definition detect_os_legacy : sh string :=
  match detect_os_legacy_name (uname_s h) with
  | Some os => ret os
  | None =>
      error ("Unsupported operating system: " ++ uname_s h) ;; exit_ 1
  end.

Definition detect_arch : sh string :=
  match detect_arch_name (uname_m h) with
  | Some arch => ret arch
  | None =>
      error ("Unsupported architecture: " ++ uname_m h) ;; exit_ 1
  end.

Definition check_requirements : sh unit :=
  (if has_curl h then set_DOWNLOAD_CMD "curl"
   else if has_wget h then set_DOWNLOAD_CMD "wget"
   else error "Either curl or wget is required" ;; exit_ 1) ;;
  if negb (has_tar h) then error "tar is required for extraction" ;; exit_ 1
  else ret tt.

(** [curl -fsSL url -o output] writes the output only once the transfer
    succeeds; [wget -q url -O output] opens the output before it asks.
    The result is whether the status is 0. *)
Definition try_download (url output : string) : sh bool :=
  cmd <- get_DOWNLOAD_CMD ;;
  emit (Download url) ;;
  match asset h url with
  | Some body => modify (write output (File body false)) ;; ret true
  | None =>
      (if cmd =? "curl" then ret tt
       else modify (write output (File EmptyString false))) ;;
      ret false
  end.

Definition get_latest_version (repo : string) : sh string :=
  let api_url :=
    "https://api.github.com/repos/" ++ GITHUB_ORG ++ "/" ++ repo
      ++ "/releases/latest" in
  emit (Fetch api_url) ;;
  match release_index h api_url with
  | None =>
      error ("Failed to fetch release info for " ++ repo
               ++ " (repo may not exist or have no releases)") ;;
      return_ 1
  | Some response =>
      let version := scan_tag_name h response in
      if Str.is_empty version then
        error ("Could not determine latest version for " ++ repo
                 ++ " (no releases found)") ;;
        return_ 1
      else ret version
  end.

Definition extract_archive (archive dest_dir ext : string) : sh unit :=
  if ext =? "tar.gz" then
    content <- query (lookup archive) ;;
    match content with
    | Some (File bytes _) =>
        match tar_members h bytes with
        | Some members => modify (unpack dest_dir members)
        | None => return_ 2
        end
    | _ => return_ 2
    end
  else if ext =? "zip" then
    if has_unzip h then
      content <- query (lookup archive) ;;
      match content with
      | Some (File bytes _) =>
          match zip_members h bytes with
          | Some members => modify (unpack dest_dir members)
          | None => return_ 9
          end
      | _ => return_ 9
      end
    else return_ 127
  else error ("Unknown archive format: " ++ ext) ;; return_ 1.

(** *** [install_binary], step by step *)

(** "Get version if not specified" and "Ensure version has 'v' prefix for
    URL": the version used in URLs. *)
Definition resolve_version (binary version : string) : sh string :=
  version <-
    (if Str.is_empty version then
       ' (status, latest) <- capture (get_latest_version binary) ;;
       if (status =? 0)%nat then ret latest else return_ 1
     else ret version) ;;
  ret (ensure_v_prefix version).

Definition download_base (binary version : string) : string :=
  "https://github.com/" ++ GITHUB_ORG ++ "/" ++ binary
    ++ "/releases/download/" ++ version ++ "/".

Definition name1 (binary version arch os ext : string) : string :=
  binary ++ "-" ++ version ++ "-" ++ arch ++ "-" ++ os ++ "." ++ ext.
Definition name2 (binary os_legacy arch : string) : string :=
  binary ++ "-" ++ os_legacy ++ "-" ++ arch.
Definition name3 (binary os_legacy arch : string) : string :=
  binary ++ "-" ++ os_legacy ++ "-" ++ arch ++ ".exe".

(** "Try multiple download URL formats": the result is [is_archive]. *)
Definition try_formats
  (binary version tmp_dir os os_legacy arch ext : string) : sh bool :=
  let url1 := download_base binary version
                ++ name1 binary version arch os ext in
  let archive_path := tmp_dir ++ "/download." ++ ext in
  info ("  Trying: " ++ name1 binary version arch os ext) ;;
  ok1 <- try_download url1 archive_path ;;
  let downloaded := ok1 in
  let is_archive := ok1 in
  ' (downloaded, is_archive) <-
    (if negb downloaded then
       let url2 := download_base binary version
                     ++ name2 binary os_legacy arch in
       let raw_path := tmp_dir ++ "/" ++ binary in
       info ("  Trying: " ++ name2 binary os_legacy arch) ;;
       ok2 <- try_download url2 raw_path ;;
       ret (if ok2 then (true, false) else (downloaded, is_archive))
     else ret (downloaded, is_archive)) ;;
  ' (downloaded, is_archive) <-
    (if negb downloaded && (os_legacy =? "windows") then
       let url3 := download_base binary version
                     ++ name3 binary os_legacy arch in
       let raw_path := tmp_dir ++ "/" ++ binary in
       info ("  Trying: " ++ name3 binary os_legacy arch) ;;
       ok3 <- try_download url3 raw_path ;;
       ret (if ok3 then (true, false) else (downloaded, is_archive))
     else ret (downloaded, is_archive)) ;;
  if negb downloaded then
    error ("Failed to download " ++ binary ++ " (tried multiple URL formats)") ;;
    return_ 1
  else ret is_archive.

(** "Find the binary in extracted contents": the file at the root of the
    temporary directory, else the first file of that name that [find]
    lists. *)
Definition find_and_move (binary tmp_dir install_path : string) : sh unit :=
  at_root <- query (is_file (tmp_dir ++ "/" ++ binary)) ;;
  if at_root then
    modify (mv (tmp_dir ++ "/" ++ binary) (install_path ++ "/" ++ binary))
  else
    found_binary <-
      query (fun f => hd EmptyString (find_name_type_f tmp_dir binary f)) ;;
    if negb (Str.is_empty found_binary) then
      modify (mv found_binary (install_path ++ "/" ++ binary))
    else
      error ("Could not find " ++ binary ++ " in extracted archive") ;;
      return_ 1.

(** "Handle archive vs raw binary". *)
Definition place_binary
  (binary tmp_dir install_path ext : string) (is_archive : bool) : sh unit :=
  if is_archive then
    info "  Extracting..." ;;
    status <- call (extract_archive (tmp_dir ++ "/download." ++ ext) tmp_dir ext) ;;
    if negb (status =? 0)%nat then
      error ("Failed to extract " ++ binary) ;; return_ 1
    else find_and_move binary tmp_dir install_path
  else
    modify (mv (tmp_dir ++ "/" ++ binary) (install_path ++ "/" ++ binary)).

(** "Make executable" and "Create symlink in bin directory". *)
Definition publish (binary version_display install_path : string) : sh unit :=
  let binary_path := install_path ++ "/" ++ binary in
  modify (chmod_x binary_path) ;;
  let symlink_path := BIN_DIR ++ "/" ++ binary in
  modify (rm_f symlink_path) ;;
  modify (ln_s binary_path symlink_path) ;;
  success ("Installed " ++ binary ++ " " ++ version_display) ;;
  info ("  Binary: " ++ binary_path) ;;
  info ("  Symlink: " ++ symlink_path).

Definition install_binary (binary version : string) : sh unit :=
  info ("Installing " ++ binary ++ "...") ;;
  version <- resolve_version binary version ;;
  let version_display := strip_v version in
  info ("  Version: " ++ version_display) ;;
  let install_path := VERSIONS_DIR ++ "/" ++ binary ++ "/" ++ version_display in
  modify (mkdir_p install_path) ;;
  modify (mkdir_p BIN_DIR) ;;
  tmp_dir <- mktemp_d ;;
  trap_EXIT tmp_dir ;;
  ' (_, os) <- capture detect_os ;;
  ' (_, os_legacy) <- capture detect_os_legacy ;;
  ' (_, arch) <- capture detect_arch ;;
  let ext := get_archive_ext os in
  is_archive <- try_formats binary version tmp_dir os os_legacy arch ext ;;
  place_binary binary tmp_dir install_path ext is_archive ;;
  publish binary version_display install_path.

(** *** [setup_path] *)

Definition config_file_for (shell_name : string) : sh string :=
  if shell_name =? "bash" then
    has_profile <- query (is_file (HOME h ++ "/.bash_profile")) ;;
    ret (if has_profile then HOME h ++ "/.bash_profile"
         else HOME h ++ "/.bashrc")
  else if shell_name =? "zsh" then ret (HOME h ++ "/.zshrc")
  else if shell_name =? "fish" then ret (HOME h ++ "/.config/fish/config.fish")
  else ret (HOME h ++ "/.profile").

Definition path_export : string :=
  "export PATH=" ++ Str.dquote ++ "${PATH}:" ++ BIN_DIR ++ Str.dquote.

Definition file_content (p : string) (f : fs) : string :=
  match lookup p f with
  | Some (File c _) => c
  | _ => EmptyString
  end.

(** A command whose output is redirected to [p], as a plain command
    under [set -e]: when [p] cannot be opened the command is not run and
    the script ends there. *)
Definition redirect (p : string) (output : fs -> fs) : sh unit :=
  opened <- query (writable p) ;;
  if opened then modify output else exit_ (S (redirect_error h)).

Definition setup_path : sh unit :=
  if Str.contains (":" ++ BIN_DIR ++ ":") (":" ++ PATH h ++ ":") then return_ 0
  else
    info ("Adding " ++ BIN_DIR ++ " to PATH...") ;;
    let shell_name := basename (SHELL h) in
    config_file <- config_file_for shell_name ;;
    is_there <- query (is_file config_file) ;;
    (if is_there then
       content <- query (file_content config_file) ;;
       if negb (Grep.grep_q BIN_DIR content) then
         redirect config_file (append_line config_file EmptyString) ;;
         redirect config_file
           (append_line config_file "# Added by Centy installer") ;;
         redirect config_file (append_line config_file path_export) ;;
         info ("Added PATH to " ++ config_file)
       else ret tt
     else
       redirect config_file (create_with_line config_file path_export) ;;
       info ("Created " ++ config_file ++ " with PATH")) ;;
    warn ("Please restart your shell or run: source " ++ config_file).

(** *** [print_summary] and [main] *)

Fixpoint list_installed (bs : list string) : sh unit :=
  match bs with
  | [] => ret tt
  | binary :: rest =>
      linked <- query (is_symlink (BIN_DIR ++ "/" ++ binary)) ;;
      (if linked then echo ("  - " ++ BIN_DIR ++ "/" ++ binary) else ret tt) ;;
      list_installed rest
  end.

Definition rule : string := "============================================".

Definition print_summary : sh unit :=
  echo EmptyString ;;
  echo rule ;;
  success "Installation complete!" ;;
  echo rule ;;
  echo EmptyString ;;
  echo "Installed binaries:" ;;
  list_installed (words BINARIES) ;;
  echo EmptyString ;;
  echo ("To get started, ensure " ++ BIN_DIR ++ " is in your PATH,") ;;
  echo "then run any of the installed binaries." ;;
  echo EmptyString.

(** The loop "Install each binary": [installed] and [failed] are the two
    strings the loop builds. *)
Fixpoint install_each (bs : list string) (installed failed : string)
  : sh (string * string) :=
  match bs with
  | [] => ret (installed, failed)
  | binary :: rest =>
      status <- call (install_binary binary (VERSION h)) ;;
      echo EmptyString ;;
      if (status =? 0)%nat
      then install_each rest (installed ++ " " ++ binary) failed
      else install_each rest installed (failed ++ " " ++ binary)
  end.

Definition banner : sh unit :=
  echo EmptyString ;;
  echo rule ;;
  echo "       Centy Installer" ;;
  echo rule ;;
  echo EmptyString.

Definition show_configuration : sh unit :=
  info ("Installation directory: " ++ INSTALL_DIR) ;;
  info ("Binaries directory: " ++ BIN_DIR) ;;
  info ("Binaries to install: " ++ BINARIES) ;;
  ' (_, arch) <- capture detect_arch ;;
  ' (_, os) <- capture detect_os ;;
  info ("Platform: " ++ arch ++ "-" ++ os) ;;
  echo EmptyString.

Definition report (installed failed : string) : sh unit :=
  if negb (Str.is_empty failed) then
    warn ("Some binaries failed to install:" ++ failed) ;;
    (if negb (Str.is_empty installed) then run print_summary else ret tt) ;;
    exit_ 1
  else run print_summary.

(** [mkdir -p p] as a plain command under [set -e]: the script ends with
    the status of [mkdir] when it fails. *)
Definition make_dir (p : string) : sh unit :=
  stopped <- query (blocked p) ;;
  if stopped then exit_ 1 else modify (mkdir_p p).

Definition main : sh unit :=
  banner ;;
  run check_requirements ;;
  show_configuration ;;
  make_dir BIN_DIR ;;
  make_dir VERSIONS_DIR ;;
  ' (installed, failed) <- install_each (words BINARIES) EmptyString EmptyString ;;
  (if negb (Str.is_empty installed) then run setup_path else ret tt) ;;
  report installed failed.

(** The whole script: [main] is its last command, and the EXIT action runs
    when the shell ends. *)
Definition script (s : state) : nat * state :=
  let (r, s') := main s in (exit_status r, at_exit s').

End Script.

End InstallSh.

(** ** The archive-only installer (install.sh, first script)

    Its [install_binary] downloads one archive and looks the binary up in
    three places. *)

Module ArchiveOnly.

Import Shell Platform.
Local Open Scope sh_scope.

Section Script.

Variable h : host.

Definition download (url output : string) : sh bool :=
  InstallSh.try_download h url output.

(** "Find and move the binary": the file at the root of the temporary
    directory, else the file in the directory of the same name, else the
    first file of that name that [find] lists. *)
Definition find_and_move (binary tmp_dir install_path : string) : sh unit :=
  at_root <- query (is_file (tmp_dir ++ "/" ++ binary)) ;;
  if at_root then
    modify (mv (tmp_dir ++ "/" ++ binary) (install_path ++ "/" ++ binary))
  else
    in_subdir <- query (is_file (tmp_dir ++ "/" ++ binary ++ "/" ++ binary)) ;;
    if in_subdir then
      modify (mv (tmp_dir ++ "/" ++ binary ++ "/" ++ binary)
                 (install_path ++ "/" ++ binary))
    else
      found_binary <-
        query (fun f => hd EmptyString (find_name_type_f tmp_dir binary f)) ;;
      if negb (Str.is_empty found_binary) then
        modify (mv found_binary (install_path ++ "/" ++ binary))
      else
        InstallSh.error ("Could not find " ++ binary ++ " in extracted archive") ;;
        return_ 1.

Definition install_binary (binary version : string) : sh unit :=
  InstallSh.info ("Installing " ++ binary ++ "...") ;;
  version <- InstallSh.resolve_version h binary version ;;
  let version_display := strip_v version in
  InstallSh.info ("  Version: " ++ version_display) ;;
  ' (_, os) <- capture (InstallSh.detect_os h) ;;
  ' (_, arch) <- capture (InstallSh.detect_arch h) ;;
  let target := arch ++ "-" ++ os in
  let ext := get_archive_ext os in
  let archive_name := binary ++ "-" ++ version ++ "-" ++ target ++ "." ++ ext in
  let download_url := InstallSh.download_base binary version ++ archive_name in
  let install_path :=
    InstallSh.VERSIONS_DIR h ++ "/" ++ binary ++ "/" ++ version_display in
  modify (mkdir_p install_path) ;;
  modify (mkdir_p (InstallSh.BIN_DIR h)) ;;
  tmp_dir <- mktemp_d ;;
  trap_EXIT tmp_dir ;;
  let archive_path := tmp_dir ++ "/" ++ archive_name in
  InstallSh.info ("  Downloading from: " ++ download_url) ;;
  ok <- download download_url archive_path ;;
  if negb ok then
    InstallSh.error ("Failed to download " ++ binary) ;; return_ 1
  else
    InstallSh.info "  Extracting..." ;;
    status <- call (InstallSh.extract_archive h archive_path tmp_dir ext) ;;
    if negb (status =? 0)%nat then
      InstallSh.error ("Failed to extract " ++ binary) ;; return_ 1
    else
      find_and_move binary tmp_dir install_path ;;
      InstallSh.publish h binary version_display install_path.

End Script.

End ArchiveOnly.

(** ** The npm installer (scripts/install.js) and the npm bin wrapper *)

Module Npm.

Inductive response : Type :=
| Response (statusCode : nat) (location : string) (body : string)
| RequestError (message : string).

(** What a promise settles to. *)
Inductive settled : Type :=
| Resolved (data : string)
| Rejected (message : string).

Definition show_nat (n : nat) : string :=
  NilEmpty.string_of_uint (Nat.to_uint n).

(** [httpsGet]: a redirect is followed by a recursive call.  The fuel
    bounds the number of requests of one evaluation, and [None] stands for
    a chain that is still being followed when it runs out; the function
    itself keeps no count. *)
Fixpoint httpsGet (web : string -> response) (fuel : nat) (url : string)
  : option settled :=
  match fuel with
  | O => None
  | S fuel' =>
      match web url with
      | RequestError message => Some (Rejected message)
      | Response statusCode location body =>
          if (statusCode =? 302)%nat || (statusCode =? 301)%nat then
            httpsGet web fuel' location
          else if negb (statusCode =? 200)%nat then
            Some (Rejected ("HTTP " ++ show_nat statusCode ++ ": " ++ url))
          else Some (Resolved body)
      end
  end.

Record machine : Type := {
  platform : string;
  arch : string;
  web : string -> response;
  (** [JSON.parse(data).tag_name] as it is spliced into the download URL;
      [None] when parsing throws. *)
  tag_name : string -> option string;
  gunzip : string -> option string;
  tar_members : string -> option (list (string * (string * bool)));
  zip_members : string -> option (list (string * (string * bool)));
  (** The directory of the package, which holds [bin] and [scripts]. *)
  package_dir : string
}.

Record platform_info : Type := { os : string; archName : string; ext : string }.

(** [getPlatform]: [inl] is the message of the error it throws. *)
Definition getPlatform (m : machine) : string + platform_info :=
  match
    (if platform m =? "darwin" then Some "apple-darwin"
     else if platform m =? "linux" then Some "unknown-linux-gnu"
     else if platform m =? "win32" then Some "pc-windows-msvc"
     else None)
  with
  | None => inl ("Unsupported platform: " ++ platform m)
  | Some o =>
      match
        (if arch m =? "x64" then Some "x86_64"
         else if arch m =? "arm64" then Some "aarch64"
         else None)
      with
      | None => inl ("Unsupported architecture: " ++ arch m)
      | Some a =>
          inr {| os := o; archName := a;
                 ext := if platform m =? "win32" then "zip" else "tar.gz" |}
      end
  end.

(** A program of the event loop: synchronous steps, and [await]s of
    [httpsGet] at which the function is suspended. *)
Inductive js : Type :=
| Finish
| ProcessExit (code : nat)
| ConsoleLog (msg : string) (k : js)
| ConsoleError (msg : string) (k : js)
| Sync (step : fs -> string + fs) (k : js)
| AwaitGet (url : string) (k : settled -> js).

Definition REPO : string := "tupe12334/centy-installer".
Definition BINARY_NAME : string := "centy".

(** The [catch] block of [main]. *)
Definition failed (message : string) : js :=
  ConsoleError ("Failed to install centy: " ++ message)
    (ConsoleError
       "You can manually install from: https://github.com/tupe12334/centy-installer/releases"
       (ProcessExit 1)).

Definition extractTarGz (m : machine) (buffer destDir : string) (f : fs)
  : string + fs :=
  let tempTar := destDir ++ "/temp.tar" in
  match gunzip m buffer with
  | None => inl "incorrect header check"
  | Some gunzipped =>
      let f1 := write tempTar (File gunzipped false) f in
      match tar_members m gunzipped with
      | None => inl "Command failed: tar"
      | Some members => inr (remove tempTar (unpack destDir members f1))
      end
  end.

Definition extractZip (m : machine) (buffer destDir : string) (f : fs)
  : string + fs :=
  let tempZip := destDir ++ "/temp.zip" in
  let f1 := write tempZip (File buffer false) f in
  match zip_members m buffer with
  | None => inl "Command failed: unzip"
  | Some members => inr (remove tempZip (unpack destDir members f1))
  end.

Definition chmodSync (p : string) (f : fs) : string + fs :=
  match lookup p f with
  | Some (File c _) => inr (write p (File c true) f)
  | Some _ => inr f
  | None => inl ("ENOENT: no such file or directory, chmod '" ++ p ++ "'")
  end.

Definition main (m : machine) : js :=
  match getPlatform m with
  | inl message => failed message
  | inr p =>
      AwaitGet ("https://api.github.com/repos/" ++ REPO ++ "/releases/latest")
        (fun r =>
           match r with
           | Rejected message => failed message
           | Resolved data =>
               match tag_name m data with
               | None => failed "Unexpected token in JSON"
               | Some version =>
                   let binDir := package_dir m ++ "/bin" in
                   let binaryPath :=
                     binDir ++ "/" ++
                     (if platform m =? "win32" then BINARY_NAME ++ ".exe"
                      else BINARY_NAME) in
                   let fileName :=
                     BINARY_NAME ++ "-" ++ archName p ++ "-" ++ os p
                       ++ "." ++ ext p in
                   let url := "https://github.com/" ++ REPO
                                ++ "/releases/download/" ++ version
                                ++ "/" ++ fileName in
                   Sync (fun f => inr (mkdir_p binDir f))
                     (ConsoleLog
                        ("Downloading " ++ BINARY_NAME ++ " " ++ version
                           ++ " for " ++ archName p ++ "-" ++ os p ++ "...")
                        (AwaitGet url
                           (fun r =>
                              match r with
                              | Rejected message => failed message
                              | Resolved data =>
                                  Sync (if ext p =? "tar.gz"
                                        then extractTarGz m data binDir
                                        else extractZip m data binDir)
                                    (Sync (if platform m =? "win32"
                                           then (fun f => inr f)
                                           else chmodSync binaryPath)
                                       (ConsoleLog
                                          ("Successfully installed "
                                             ++ BINARY_NAME ++ " " ++ version)
                                          Finish))
                              end)))
               end
           end)
  end.

Inductive output : Type :=
| Log (msg : string)
| Err (msg : string)
| Request (url : string)
| Spawn (path : string).

Record process : Type := { disk : fs; console : list output }.

Definition say (o : output) (p : process) : process :=
  {| disk := disk p; console := (console p ++ [o])%list |}.

(** Where the synchronous part of a program ends. *)
Inductive stop : Type :=
| Exited (code : nat)
| Finished
| Suspended (url : string) (k : settled -> js).

(** Running a program up to its first [await].  An error thrown by a
    synchronous step lands in the [catch] block of [main]. *)
Fixpoint run_sync (prog : js) (p : process) : stop * process :=
  match prog with
  | Finish => (Finished, p)
  | ProcessExit code => (Exited code, p)
  | ConsoleLog msg k => run_sync k (say (Log msg) p)
  | ConsoleError msg k => run_sync k (say (Err msg) p)
  | Sync step k =>
      match step (disk p) with
      | inr f => run_sync k {| disk := f; console := console p |}
      | inl message =>
          (Exited 1,
           say (Err "You can manually install from: https://github.com/tupe12334/centy-installer/releases")
               (say (Err ("Failed to install centy: " ++ message)) p))
      end
  | AwaitGet url k => (Suspended url k, say (Request url) p)
  end.

(** The event loop: the program runs to the end, each [await] resumed
    with what [httpsGet] settles to.  [rounds] bounds the number of
    [await]s and [fuel] the requests of each. *)
Fixpoint run_loop (m : machine) (rounds fuel : nat) (prog : js) (p : process)
  : option (nat * process) :=
  match run_sync prog p with
  | (Exited code, p') => Some (code, p')
  | (Finished, p') => Some (0, p')
  | (Suspended url k, p') =>
      match rounds with
      | O => None
      | S rounds' =>
          match httpsGet (web m) fuel url with
          | None => None
          | Some r => run_loop m rounds' fuel (k r) p'
          end
      end
  end.

(** *** The bin wrapper

    [child] is what becomes of the spawned binary: an error event, or an
    exit with a code ([None] when a signal ended it). *)

Inductive child_outcome : Type :=
| ChildError (message : string)
| ChildExit (code : option nat).

Definition wrapper_binary (m : machine) : string :=
  package_dir m ++ "/bin/" ++
  (if platform m =? "win32" then "centy.exe" else "centy").

(** The wrapper: the exit code of the process and what it leaves.  When
    the binary is missing, requiring the installer runs [main] up to its
    first [await], and the call of [process.exit] that follows ends the
    process with whatever is still suspended. *)
Definition wrapper (m : machine) (child : child_outcome) (p : process)
  : nat * process :=
  match lookup (wrapper_binary m) (disk p) with
  | None =>
      match run_sync (main m)
                     (say (Err "centy binary not found. Running install...") p)
      with
      | (Exited code, p') => (code, p')
      | (Finished, p') => (0, p')
      | (Suspended _ _, p') => (0, p')
      end
  | Some _ =>
      let p' := say (Spawn (wrapper_binary m)) p in
      match child with
      | ChildError message =>
          (1, say (Err ("Failed to run centy: " ++ message)) p')
      | ChildExit code => (match code with Some c => c | None => 0 end, p')
      end
  end.

End Npm.

(** ** Observations on runs: what the statements below speak about *)

Module Obs.

Import Shell.

(** The URLs requested by [try_download], in order. *)
Definition downloads (t : list event) : list string :=
  flat_map (fun e => match e with Download u => [u] | _ => [] end) t.

(** The messages printed by [error], in order. *)
Definition errors (t : list event) : list string :=
  flat_map (fun e => match e with Error m => [m] | _ => [] end) t.

(** The binaries whose installation was started: one line "Installing
    name..." is printed at the start of each attempt. *)
Definition attempt_line (binary : string) : string :=
  "Installing " ++ binary ++ "...".

Definition attempts (t : list event) : list string :=
  flat_map (fun e => match e with
                     | Info m => if Str.starts_with "Installing " m then [m] else []
                     | _ => []
                     end) t.

(** Events that are neither a download request nor the start of an
    attempt. *)
Definition quiet (evs : list event) : Prop :=
  downloads evs = [] /\ attempts evs = [].

(** [wp c s Q]: the result and the state that [c] gives from [s]
    satisfy [Q]. *)
Definition wp {A} (c : sh A) (s : state) (Q : flow A -> state -> Prop) : Prop :=
  Q (fst (c s)) (snd (c s)).

Definition available (h : host) (url : string) : bool :=
  match asset h url with Some _ => true | None => false end.

(** What a detection function leaves in the variable it is assigned to:
    nothing when it reports an unsupported host. *)
Definition os_of (h : host) : string :=
  match Platform.detect_os_name (uname_s h) with Some o => o | None => EmptyString end.
Definition os_legacy_of (h : host) : string :=
  match Platform.detect_os_legacy_name (uname_s h) with Some o => o | None => EmptyString end.
Definition arch_of (h : host) : string :=
  match Platform.detect_arch_name (uname_m h) with Some a => a | None => EmptyString end.

(** The version [install_binary] puts into URLs, when it gets one. *)
Definition resolved_version (h : host) (binary version : string) : option string :=
  if Str.is_empty version then
    match release_index h ("https://api.github.com/repos/centy-io/" ++ binary
                             ++ "/releases/latest") with
    | Some response =>
        if Str.is_empty (scan_tag_name h response) then None
        else Some (ensure_v_prefix (scan_tag_name h response))
    | None => None
    end
  else Some (ensure_v_prefix version).

(** The candidate URLs of one attempt, in priority order. *)
Definition candidate_urls (binary version os os_legacy arch ext : string)
  : list string :=
  let base := InstallSh.download_base binary version in
  (base ++ InstallSh.name1 binary version arch os ext)
  :: (base ++ InstallSh.name2 binary os_legacy arch)
  :: (if os_legacy =? "windows"
      then [ base ++ InstallSh.name3 binary os_legacy arch ]
      else []).

Definition candidates (h : host) (binary version : string) : list string :=
  candidate_urls binary version (os_of h) (os_legacy_of h) (arch_of h)
                 (Platform.get_archive_ext (os_of h)).

(** The candidates up to and including the first one that can be
    downloaded. *)
Fixpoint tried (ok : string -> bool) (urls : list string) : list string :=
  match urls with
  | [] => []
  | u :: rest => if ok u then [u] else u :: tried ok rest
  end.

(** Every URL occurs in one of the messages. *)
Definition carried_by (urls messages : list string) : bool :=
  forallb (fun u => existsb (Str.contains u) messages) urls.

Definition download_failure (binary : string) : string :=
  "Failed to download " ++ binary ++ " (tried multiple URL formats)".

(** What [main] does before the loop over the binaries, and the state in
    which the loop starts. *)
Definition before_installs (h : host) : sh unit :=
  (InstallSh.banner ;;
   run (InstallSh.check_requirements h) ;;
   InstallSh.show_configuration h ;;
   InstallSh.make_dir (InstallSh.BIN_DIR h) ;;
   InstallSh.make_dir (InstallSh.VERSIONS_DIR h))%sh.

Definition loop_start (h : host) (s : state) : state :=
  snd (before_installs h s).

(** The status of each attempt of the loop, every attempt run in the
    state its predecessors left. *)
Fixpoint statuses (h : host) (bs : list string) (s : state) : list nat :=
  match bs with
  | [] => []
  | binary :: rest =>
      match call (InstallSh.install_binary h binary (VERSION h)) s with
      | (Next status, s1) =>
          status :: statuses h rest (snd (InstallSh.echo EmptyString s1))
      | _ => []
      end
  end.

(** The status with which one attempt ends when it is run in [s]. *)
Definition attempt_status (h : host) (binary : string) (s : state) : nat :=
  exit_status (fst (InstallSh.install_binary h binary (VERSION h) s)).

(** The state in which the loop is after its rounds for [bs], the first
    of them started in [s]: every round runs [install_binary] and prints
    an empty line. *)
Fixpoint loop_state (h : host) (bs : list string) (s : state) : state :=
  match bs with
  | [] => s
  | binary :: rest =>
      loop_state h rest
        (snd (InstallSh.echo EmptyString
                (snd (InstallSh.install_binary h binary (VERSION h) s))))
  end.

(** What [main] does after the loop, with the two strings the loop
    built. *)
Definition after_installs (h : host) (installed failed : string) : sh unit :=
  ((if negb (Str.is_empty installed)
    then run (InstallSh.setup_path h) else ret tt) ;;
   InstallSh.report h installed failed)%sh.

(** A regular file or a link is in the way of one of the two [mkdir -p]
    of [main]; a regular file is. *)
Definition base_dirs_blocked (h : host) (f : fs) : bool :=
  blocked (InstallSh.BIN_DIR h) f || blocked (InstallSh.VERSIONS_DIR h) f.

Definition base_dirs_barred (h : host) (f : fs) : bool :=
  barred (InstallSh.BIN_DIR h) f || barred (InstallSh.VERSIONS_DIR h) f.

(** The two strings the loop builds from the statuses. *)
Fixpoint tally (bs : list string) (sts : list nat) (installed failed : string)
  : string * string :=
  match bs, sts with
  | binary :: bs', st :: sts' =>
      if (st =? 0)%nat
      then tally bs' sts' (installed ++ " " ++ binary) failed
      else tally bs' sts' installed (failed ++ " " ++ binary)
  | _, _ => (installed, failed)
  end.

(** No symbolic link of [f'] is new: each one is a link of [f] with the
    same target. *)
Definition no_new_symlinks (f f' : fs) : Prop :=
  forall p t, lookup p f' = Some (Symlink t) -> lookup p f = Some (Symlink t).

Definition no_newline (s : string) : Prop := Str.has_char Str.nl s = false.

(** A name that is one path component and that no command reads as a
    pattern: it is not empty, it is neither [.] nor [..], and it has no
    slash, no line break, no backslash and no pattern character. *)
Definition plain_name (n : string) : bool :=
  negb (Str.is_empty n) && negb (n =? ".") && negb (n =? "..")
  && negb (Str.has_char "/" n) && negb (Str.has_char Str.nl n)
  && pattern_free n.

(** Two directories of which neither is the other or lies in it. *)
Definition apart (a b : string) : bool :=
  negb (a =? b) && negb (under a b) && negb (under b a).

(** The paths of a directory: the directory and what lies in it. *)
Definition area (dir q : string) : bool := (q =? dir) || under dir q.

(** [g] differs from [f] at paths of [A] only: every other path has the
    entry it had, and every entry of [g] is an entry of [f] or is at a
    path of [A]. *)
Definition touches (A : string -> bool) (f g : fs) : Prop :=
  (forall q, A q = false -> lookup q g = lookup q f) /\
  (forall e, In e g -> In e f \/ A (fst e) = true).

(** Where an attempt puts the file and the link of a binary. *)
Definition install_path_of (h : host) (binary v : string) : string :=
  InstallSh.VERSIONS_DIR h ++ "/" ++ binary ++ "/" ++ strip_v v.
Definition target_of (h : host) (binary v : string) : string :=
  install_path_of h binary v ++ "/" ++ binary.
Definition link_of (h : host) (binary : string) : string :=
  InstallSh.BIN_DIR h ++ "/" ++ binary.

(** The disk is ready for an attempt: the installation directory is
    given in normal form, the name of the binary is plain, its link path
    is no directory, the temporary directory that [mktemp] is about to
    make lies apart from the installation directory, and,
    when the attempt gets a version, that version without its marker is
    a plain name, no file or link is in the way of the version
    directory, and the path of the target is neither a directory nor a
    link. *)
Definition ready (h : host) (binary version : string) (s : state) : bool :=
  normal (InstallSh.INSTALL_DIR h)
  && plain_name binary
  && no_dir (link_of h binary) (files s)
  && apart (tmp_name (mktemp_count s)) (InstallSh.INSTALL_DIR h)
  && match resolved_version h binary version with
     | None => true
     | Some v =>
         plain_name (strip_v v)
         && negb (blocked (install_path_of h binary v) (files s))
         && no_dir (target_of h binary v) (files s)
         && negb (is_symlink (target_of h binary v) (files s))
     end.

(** What [setup_path] does to the files, once the configuration file is
    chosen, and as a whole. *)
Definition path_step_on (h : host) (config_file : string) (f : fs) : fs :=
  if is_file config_file f then
    if negb (Grep.grep_q (InstallSh.BIN_DIR h)
               (InstallSh.file_content config_file f))
    then append_line config_file (InstallSh.path_export h)
           (append_line config_file "# Added by Centy installer"
              (append_line config_file EmptyString f))
    else f
  else if writable config_file f
       then create_with_line config_file (InstallSh.path_export h) f
       else f.

Definition config_file_of (h : host) (f : fs) : string :=
  let shell_name := basename (SHELL h) in
  if shell_name =? "bash" then
    if is_file (HOME h ++ "/.bash_profile") f
    then HOME h ++ "/.bash_profile" else HOME h ++ "/.bashrc"
  else if shell_name =? "zsh" then HOME h ++ "/.zshrc"
  else if shell_name =? "fish" then HOME h ++ "/.config/fish/config.fish"
  else HOME h ++ "/.profile".

Definition on_path (h : host) : bool :=
  Str.contains (":" ++ InstallSh.BIN_DIR h ++ ":") (":" ++ PATH h ++ ":").

Definition path_step (h : host) (f : fs) : fs :=
  if on_path h then f else path_step_on h (config_file_of h f) f.

(** The configuration files among which the PATH step chooses. *)
Definition config_files (h : host) : list string :=
  [ HOME h ++ "/.bash_profile"; HOME h ++ "/.bashrc"; HOME h ++ "/.zshrc";
    HOME h ++ "/.config/fish/config.fish"; HOME h ++ "/.profile" ].

(** One of them is a symbolic link. *)
Definition config_linked (h : host) (f : fs) : bool :=
  existsb (fun p => is_symlink p f) (config_files h).

(** The PATH step has a line to write and cannot open the configuration
    file: the directory is not on the PATH, and the file is no regular
    file and cannot be created. *)
Definition path_step_fails (h : host) (f : fs) : bool :=
  negb (on_path h)
  && negb (is_file (config_file_of h f) f)
  && negb (writable (config_file_of h f) f).

Definition requested (h : host) : list string := words (InstallSh.BINARIES h).

Definition prerequisites (h : host) : bool :=
  (has_curl h || has_wget h) && has_tar h.

End Obs.

(** ** Hosts and states used in examples *)

Module Examples.

Import Shell.

Definition no_members : string -> option (list (string * (string * bool))) :=
  fun _ => None.

Definition fresh : state :=
  {| files := [("/home/u", Dir); ("/c/Users/u", Dir); ("/tmp", Dir)];
     trace := []; DOWNLOAD_CMD := "curl"; exit_trap := None;
     mktemp_count := 0 |}.

(** A Windows host (Git Bash) on which no release asset can be fetched. *)
Definition windows_offline : host :=
  {| uname_s := "MINGW64_NT-10.0"; uname_m := "x86_64";
     HOME := "/c/Users/u"; SHELL := "/usr/bin/bash"; PATH := "/usr/bin";
     env_INSTALL_DIR := EmptyString; env_BINARIES := EmptyString;
     VERSION := "1.2.3";
     has_curl := true; has_wget := false; has_tar := true; has_unzip := true;
     redirect_error := 1;
     release_index := fun _ => None;
     scan_tag_name := fun _ => EmptyString;
     asset := fun _ => None;
     tar_members := no_members; zip_members := no_members |}.

(** A Linux host with curl: the daemon is released as an archive, the
    TUI as a raw binary under the legacy name. *)
Definition linux : host :=
  {| uname_s := "Linux"; uname_m := "x86_64";
     HOME := "/home/u"; SHELL := "/bin/zsh"; PATH := "/usr/bin:/bin";
     env_INSTALL_DIR := EmptyString; env_BINARIES := EmptyString;
     VERSION := EmptyString;
     has_curl := true; has_wget := false; has_tar := true; has_unzip := false;
     redirect_error := 1;
     release_index := fun url =>
       if url =? "https://api.github.com/repos/centy-io/centy-daemon/releases/latest"
       then Some "daemon-release"
       else if url =? "https://api.github.com/repos/centy-io/centy-tui/releases/latest"
       then Some "tui-release"
       else None;
     scan_tag_name := fun body =>
       if body =? "daemon-release" then "v0.1.6"
       else if body =? "tui-release" then "v0.2.0"
       else EmptyString;
     asset := fun url =>
       if url =? "https://github.com/centy-io/centy-daemon/releases/download/v0.1.6/centy-daemon-v0.1.6-x86_64-unknown-linux-gnu.tar.gz"
       then Some "daemon-tgz"
       else if url =? "https://github.com/centy-io/centy-tui/releases/download/v0.2.0/centy-tui-linux-x86_64"
       then Some "tui-elf"
       else None;
     tar_members := fun bytes =>
       if bytes =? "daemon-tgz"
       then Some [("centy-daemon", ("daemon-elf", true))] else None;
     zip_members := no_members |}.

(** The same host without a download tool. *)
Definition no_tools : host :=
  {| uname_s := "Linux"; uname_m := "x86_64";
     HOME := "/home/u"; SHELL := "/bin/zsh"; PATH := "/usr/bin:/bin";
     env_INSTALL_DIR := EmptyString; env_BINARIES := EmptyString;
     VERSION := EmptyString;
     has_curl := false; has_wget := false; has_tar := true; has_unzip := false;
     redirect_error := 1;
     release_index := release_index linux;
     scan_tag_name := scan_tag_name linux;
     asset := asset linux;
     tar_members := tar_members linux;
     zip_members := no_members |}.

(** A Linux host whose daemon archive wraps the binary in a directory of
    the same name and also ships another file of that name. *)
Definition wrapped_archive : host :=
  {| uname_s := "Linux"; uname_m := "x86_64";
     HOME := "/home/u"; SHELL := "/bin/zsh"; PATH := "/usr/bin:/bin";
     env_INSTALL_DIR := EmptyString; env_BINARIES := "centy-daemon";
     VERSION := "0.1.6";
     has_curl := true; has_wget := false; has_tar := true; has_unzip := false;
     redirect_error := 1;
     release_index := fun _ => None;
     scan_tag_name := fun _ => EmptyString;
     asset := fun url =>
       if url =? "https://github.com/centy-io/centy-daemon/releases/download/v0.1.6/centy-daemon-v0.1.6-x86_64-unknown-linux-gnu.tar.gz"
       then Some "wrapped-tgz" else None;
     tar_members := fun bytes =>
       if bytes =? "wrapped-tgz"
       then Some [("completions/centy-daemon", ("completion-script", false));
                  ("centy-daemon/centy-daemon", ("daemon-elf", true))]
       else None;
     zip_members := no_members |}.

(** The Linux host with no release of the TUI. *)
Definition tui_unreleased : host :=
  {| uname_s := "Linux"; uname_m := "x86_64";
     HOME := "/home/u"; SHELL := "/bin/zsh"; PATH := "/usr/bin:/bin";
     env_INSTALL_DIR := EmptyString; env_BINARIES := EmptyString;
     VERSION := EmptyString;
     has_curl := true; has_wget := false; has_tar := true; has_unzip := false;
     redirect_error := 1;
     release_index := fun url =>
       if url =? "https://api.github.com/repos/centy-io/centy-daemon/releases/latest"
       then Some "daemon-release" else None;
     scan_tag_name := scan_tag_name linux;
     asset := asset linux;
     tar_members := tar_members linux;
     zip_members := no_members |}.

(** The Linux host with the binaries requested in the other order: the
    one without a release comes first. *)
Definition tui_first : host :=
  {| uname_s := "Linux"; uname_m := "x86_64";
     HOME := "/home/u"; SHELL := "/bin/zsh"; PATH := "/usr/bin:/bin";
     env_INSTALL_DIR := EmptyString;
     env_BINARIES := "centy-tui centy-daemon";
     VERSION := EmptyString;
     has_curl := true; has_wget := false; has_tar := true; has_unzip := false;
     redirect_error := 1;
     release_index := release_index tui_unreleased;
     scan_tag_name := scan_tag_name linux;
     asset := asset linux;
     tar_members := tar_members linux;
     zip_members := no_members |}.

(** The Linux host with fish as the login shell; on [fresh] the
    directory of fish's configuration file does not exist. *)
Definition fish_user : host :=
  {| uname_s := "Linux"; uname_m := "x86_64";
     HOME := "/home/u"; SHELL := "/usr/bin/fish"; PATH := "/usr/bin:/bin";
     env_INSTALL_DIR := EmptyString; env_BINARIES := EmptyString;
     VERSION := EmptyString;
     has_curl := true; has_wget := false; has_tar := true; has_unzip := false;
     redirect_error := 1;
     release_index := release_index linux;
     scan_tag_name := scan_tag_name linux;
     asset := asset linux;
     tar_members := tar_members linux;
     zip_members := no_members |}.

(** A disk on which a regular file is where the daemon's version
    directories belong. *)
Definition versions_taken : state :=
  {| files := [("/home/u", Dir); ("/tmp", Dir);
               ("/home/u/.centy/versions/centy-daemon", File "notes" false)];
     trace := []; DOWNLOAD_CMD := "curl"; exit_trap := None;
     mktemp_count := 0 |}.

(** A Linux host where the installation directory has brackets in its
    name. *)
Definition bracket_dir : host :=
  {| uname_s := "Linux"; uname_m := "x86_64";
     HOME := "/home/u"; SHELL := "/bin/zsh"; PATH := "/usr/bin:/bin";
     env_INSTALL_DIR := "/opt/[x]"; env_BINARIES := EmptyString;
     VERSION := EmptyString;
     has_curl := true; has_wget := false; has_tar := true; has_unzip := false;
     redirect_error := 1;
     release_index := release_index linux;
     scan_tag_name := scan_tag_name linux;
     asset := asset linux;
     tar_members := tar_members linux;
     zip_members := no_members |}.

End Examples.

(** ** Observations and examples for the npm installer *)

Module NpmObs.

Import Npm.

(** The URL reached from [url] by following exactly [n] redirects, when
    the first [n] responses are redirects. *)
Fixpoint hop (web : string -> response) (n : nat) (url : string)
  : option string :=
  match n with
  | O => Some url
  | S n' =>
      match web url with
      | Response statusCode location _ =>
          if (statusCode =? 302)%nat || (statusCode =? 301)%nat
          then hop web n' location else None
      | RequestError _ => None
      end
  end.

(** The claim that some depth bounds the redirects followed: a chain of
    more than [depth] redirects never resolves. *)
Definition redirects_bounded_by (depth : nat) : Prop :=
  forall (web : string -> response) (url final location body : string) (n : nat),
    hop web n url = Some final ->
    web final = Response 200 location body ->
    depth < n ->
    forall fuel, httpsGet web fuel url <> Some (Resolved body).

(** A server on which a URL of [n] letters redirects to the URL of
    [n - 1] letters, and the empty URL answers with the payload. *)
Definition chain_web (url : string) : response :=
  match url with
  | EmptyString => Response 200 EmptyString "payload"
  | String _ rest => Response 302 rest EmptyString
  end.

Fixpoint chain_url (n : nat) : string :=
  match n with
  | O => EmptyString
  | S n' => String "r" (chain_url n')
  end.

Definition no_unpacker : string -> option (list (string * (string * bool))) :=
  fun _ => None.

(** A FreeBSD machine, and a Linux machine whose release index is
    unreachable. *)
Definition freebsd : machine :=
  {| platform := "freebsd"; arch := "x64";
     web := fun _ => RequestError "getaddrinfo ENOTFOUND api.github.com";
     tag_name := fun _ => None; gunzip := fun _ => None;
     tar_members := no_unpacker; zip_members := no_unpacker;
     package_dir := "/usr/local/lib/node_modules/centy" |}.

Definition linux_offline : machine :=
  {| platform := "linux"; arch := "x64";
     web := fun _ => RequestError "getaddrinfo ENOTFOUND api.github.com";
     tag_name := fun _ => None; gunzip := fun _ => None;
     tar_members := no_unpacker; zip_members := no_unpacker;
     package_dir := "/usr/lib/node_modules/centy" |}.

Definition started : process := {| disk := []; console := [] |}.

Definition api_url : string :=
  "https://api.github.com/repos/tupe12334/centy-installer/releases/latest".

Definition not_found_line : output :=
  Err "centy binary not found. Running install...".

Definition manual_line : output :=
  Err "You can manually install from: https://github.com/tupe12334/centy-installer/releases".

End NpmObs.

(** ** Further observations *)

Module Obs2.

Import Shell Obs.

Definition blank_free (s : string) : Prop :=
  forall c, is_space c = true -> Str.has_char c s = false.

(** The pairs of names the two OS tables give. *)
Definition os_pairs : list (string * string) :=
  [ ("apple-darwin", "darwin");
    ("unknown-linux-gnu", "linux");
    ("pc-windows-msvc", "windows") ].

(** The lines of the summary that name binaries: one for each requested
    binary whose path in the bin directory is a symbolic link. *)
Definition listed (h : host) (bs : list string) (f : fs) : list event :=
  map (fun b => Echo ("  - " ++ InstallSh.BIN_DIR h ++ "/" ++ b))
      (filter (fun b => is_symlink (InstallSh.BIN_DIR h ++ "/" ++ b) f) bs).

Definition summary_head : list event :=
  [ Echo EmptyString; Echo InstallSh.rule; Success "Installation complete!";
    Echo InstallSh.rule; Echo EmptyString; Echo "Installed binaries:" ].

Definition summary_foot (h : host) : list event :=
  [ Echo EmptyString;
    Echo ("To get started, ensure " ++ InstallSh.BIN_DIR h ++ " is in your PATH,");
    Echo "then run any of the installed binaries.";
    Echo EmptyString ].

(** A Windows host (Git Bash) with curl and tar but without unzip, for
    which the daemon is released as a zip archive. *)
Definition git_bash : host :=
  {| uname_s := "MINGW64_NT-10.0"; uname_m := "x86_64";
     HOME := "/c/Users/u"; SHELL := "/usr/bin/bash"; PATH := "/usr/bin";
     env_INSTALL_DIR := EmptyString; env_BINARIES := EmptyString;
     VERSION := "0.1.6";
     has_curl := true; has_wget := false; has_tar := true; has_unzip := false;
     redirect_error := 1;
     release_index := fun _ => None;
     scan_tag_name := fun _ => EmptyString;
     asset := fun url =>
       if url =? "https://github.com/centy-io/centy-daemon/releases/download/v0.1.6/centy-daemon-v0.1.6-x86_64-pc-windows-msvc.zip"
       then Some "daemon-zip"
       else None;
     tar_members := fun _ => None;
     zip_members := fun _ => Some [("centy-daemon", ("MZ", true))] |}.

End Obs2.

(** ** Further observations on the npm installer *)

Module NpmObs2.

Import Npm NpmObs.

(** The archive that [extractTarGz] or [extractZip] writes next to the
    binary before it unpacks it. *)
Definition temp_archive (m : machine) : string :=
  (package_dir m ++ "/bin")
    ++ (if platform m =? "win32" then "/temp.zip" else "/temp.tar").

Definition success_line (version : string) : output :=
  Log ("Successfully installed centy " ++ version).

(** A Linux machine that reaches the release index and is sent to a
    mirror for the archive. *)
Definition linux_online : machine :=
  {| platform := "linux"; arch := "x64";
     web := fun url =>
       if url =? api_url then Response 200 EmptyString "release-json"
       else if url =? "https://github.com/tupe12334/centy-installer/releases/download/v1.0.0/centy-x86_64-unknown-linux-gnu.tar.gz"
       then Response 302 "https://mirror.example/centy.tar.gz" EmptyString
       else if url =? "https://mirror.example/centy.tar.gz"
       then Response 200 EmptyString "tgz-bytes"
       else Response 404 EmptyString EmptyString;
     tag_name := fun data =>
       if data =? "release-json" then Some "v1.0.0" else None;
     gunzip := fun buffer =>
       if buffer =? "tgz-bytes" then Some "tar-bytes" else None;
     tar_members := fun bytes =>
       if bytes =? "tar-bytes" then Some [("centy", ("ELF", false))] else None;
     zip_members := no_unpacker;
     package_dir := "/usr/lib/node_modules/centy" |}.

(** A server on which two URLs redirect to each other. *)
Definition ping_pong (url : string) : response :=
  if url =? "https://a.example/" then Response 302 "https://b.example/" EmptyString
  else Response 301 "https://a.example/" EmptyString.

End NpmObs2.

(** ** The raw-binary installer (the shell script that follows the npm
    installer in scripts/install.js)

    This script downloads each binary as it is, with no archive and no
    temporary directory, and keeps everything in one directory: the file
    of a version in [INSTALL_DIR/name/version] and the link to it at
    [INSTALL_DIR/name].  Whether a path is a directory decides what [rm]
    and [ln] do with it, so the commands below ask for it. *)

Module RawOnly.

Import Shell Platform.
Local Open Scope sh_scope.

(** [p] is a directory: it has an entry that says so, or it has none and
    some entry lies in it. *)
Definition is_dir (p : string) (f : fs) : bool :=
  match lookup p f with
  | Some Dir => true
  | Some _ => false
  | None => existsb (fun e => under p (fst e)) f
  end.

(** [rm -f p]: a directory is refused. *)
Definition rm_f (p : string) (f : fs) : fs :=
  if is_dir p f then f else remove p f.

(** [ln -s target link]: when [link] is a directory the link is made
    inside it, under the last component of [target]; the command fails
    when the name it would give the link is taken. *)
Definition ln_s (target link : string) (f : fs) : fs :=
  let name := if is_dir link f then link ++ "/" ++ basename target else link in
  match lookup name f with
  | None => if is_dir name f then f else write name (Symlink target) f
  | Some _ => f
  end.

Section Script.

Variable h : host.

Definition GITHUB_ORG : string := "centy-io".
Definition DEFAULT_INSTALL_DIR : string := HOME h ++ "/.centy/bin".
Definition INSTALL_DIR : string :=
  if Str.is_empty (env_INSTALL_DIR h) then DEFAULT_INSTALL_DIR
  else env_INSTALL_DIR h.

Definition ALL_BINARIES : string :=
  "centy-daemon centy-tui centy-daemon-tui tui-manager".
Definition BINARIES : string :=
  if Str.is_empty (env_BINARIES h) then ALL_BINARIES else env_BINARIES h.

Definition check_requirements : sh unit :=
  if has_curl h then set_DOWNLOAD_CMD "curl"
  else if has_wget h then set_DOWNLOAD_CMD "wget"
  else InstallSh.error "Either curl or wget is required" ;; exit_ 1.

(** The same two commands as [try_download] of the multi-format
    script. *)
Definition download (url output : string) : sh bool :=
  InstallSh.try_download h url output.

(** The latest version is echoed without its leading v. *)
Definition get_latest_version (repo : string) : sh string :=
  let api_url :=
    "https://api.github.com/repos/" ++ GITHUB_ORG ++ "/" ++ repo
      ++ "/releases/latest" in
  emit (Fetch api_url) ;;
  match release_index h api_url with
  | None =>
      InstallSh.error ("Failed to fetch release info for " ++ repo) ;;
      return_ 1
  | Some response =>
      let version := scan_tag_name h response in
      if Str.is_empty version then
        InstallSh.error ("Could not determine latest version for " ++ repo) ;;
        return_ 1
      else ret (strip_v version)
  end.

Definition download_url (binary version arch os : string) : string :=
  "https://github.com/" ++ GITHUB_ORG ++ "/" ++ binary
    ++ "/releases/download/v" ++ version ++ "/" ++ binary ++ "-"
    ++ (arch ++ "-" ++ os).

(** "Get version if not specified". *)
Definition resolve_version (binary version : string) : sh string :=
  if Str.is_empty version then
    ' (status, latest) <- capture (get_latest_version binary) ;;
    if (status =? 0)%nat then ret latest else return_ 1
  else ret version.

(** The function is called where its status is tested, so a command of
    it that fails ([rm] on a directory, [ln] on a name that is taken) does
    not end it. *)
Definition install_binary (binary version : string) : sh unit :=
  InstallSh.info ("Installing " ++ binary ++ "...") ;;
  version <- resolve_version binary version ;;
  InstallSh.info ("  Version: " ++ version) ;;
  ' (_, os) <- capture (InstallSh.detect_os h) ;;
  ' (_, arch) <- capture (InstallSh.detect_arch h) ;;
  let install_path := INSTALL_DIR ++ "/" ++ binary ++ "/" ++ version in
  modify (mkdir_p install_path) ;;
  let binary_path := install_path ++ "/" ++ binary in
  InstallSh.info ("  Downloading from: " ++ download_url binary version arch os) ;;
  ok <- download (download_url binary version arch os) binary_path ;;
  if negb ok then
    InstallSh.error ("Failed to download " ++ binary) ;;
    modify (rm_f binary_path) ;;
    return_ 1
  else
    modify (chmod_x binary_path) ;;
    let symlink_path := INSTALL_DIR ++ "/" ++ binary in
    modify (rm_f symlink_path) ;;
    modify (ln_s binary_path symlink_path) ;;
    InstallSh.success
      ("Installed " ++ binary ++ " " ++ version ++ " to " ++ binary_path).

Definition path_export : string :=
  "export PATH=" ++ Str.dquote ++ "${PATH}:" ++ INSTALL_DIR ++ Str.dquote.

Definition setup_path : sh unit :=
  if Str.contains (":" ++ INSTALL_DIR ++ ":") (":" ++ PATH h ++ ":")
  then return_ 0
  else
    InstallSh.info ("Adding " ++ INSTALL_DIR ++ " to PATH...") ;;
    let shell_name := basename (SHELL h) in
    config_file <- InstallSh.config_file_for h shell_name ;;
    is_there <- query (is_file config_file) ;;
    (if is_there then
       content <- query (InstallSh.file_content config_file) ;;
       if negb (Grep.grep_q INSTALL_DIR content) then
         InstallSh.redirect h config_file
           (append_line config_file EmptyString) ;;
         InstallSh.redirect h config_file
           (append_line config_file "# Added by Centy installer") ;;
         InstallSh.redirect h config_file
           (append_line config_file path_export) ;;
         InstallSh.info ("Added PATH to " ++ config_file)
       else ret tt
     else
       InstallSh.redirect h config_file
         (create_with_line config_file path_export) ;;
       InstallSh.info ("Created " ++ config_file ++ " with PATH")) ;;
    InstallSh.warn ("Please restart your shell or run: source " ++ config_file).

Fixpoint list_installed (bs : list string) : sh unit :=
  match bs with
  | [] => ret tt
  | binary :: rest =>
      linked <- query (is_symlink (INSTALL_DIR ++ "/" ++ binary)) ;;
      (if linked then InstallSh.echo ("  - " ++ INSTALL_DIR ++ "/" ++ binary)
       else ret tt) ;;
      list_installed rest
  end.

Definition print_summary : sh unit :=
  InstallSh.echo EmptyString ;;
  InstallSh.echo InstallSh.rule ;;
  InstallSh.success "Installation complete!" ;;
  InstallSh.echo InstallSh.rule ;;
  InstallSh.echo EmptyString ;;
  InstallSh.echo "Installed binaries:" ;;
  list_installed (words BINARIES) ;;
  InstallSh.echo EmptyString ;;
  InstallSh.echo ("To get started, ensure " ++ INSTALL_DIR ++ " is in your PATH,") ;;
  InstallSh.echo "then run any of the installed binaries." ;;
  InstallSh.echo EmptyString.

(** The loop "Install each binary": [failed] is the string it builds. *)
Fixpoint install_each (bs : list string) (failed : string) : sh string :=
  match bs with
  | [] => ret failed
  | binary :: rest =>
      status <- call (install_binary binary (VERSION h)) ;;
      let failed :=
        if negb (status =? 0)%nat then failed ++ " " ++ binary else failed in
      InstallSh.echo EmptyString ;;
      install_each rest failed
  end.

Definition main : sh unit :=
  InstallSh.banner ;;
  run check_requirements ;;
  InstallSh.info ("Installation directory: " ++ INSTALL_DIR) ;;
  InstallSh.info ("Binaries to install: " ++ BINARIES) ;;
  ' (_, arch) <- capture (InstallSh.detect_arch h) ;;
  ' (_, os) <- capture (InstallSh.detect_os h) ;;
  InstallSh.info ("Platform: " ++ arch ++ "-" ++ os) ;;
  InstallSh.echo EmptyString ;;
  InstallSh.make_dir INSTALL_DIR ;;
  failed <- install_each (words BINARIES) EmptyString ;;
  run setup_path ;;
  if negb (Str.is_empty failed) then
    InstallSh.warn ("Some binaries failed to install:" ++ failed) ;;
    exit_ 1
  else run print_summary.

End Script.

End RawOnly.

(** ** Observations on the raw-binary installer *)

Module RawObs.

Import Shell.

Definition requested (h : host) : list string := words (RawOnly.BINARIES h).

(** Where the script means the link of a binary to be: the path it hands
    to [ln] and tests in the summary. *)
Definition link_path (h : host) (binary : string) : string :=
  RawOnly.INSTALL_DIR h ++ "/" ++ binary.

(** Neither a regular file nor a symbolic link is at [p]: the path is
    free or a directory. *)
Definition free_or_dir (p : string) (f : fs) : bool :=
  negb (is_file p f) && negb (is_symlink p f).

(** Names that are one path component. *)
Definition one_component (binary : string) : Prop :=
  Str.has_char "/" binary = false.

(** The lines of the summary that name binaries. *)
Definition listed (h : host) (bs : list string) (f : fs) : list event :=
  map (fun b => Echo ("  - " ++ link_path h b))
      (filter (fun b => is_symlink (link_path h b) f) bs).

Definition summary_head : list event :=
  [ Echo EmptyString; Echo InstallSh.rule; Success "Installation complete!";
    Echo InstallSh.rule; Echo EmptyString; Echo "Installed binaries:" ].

Definition summary_foot (h : host) : list event :=
  [ Echo EmptyString;
    Echo ("To get started, ensure " ++ RawOnly.INSTALL_DIR h ++ " is in your PATH,");
    Echo "then run any of the installed binaries.";
    Echo EmptyString ].

(** The version an attempt works with, when it gets one: the pinned
    version as it is given, or the latest tag without its leading v. *)
Definition resolved_version (h : host) (binary version : string)
  : option string :=
  if Str.is_empty version then
    match release_index h ("https://api.github.com/repos/centy-io/" ++ binary
                             ++ "/releases/latest") with
    | Some response =>
        if Str.is_empty (scan_tag_name h response) then None
        else Some (strip_v (scan_tag_name h response))
    | None => None
    end
  else Some version.

(** The URL an attempt asks for. *)
Definition url_of (h : host) (binary version : string) : string :=
  RawOnly.download_url binary version (Obs.arch_of h) (Obs.os_of h).

(** What [main] does before the loop over the binaries. *)
Definition before_installs (h : host) : sh unit :=
  (InstallSh.banner ;;
   run (RawOnly.check_requirements h) ;;
   InstallSh.info ("Installation directory: " ++ RawOnly.INSTALL_DIR h) ;;
   InstallSh.info ("Binaries to install: " ++ RawOnly.BINARIES h) ;;
   ' (_, arch) <- capture (InstallSh.detect_arch h) ;;
   ' (_, os) <- capture (InstallSh.detect_os h) ;;
   InstallSh.info ("Platform: " ++ arch ++ "-" ++ os) ;;
   InstallSh.echo EmptyString ;;
   InstallSh.make_dir (RawOnly.INSTALL_DIR h))%sh.

(** What [main] does with the string the loop built. *)
Definition after_installs (h : host) (failed : string) : sh unit :=
  (run (RawOnly.setup_path h) ;;
   if negb (Str.is_empty failed) then
     InstallSh.warn ("Some binaries failed to install:" ++ failed) ;;
     exit_ 1
   else run (RawOnly.print_summary h))%sh.

(** None of the names is a file or a link in the installation
    directory. *)
Definition names_free (h : host) (bs : list string) (f : fs) : Prop :=
  forall b, In b bs -> free_or_dir (link_path h b) f = true.

(** A Linux host for which the daemon is released as a raw binary, in the
    versions 0.1.6 and, as the latest, 0.2.0. *)
Definition linux_raw : host :=
  {| uname_s := "Linux"; uname_m := "x86_64";
     HOME := "/home/u"; SHELL := "/bin/zsh"; PATH := "/usr/bin:/bin";
     env_INSTALL_DIR := EmptyString; env_BINARIES := "centy-daemon";
     VERSION := EmptyString;
     has_curl := true; has_wget := false; has_tar := false; has_unzip := false;
     redirect_error := 1;
     release_index := fun url =>
       if url =? "https://api.github.com/repos/centy-io/centy-daemon/releases/latest"
       then Some "daemon-release" else None;
     scan_tag_name := fun body =>
       if body =? "daemon-release" then "v0.2.0" else EmptyString;
     asset := fun url =>
       if url =? "https://github.com/centy-io/centy-daemon/releases/download/v0.1.6/centy-daemon-x86_64-unknown-linux-gnu"
       then Some "daemon-0.1.6"
       else if url =? "https://github.com/centy-io/centy-daemon/releases/download/v0.2.0/centy-daemon-x86_64-unknown-linux-gnu"
       then Some "daemon-0.2.0"
       else None;
     tar_members := fun _ => None;
     zip_members := fun _ => None |}.

Definition empty_disk : state :=
  {| files := []; trace := []; DOWNLOAD_CMD := EmptyString; exit_trap := None;
     mktemp_count := 0 |}.

End RawObs.
(** * Facts *)

(** ** Strings *)

Lemma starts_with_app p s : Str.starts_with p (p ++ s) = true.
Proof.
  induction p as [|a p IH]; simpl; [reflexivity|].
  now rewrite Ascii.eqb_refl, IH.
Qed.

Lemma starts_with_inv p s :
  Str.starts_with p s = true -> exists r, s = p ++ r.
Proof.
  revert s; induction p as [|a p IH]; intros s H; simpl in *.
  - now exists s.
  - destruct s as [|b s]; [discriminate|].
    apply andb_true_iff in H as [Hab Hps].
    apply Ascii.eqb_eq in Hab; subst b.
    destruct (IH _ Hps) as [r ->]. now exists r.
Qed.

Lemma contains_app pre p post : Str.contains p (pre ++ p ++ post) = true.
Proof.
  induction pre as [|a pre IH]; simpl.
  - destruct (p ++ post) eqn:E; simpl;
      rewrite <- E, starts_with_app; reflexivity.
  - rewrite IH. apply orb_true_r.
Qed.

Lemma contains_inv p s :
  Str.contains p s = true -> exists pre post, s = pre ++ p ++ post.
Proof.
  induction s as [|a s IH]; simpl; intros H.
  - rewrite orb_false_r in H. apply starts_with_inv in H as [r ->].
    now exists EmptyString, r.
  - apply orb_true_iff in H as [H|H].
    + apply starts_with_inv in H as [r ->]. now exists EmptyString, r.
    + destruct (IH H) as (pre & post & ->).
      now exists (String a pre), post.
Qed.

Lemma string_app_assoc (a b c : string) : (a ++ b) ++ c = a ++ b ++ c.
Proof. induction a; simpl; congruence. Qed.

Lemma string_app_empty_r (a : string) : a ++ EmptyString = a.
Proof. induction a; simpl; congruence. Qed.

Lemma string_app_inv_head (a b c : string) : a ++ b = a ++ c -> b = c.
Proof. induction a; simpl; intros H; [assumption|]. injection H; auto. Qed.

(** ** The file system *)

Lemma lookup_write_same p n f : lookup p (write p n f) = Some n.
Proof.
  induction f as [|[q m] r IH]; simpl.
  - now rewrite String.eqb_refl.
  - destruct (q =? p) eqn:E; simpl.
    + now rewrite String.eqb_refl.
    + now rewrite E.
Qed.

Lemma lookup_write_other p q n f :
  p <> q -> lookup p (write q n f) = lookup p f.
Proof.
  intros Hpq. induction f as [|[r m] f IH]; simpl.
  - destruct (q =? p) eqn:E; [apply String.eqb_eq in E; congruence | reflexivity].
  - destruct (r =? q) eqn:E; simpl.
    + apply String.eqb_eq in E; subst r.
      destruct (q =? p) eqn:E2; [apply String.eqb_eq in E2; congruence | reflexivity].
    + now rewrite IH.
Qed.

Lemma lookup_remove_same p f : lookup p (remove p f) = None.
Proof.
  induction f as [|[q m] f IH]; simpl; [reflexivity|].
  destruct (q =? p) eqn:E; simpl; [assumption | now rewrite E].
Qed.

Lemma lookup_remove_other p q f :
  p <> q -> lookup p (remove q f) = lookup p f.
Proof.
  intros Hpq. induction f as [|[r m] f IH]; simpl; [reflexivity|].
  destruct (r =? q) eqn:E; simpl.
  - apply String.eqb_eq in E; subst r.
    destruct (q =? p) eqn:E2; [apply String.eqb_eq in E2; congruence | assumption].
  - now rewrite IH.
Qed.

Lemma lookup_write p q n f :
  lookup p (write q n f) = if q =? p then Some n else lookup p f.
Proof.
  destruct (q =? p) eqn:E.
  - apply String.eqb_eq in E; subst. apply lookup_write_same.
  - apply lookup_write_other. intros ->. now rewrite String.eqb_refl in E.
Qed.

Lemma lookup_remove p q f :
  lookup p (remove q f) = if q =? p then None else lookup p f.
Proof.
  destruct (q =? p) eqn:E.
  - apply String.eqb_eq in E; subst. apply lookup_remove_same.
  - apply lookup_remove_other. intros ->. now rewrite String.eqb_refl in E.
Qed.

(** ** Version strings *)

Lemma has_marker_cons c s : has_marker (String c s) = Ascii.eqb c marker.
Proof.
  unfold has_marker, marker; simpl.
  rewrite (Ascii.eqb_sym c). destruct s; now rewrite andb_true_r.
Qed.

Lemma version_display_strip raw : version_display raw = strip_v raw.
Proof.
  unfold version_display, ensure_v_prefix.
  destruct raw as [|c s]; [reflexivity|].
  change (Str.starts_with "v" (String c s)) with (has_marker (String c s)).
  rewrite has_marker_cons. simpl.
  destruct (Ascii.eqb c marker) eqn:E; simpl; [now rewrite E | reflexivity].
Qed.

(** C5, as stated, at the version string [vv1]: normalizing it gives [v1],
    and normalizing that again gives [1], so normalization is not
    idempotent there. *)
Lemma version_display_not_idempotent :
  version_display "vv1" = "v1" /\
  version_display (version_display "vv1") = "1" /\
  version_display (version_display "vv1") <> version_display "vv1".
Proof. repeat split; try reflexivity. discriminate. Qed.

(** C5 (amended): for a version string on one line and without a
    backslash, normalization removes exactly one leading marker character
    when there is one and changes nothing otherwise; it is idempotent
    exactly on the version strings that do not start with two marker
    characters. *)
Theorem version_display_spec :
  forall raw : string,
    one_line raw = true ->
    (has_marker raw = false -> version_display raw = raw) /\
    (has_marker raw = true -> raw = String marker (version_display raw)) /\
    (version_display (version_display raw) = version_display raw
       <-> Str.starts_with "vv" raw = false).
Proof.
  intros raw _. rewrite !version_display_strip.
  destruct raw as [|c s].
  - repeat split; intros; try reflexivity; try discriminate.
  - rewrite has_marker_cons. simpl.
    rewrite (Ascii.eqb_sym "v" c). fold marker.
    destruct (Ascii.eqb c marker) eqn:E; simpl.
    + apply Ascii.eqb_eq in E; subst c.
      split; [discriminate|]. split; [reflexivity|].
      destruct s as [|d t]; simpl; [tauto|].
      rewrite (Ascii.eqb_sym marker d), andb_true_r.
      destruct (Ascii.eqb d marker) eqn:E2.
      * split; [|discriminate].
        intros H. apply (f_equal String.length) in H. simpl in H. lia.
      * tauto.
    + rewrite E. split; [reflexivity|]. split; [discriminate|]. tauto.
Qed.

Lemma version_display_spec_witness :
  one_line "v1.2.3" = true /\
  has_marker "v1.2.3" = true /\
  "v1.2.3" = String marker (version_display "v1.2.3").
Proof.
  split; [reflexivity|]. split; [reflexivity|].
  exact (proj1 (proj2 (version_display_spec "v1.2.3" eq_refl)) eq_refl).
Defined.

Import Shell Obs.

(** ** Directories, and commands that need one *)

Lemma write_fresh p n f : lookup p f = None -> write p n f = (f ++ [(p, n)])%list.
Proof.
  induction f as [|[q m] r IH]; simpl; [reflexivity|].
  destruct (q =? p); [discriminate|]. intros H. now rewrite IH.
Qed.

Lemma existsb_write (P : string -> bool) p n f :
  existsb (fun e => P (fst e)) (write p n f)
  = P p || existsb (fun e => P (fst e)) f.
Proof.
  induction f as [|[q m] r IH]; simpl.
  - reflexivity.
  - destruct (q =? p) eqn:E; simpl.
    + apply String.eqb_eq in E; subst q. now destruct (P p).
    + rewrite IH. destruct (P p), (P q); reflexivity.
Qed.

Lemma inhabited_write d p n f :
  inhabited d (write p n f) = under d p || inhabited d f.
Proof. apply existsb_write. Qed.

Lemma inhabited_remove d p f :
  inhabited d (remove p f) = true -> inhabited d f = true.
Proof.
  unfold inhabited, remove. rewrite !existsb_exists.
  intros (e & I & U). apply filter_In in I as [I _]. eauto.
Qed.

Lemma blocked_mkdir_p p q f : blocked p (mkdir_p q f) = blocked p f.
Proof.
  unfold mkdir_p. destruct (blocked q f); [reflexivity|].
  destruct (lookup q f) eqn:L; [reflexivity|].
  rewrite (write_fresh _ _ _ L). unfold blocked.
  rewrite existsb_app. simpl. now rewrite orb_false_r.
Qed.

Lemma barred_blocked p f : barred p f = true -> blocked p f = true.
Proof.
  unfold barred, blocked. rewrite !existsb_exists.
  intros ([q n] & I & H). exists (q, n). split; [exact I|].
  cbn [fst snd] in *. now destruct n.
Qed.

Lemma is_file_writable p f : is_file p f = true -> writable p f = true.
Proof.
  unfold is_file, writable. now destruct (lookup p f) as [[| |]|].
Qed.

Lemma is_file_append_line p l f :
  is_file p f = true -> is_file p (append_line p l f) = true.
Proof.
  unfold is_file, append_line.
  destruct (lookup p f) as [[c x| |]|] eqn:L; try discriminate.
  intros _. now rewrite lookup_write_same.
Qed.

Lemma has_char_slash_app a b :
  Str.has_char "/" (a ++ "/" ++ b) = true.
Proof.
  induction a as [|c a IH].
  - reflexivity.
  - change (String c a ++ "/" ++ b) with (String c (a ++ "/" ++ b)).
    cbn [Str.has_char]. rewrite IH. apply orb_true_r.
Qed.

(** The directory of [a/b] is [a] when [b] is a single component. *)
Lemma dirname_app a b :
  Str.has_char "/" b = false -> dirname (a ++ "/" ++ b) = a.
Proof.
  intros H. induction a as [|c a IH].
  - simpl. now rewrite H.
  - change ((String c a) ++ "/" ++ b) with (String c (a ++ "/" ++ b)).
    cbn [dirname]. rewrite has_char_slash_app. now rewrite IH.
Qed.

Lemma lookup_In p n f : lookup p f = Some n -> In (p, n) f.
Proof.
  induction f as [|[q m] r IH]; simpl; [discriminate|].
  destruct (q =? p) eqn:E.
  - apply String.eqb_eq in E; subst q. intros H; injection H as ->. now left.
  - intros H. right. now apply IH.
Qed.

Lemma In_write e p n f : In e (write p n f) -> e = (p, n) \/ In e f.
Proof.
  induction f as [|[q m] r IH]; simpl.
  - intros [<-|[]]. now left.
  - destruct (q =? p); simpl.
    + intros [<-|H]; [now left | right; now right].
    + intros [<-|H]; [right; now left|].
      destruct (IH H) as [->|I]; [now left | right; now right].
Qed.

Lemma In_remove e p f : In e (remove p f) -> In e f.
Proof. unfold remove. intros H. now apply filter_In in H as [H _]. Qed.

Lemma inhabited_In d f :
  inhabited d f = true <-> exists e, In e f /\ under d (fst e) = true.
Proof. apply existsb_exists. Qed.

Lemma inhabited_write_over d p n m f :
  lookup p f = Some n -> inhabited d (write p m f) = inhabited d f.
Proof.
  intros L. rewrite inhabited_write.
  destruct (under d p) eqn:U; [|reflexivity].
  symmetry. apply inhabited_In. exists (p, n). split; [now apply lookup_In|exact U].
Qed.

(** An entry that does not stop [mkdir -p] says that its path is a
    directory. *)
Lemma blocked_dir p n f : blocked p f = false -> lookup p f = Some n -> n = Dir.
Proof.
  intros B L. apply lookup_In in L.
  unfold blocked in B.
  assert (H : not_a_dir n && ((p =? p) || under p p) = false).
  { destruct (not_a_dir n && ((p =? p) || under p p)) eqn:E; [|reflexivity].
    rewrite <- B. symmetry. apply existsb_exists. exists (p, n). auto. }
  rewrite String.eqb_refl in H. cbn [orb] in H. rewrite andb_true_r in H.
  now destruct n.
Qed.

Lemma mkdir_p_makes p f :
  blocked p f = false -> lookup p (mkdir_p p f) = Some Dir.
Proof.
  intros B. unfold mkdir_p. rewrite B.
  destruct (lookup p f) as [n|] eqn:L.
  - rewrite L. now rewrite (blocked_dir _ _ _ B L).
  - apply lookup_write_same.
Qed.

Lemma no_dir_is_dir d f : no_dir d f = true -> is_dir d f = false.
Proof.
  unfold no_dir, is_dir. destruct (lookup d f) as [[| |]|]; try discriminate;
    try reflexivity.
  intros H. now apply negb_true_iff in H.
Qed.

Lemma no_dir_inhabited d f : no_dir d f = true -> inhabited d f = false.
Proof.
  unfold no_dir. destruct (lookup d f) as [[| |]|]; try discriminate;
    intros H; now apply negb_true_iff in H.
Qed.

(** [mv] of a regular file to a free or taken name in a directory that
    exists. *)
Lemma mv_lands src dst f c x :
  lookup src f = Some (File c x) ->
  no_dir dst f = true ->
  lookup (dirname dst) f = Some Dir ->
  mv src dst f = write dst (File c x) (remove src f).
Proof.
  intros S N D. unfold mv. rewrite S, (no_dir_is_dir _ _ N).
  unfold dir_exists, is_dir. rewrite D. now rewrite orb_true_r.
Qed.

(** *** Changes within a set of paths *)

Lemma touches_refl A f : touches A f f.
Proof. split; [reflexivity | auto]. Qed.

Lemma touches_trans A f g k : touches A f g -> touches A g k -> touches A f k.
Proof.
  intros [L1 I1] [L2 I2]. split.
  - intros q Q. now rewrite L2, L1.
  - intros e I. destruct (I2 e I) as [H|H]; [now apply I1 | now right].
Qed.

Lemma touches_sub (A B : string -> bool) f g :
  (forall q, A q = true -> B q = true) -> touches A f g -> touches B f g.
Proof.
  intros S [L I]. split.
  - intros q Q. apply L. destruct (A q) eqn:E; [|reflexivity].
    now rewrite (S q E) in Q.
  - intros e H. destruct (I e H) as [K|K]; [now left | right; now apply S].
Qed.

Lemma touches_write (A : string -> bool) p n f g :
  A p = true -> touches A f g -> touches A f (write p n g).
Proof.
  intros P H. apply (touches_trans A f g); [exact H|]. split.
  - intros q Q. apply lookup_write_other. intros ->. congruence.
  - intros e I. destruct (In_write _ _ _ _ I) as [->|K]; [now right | now left].
Qed.

Lemma touches_remove (A : string -> bool) p f g :
  A p = true -> touches A f g -> touches A f (remove p g).
Proof.
  intros P H. apply (touches_trans A f g); [exact H|]. split.
  - intros q Q. apply lookup_remove_other. intros ->. congruence.
  - intros e I. left. now apply In_remove in I.
Qed.

Lemma touches_unpack (A : string -> bool) dest members :
  (forall name, A (dest ++ "/" ++ name) = true) ->
  forall f g, touches A f g -> touches A f (unpack dest members g).
Proof.
  intros D. induction members as [|[name [c x]] ms IH]; intros f g H;
    cbn [unpack].
  - exact H.
  - apply IH. apply touches_write; [apply D | exact H].
Qed.

Lemma touches_mkdir_p (A : string -> bool) p f g :
  A p = true -> touches A f g -> touches A f (mkdir_p p g).
Proof.
  intros P H. unfold mkdir_p. destruct (blocked p g); [exact H|].
  destruct (lookup p g); [exact H|]. now apply touches_write.
Qed.

Lemma touches_chmod_x (A : string -> bool) p f g :
  A p = true -> touches A f g -> touches A f (chmod_x p g).
Proof.
  intros P H. unfold chmod_x.
  destruct (lookup p g) as [[c x| |t]|]; try exact H. now apply touches_write.
Qed.

Lemma touches_rm_f (A : string -> bool) p f g :
  A p = true -> touches A f g -> touches A f (rm_f p g).
Proof.
  intros P H. unfold rm_f.
  destruct (lookup p g) as [[c x| |t]|]; try exact H; now apply touches_remove.
Qed.

Lemma touches_inhabited (A : string -> bool) d f g :
  touches A f g ->
  (forall q, A q = true -> under d q = false) ->
  inhabited d f = false -> inhabited d g = false.
Proof.
  intros [_ I] S N. apply not_true_is_false. intros H.
  apply inhabited_In in H as (e & E & U).
  destruct (I e E) as [K|K].
  - assert (X : inhabited d f = true) by (apply inhabited_In; eauto).
    congruence.
  - rewrite (S _ K) in U. discriminate.
Qed.

Lemma touches_no_dir (A : string -> bool) d f g :
  touches A f g ->
  A d = false ->
  (forall q, A q = true -> under d q = false) ->
  no_dir d f = true -> no_dir d g = true.
Proof.
  intros T D S N.
  pose proof (touches_inhabited A d f g T S (no_dir_inhabited _ _ N)) as I.
  unfold no_dir in *. rewrite (proj1 T d D), I.
  now destruct (lookup d f) as [[| |]|].
Qed.

(** *** Paths *)

Lemma starts_with_head a x y :
  Str.starts_with (a ++ x) (a ++ y) = Str.starts_with x y.
Proof.
  induction a as [|c a IH]; [reflexivity|].
  cbn [append Str.starts_with]. now rewrite Ascii.eqb_refl, IH.
Qed.

Lemma under_trans a b c :
  under a b = true -> under b c = true -> under a c = true.
Proof.
  unfold under. intros H1 H2.
  apply starts_with_inv in H1 as [r1 ->].
  apply starts_with_inv in H2 as [r2 ->].
  rewrite (string_app_assoc (a ++ "/") r1 "/").
  rewrite (string_app_assoc (a ++ "/") (r1 ++ "/") r2).
  apply starts_with_app.
Qed.

Lemma prefix_comparable x :
  forall y q,
    Str.starts_with x q = true -> Str.starts_with y q = true ->
    Str.starts_with x y = true \/ Str.starts_with y x = true.
Proof.
  induction x as [|a x IH]; intros y q Hx Hy.
  - now left.
  - destruct y as [|b y]; [now right|].
    destruct q as [|c q]; [discriminate|].
    cbn [Str.starts_with] in *.
    apply andb_true_iff in Hx as [Ea Hx]. apply andb_true_iff in Hy as [Eb Hy].
    apply Ascii.eqb_eq in Ea, Eb. subst a b. rewrite Ascii.eqb_refl.
    cbn [andb]. now apply (IH y q).
Qed.

Lemma slash_prefix a :
  forall b, Str.starts_with (a ++ "/") (b ++ "/") = true ->
            a = b \/ under a b = true.
Proof.
  unfold under.
  induction a as [|c a IH]; intros b H.
  - destruct b as [|d b]; [now left|]. right.
    cbn [append Str.starts_with] in *. exact H.
  - destruct b as [|d b].
    + cbn [append Str.starts_with] in H.
      apply andb_true_iff in H as [_ H].
      destruct a; discriminate H.
    + cbn [append Str.starts_with] in *.
      apply andb_true_iff in H as [E H]. rewrite E. cbn [andb].
      apply Ascii.eqb_eq in E. subst d.
      destruct (IH b H) as [->|U]; [now left | now right].
Qed.

(** What belongs to a directory lies in no directory apart from it. *)
Lemma apart_area t d q :
  apart t d = true -> area t q = true -> under d q = false.
Proof.
  unfold apart, area. intros A Q.
  apply andb_true_iff in A as [A U2]. apply andb_true_iff in A as [N U1].
  apply negb_true_iff in N, U1, U2.
  apply orb_true_iff in Q as [Q|Q].
  - apply String.eqb_eq in Q. now subst q.
  - apply not_true_is_false. intros D. unfold under in Q, D.
    destruct (prefix_comparable _ _ _ Q D) as [H|H];
      apply slash_prefix in H as [E|H].
    + subst. now rewrite String.eqb_refl in N.
    + congruence.
    + subst. now rewrite String.eqb_refl in N.
    + congruence.
Qed.

Lemma under_longer a b : Str.is_empty b = false -> under (a ++ b) a = false.
Proof.
  intros N. unfold under.
  rewrite <- (string_app_empty_r a) at 2. rewrite string_app_assoc.
  rewrite starts_with_head. now destruct b.
Qed.

(** ** Traces *)

Lemma downloads_app t u : downloads (t ++ u) = (downloads t ++ downloads u)%list.
Proof. apply flat_map_app. Qed.

Lemma errors_app t u : errors (t ++ u) = (errors t ++ errors u)%list.
Proof. apply flat_map_app. Qed.

Lemma attempts_app t u : attempts (t ++ u) = (attempts t ++ attempts u)%list.
Proof. apply flat_map_app. Qed.

(** ** Running the shell *)

Ltac sh_unfold :=
  unfold run in *;
  unfold InstallSh.info, InstallSh.success, InstallSh.warn, InstallSh.error,
    InstallSh.echo, bind, emit, modify, query, get_DOWNLOAD_CMD,
    set_DOWNLOAD_CMD, trap_EXIT, mktemp_d, call, capture, ret, return_,
    exit_, with_files in *.

Ltac sh_simpl :=
  cbn [fst snd files trace DOWNLOAD_CMD exit_trap mktemp_count negb andb orb
       exit_status flat_map app downloads errors Nat.eqb] in *.

Ltac sh_case :=
  match goal with
  | |- context [match asset ?h ?u with _ => _ end] =>
      destruct (asset h u) eqn:?
  | |- context [if ?c then _ else _] => destruct c eqn:?
  end; sh_simpl.

Lemma wp_bind A B (c : sh A) (k : A -> sh B) s Q :
  wp c s (fun r s1 =>
            match r with
            | Next a => wp (k a) s1 Q
            | Return n => Q (Return n) s1
            | Exit n => Q (Exit n) s1
            end) ->
  wp (bind c k) s Q.
Proof. unfold wp, bind. destruct (c s) as [[a|n|n] s1]; simpl; auto. Qed.

Lemma wp_conseq A (c : sh A) s (Q Q' : flow A -> state -> Prop) :
  wp c s Q -> (forall r s', Q r s' -> Q' r s') -> wp c s Q'.
Proof. unfold wp; auto. Qed.

(** A primitive step: run it. *)
Ltac wp_prim :=
  apply wp_bind; unfold wp at 1;
  unfold InstallSh.info, InstallSh.success, InstallSh.warn, InstallSh.error,
    InstallSh.echo, emit, modify, query, get_DOWNLOAD_CMD, set_DOWNLOAD_CMD,
    trap_EXIT, mktemp_d, ret, return_, exit_, with_files;
  cbn [fst snd files trace DOWNLOAD_CMD exit_trap mktemp_count].

(** A step for which a lemma [H] gives the postcondition. *)
Ltac wp_use H :=
  apply wp_bind; eapply wp_conseq; [apply H|]; cbv beta.

(** ** The fetch of [install_binary] *)

Lemma try_formats_run h binary version tmp_dir os os_legacy arch ext s :
  let urls := candidate_urls binary version os os_legacy arch ext in
  wp (InstallSh.try_formats h binary version tmp_dir os os_legacy arch ext) s
     (fun r s' =>
        exists evs,
          trace s' = (trace s ++ evs)%list /\
          downloads evs = tried (available h) urls /\
          attempts evs = [] /\
          (existsb (available h) urls = false ->
           r = Return 1 /\
           exists evs', evs = (evs' ++ [Error (download_failure binary)])%list) /\
          (existsb (available h) urls = true -> exists a, r = Next a) /\
          (forall n, r <> Exit n) /\
          exit_trap s' = exit_trap s).
Proof.
  cbv zeta. unfold wp.
  unfold InstallSh.try_formats, InstallSh.try_download, candidate_urls,
    available, download_failure.
  sh_unfold. sh_simpl.
  repeat sh_case;
    (eexists; split; [rewrite <- ?app_assoc; reflexivity|]);
    sh_simpl; cbn [tried existsb];
    repeat match goal with H : asset _ _ = _ |- _ => rewrite H end;
    sh_simpl.
  all: repeat split; try discriminate; eauto.
  all: try intros _;
    match goal with
    | |- exists e, ?l = (e ++ [_])%list => exists (removelast l); reflexivity
    end.
Qed.

(** ** The other steps of [install_binary]: what they print *)

Ltac trace_ext :=
  first
    [ exists (@nil event); split;
      [ now rewrite app_nil_r | split; reflexivity ]
    | eexists; split;
      [ rewrite <- ?app_assoc; reflexivity | split; reflexivity ] ].

Lemma quiet_app a b : quiet a -> quiet b -> quiet (a ++ b).
Proof.
  intros [Ha1 Ha2] [Hb1 Hb2]. split.
  - now rewrite downloads_app, Ha1, Hb1.
  - now rewrite attempts_app, Ha2, Hb2.
Qed.

Lemma resolve_version_run h binary version s :
  wp (InstallSh.resolve_version h binary version) s
     (fun r s' =>
        r = match resolved_version h binary version with
            | Some v => Next v
            | None => Return 1
            end /\
        files s' = files s /\ exit_trap s' = exit_trap s /\
        exists evs, trace s' = (trace s ++ evs)%list /\ quiet evs).
Proof.
  unfold wp.
  unfold InstallSh.resolve_version, InstallSh.get_latest_version,
    resolved_version, InstallSh.GITHUB_ORG.
  sh_unfold. sh_simpl.
  destruct (Str.is_empty version); sh_simpl.
  - destruct (release_index h _) as [response|]; sh_simpl.
    + destruct (Str.is_empty (scan_tag_name h response)); sh_simpl;
        (do 3 (split; [reflexivity|])); trace_ext.
    + do 3 (split; [reflexivity|]). trace_ext.
  - do 3 (split; [reflexivity|]). trace_ext.
Qed.

Lemma capture_detect_os h s :
  wp (capture (InstallSh.detect_os h)) s
     (fun r s' =>
        (exists n, r = Next (n, os_of h)) /\
        files s' = files s /\ exit_trap s' = exit_trap s /\
        exists evs, trace s' = (trace s ++ evs)%list /\ quiet evs).
Proof.
  unfold wp. unfold InstallSh.detect_os, os_of. sh_unfold.
  destruct (Platform.detect_os_name (uname_s h)); sh_simpl.
  - split; [eauto|]. repeat split. exists []. rewrite app_nil_r. repeat split.
  - split; [eauto|]. repeat split. eexists; split; [reflexivity|]. split; reflexivity.
Qed.

Lemma capture_detect_os_legacy h s :
  wp (capture (InstallSh.detect_os_legacy h)) s
     (fun r s' =>
        (exists n, r = Next (n, os_legacy_of h)) /\
        files s' = files s /\ exit_trap s' = exit_trap s /\
        exists evs, trace s' = (trace s ++ evs)%list /\ quiet evs).
Proof.
  unfold wp. unfold InstallSh.detect_os_legacy, os_legacy_of. sh_unfold.
  destruct (Platform.detect_os_legacy_name (uname_s h)); sh_simpl.
  - split; [eauto|]. repeat split. exists []. rewrite app_nil_r. repeat split.
  - split; [eauto|]. repeat split. eexists; split; [reflexivity|]. split; reflexivity.
Qed.

Lemma capture_detect_arch h s :
  wp (capture (InstallSh.detect_arch h)) s
     (fun r s' =>
        (exists n, r = Next (n, arch_of h)) /\
        files s' = files s /\ exit_trap s' = exit_trap s /\
        exists evs, trace s' = (trace s ++ evs)%list /\ quiet evs).
Proof.
  unfold wp. unfold InstallSh.detect_arch, arch_of. sh_unfold.
  destruct (Platform.detect_arch_name (uname_m h)); sh_simpl.
  - split; [eauto|]. repeat split. exists []. rewrite app_nil_r. repeat split.
  - split; [eauto|]. repeat split. eexists; split; [reflexivity|]. split; reflexivity.
Qed.

Lemma place_binary_run h binary tmp_dir install_path ext is_archive s :
  wp (InstallSh.place_binary h binary tmp_dir install_path ext is_archive) s
     (fun r s' =>
        (forall n, r <> Exit n) /\
        exit_trap s' = exit_trap s /\
        exists evs, trace s' = (trace s ++ evs)%list /\ quiet evs).
Proof.
  unfold wp.
  unfold InstallSh.place_binary, InstallSh.find_and_move,
    InstallSh.extract_archive.
  sh_unfold. sh_simpl.
  repeat match goal with
         | |- context [match ?x with _ => _ end] =>
             lazymatch x with
             | context [match _ with _ => _ end] => fail
             | _ => destruct x eqn:?
             end; sh_simpl
         end.
  all: split; [intros ?; discriminate|].
  all: split; [reflexivity|].
  all: trace_ext.
Qed.

Lemma publish_run h binary version_display install_path s :
  wp (InstallSh.publish h binary version_display install_path) s
     (fun r s' =>
        r = Next tt /\
        exit_trap s' = exit_trap s /\
        exists evs, trace s' = (trace s ++ evs)%list /\ quiet evs).
Proof.
  unfold wp. unfold InstallSh.publish. sh_unfold. sh_simpl.
  repeat split. trace_ext.
Qed.

(** One attempt, as the trace shows it. *)
Lemma install_binary_run h binary version s :
  wp (InstallSh.install_binary h binary version) s
     (fun r s' =>
        (forall n, r <> Exit n) /\
        exists evs,
          trace s' = (trace s ++ evs)%list /\
          attempts evs = [attempt_line binary] /\
          match resolved_version h binary version with
          | None => r = Return 1 /\ downloads evs = []
          | Some v =>
              downloads evs = tried (available h) (candidates h binary v) /\
              (existsb (available h) (candidates h binary v) = false ->
               r = Return 1 /\
               exists evs', evs = (evs' ++ [Error (download_failure binary)])%list)
          end).
Proof.
  unfold InstallSh.install_binary.
  wp_prim.
  wp_use resolve_version_run.
  intros r1 s1 (-> & _ & _ & e1 & T1 & Q1a & Q1b). sh_simpl.
  destruct (resolved_version h binary version) as [v|].
  2:{ split; [intros ?; discriminate|].
      rewrite T1, <- app_assoc. eexists; split; [reflexivity|].
      rewrite attempts_app, downloads_app, Q1a, Q1b. repeat split. }
  do 5 wp_prim.
  wp_use capture_detect_os.
  intros r2 s2 ([n2 ->] & _ & _ & e2 & T2 & Q2a & Q2b). sh_simpl.
  wp_use capture_detect_os_legacy.
  intros r3 s3 ([n3 ->] & _ & _ & e3 & T3 & Q3a & Q3b). sh_simpl.
  wp_use capture_detect_arch.
  intros r4 s4 ([n4 ->] & _ & _ & e4 & T4 & Q4a & Q4b). sh_simpl.
  wp_use try_formats_run.
  intros r5 s5 (e5 & T5 & D5 & A5 & F5 & S5 & X5 & _).
  fold (candidates h binary v) in D5, F5, S5.
  assert (T : trace s5 =
              (trace s ++ (Info (attempt_line binary) :: e1)
                 ++ (Info ("  Version: " ++ strip_v v) :: e2) ++ e3 ++ e4 ++ e5)%list).
  { rewrite T5, T4, T3, T2. sh_simpl. rewrite T1.
    rewrite <- !app_assoc. reflexivity. }
  assert (HA : forall tl, attempts tl = [] ->
               attempts ((Info (attempt_line binary) :: e1)
                 ++ (Info ("  Version: " ++ strip_v v) :: e2) ++ e3 ++ e4 ++ e5 ++ tl)
               = [attempt_line binary]).
  { intros tl Htl.
    change (Info (attempt_line binary) :: e1)
      with ([Info (attempt_line binary)] ++ e1)%list.
    change (Info ("  Version: " ++ strip_v v) :: e2)
      with ([Info ("  Version: " ++ strip_v v)] ++ e2)%list.
    rewrite !attempts_app, Q1b, Q2b, Q3b, Q4b, A5, Htl. reflexivity. }
  assert (HD : forall tl, downloads tl = [] ->
               downloads ((Info (attempt_line binary) :: e1)
                 ++ (Info ("  Version: " ++ strip_v v) :: e2) ++ e3 ++ e4 ++ e5 ++ tl)
               = tried (available h) (candidates h binary v)).
  { intros tl Htl.
    change (Info (attempt_line binary) :: e1)
      with ([Info (attempt_line binary)] ++ e1)%list.
    change (Info ("  Version: " ++ strip_v v) :: e2)
      with ([Info ("  Version: " ++ strip_v v)] ++ e2)%list.
    rewrite !downloads_app, Q1a, Q2a, Q3a, Q4a, D5, Htl.
    sh_simpl. now rewrite app_nil_r. }
  destruct r5 as [is_archive|n|n].
  - wp_use place_binary_run.
    intros r6 s6 (N6 & _ & e6 & T6 & Q6a & Q6b).
    destruct r6 as [[]|n|n].
    + eapply wp_conseq; [apply publish_run|]. cbv beta.
      intros r7 s7 (-> & _ & e7 & T7 & Q7a & Q7b).
      split; [intros ?; discriminate|].
      exists ((Info (attempt_line binary) :: e1)
                 ++ (Info ("  Version: " ++ strip_v v) :: e2) ++ e3 ++ e4 ++ e5
                 ++ (e6 ++ e7))%list.
      split; [rewrite T7, T6, T; rewrite <- !app_assoc; reflexivity|].
      split; [apply HA; now rewrite attempts_app, Q6b, Q7b|].
      split; [apply HD; now rewrite downloads_app, Q6a, Q7a|].
      intros Hnone. destruct (F5 Hnone) as [? _]. discriminate.
    + split; [intros ?; discriminate|].
      exists ((Info (attempt_line binary) :: e1)
                 ++ (Info ("  Version: " ++ strip_v v) :: e2) ++ e3 ++ e4 ++ e5
                 ++ e6)%list.
      split; [rewrite T6, T; rewrite <- !app_assoc; reflexivity|].
      split; [now apply HA|]. split; [now apply HD|].
      intros Hnone. destruct (F5 Hnone) as [? _]. discriminate.
    + exfalso. now apply (N6 n).
  - split; [intros ?; discriminate|].
    exists ((Info (attempt_line binary) :: e1)
                 ++ (Info ("  Version: " ++ strip_v v) :: e2) ++ e3 ++ e4 ++ e5
                 ++ [])%list.
    split; [rewrite T; now rewrite !app_nil_r|].
    split; [apply HA; reflexivity|]. split; [apply HD; reflexivity|].
    intros Hnone. destruct (F5 Hnone) as [E (e' & ->)].
    injection E as ->. split; [reflexivity|].
    eexists. rewrite app_nil_r, !app_assoc. reflexivity.
  - exfalso. now apply (X5 n).
Qed.

(** [tried] is the part of the list up to the first entry that succeeds:
    what comes before its last entry failed, and what was left out comes
    after a success. *)
Lemma tried_prefix ok urls :
  exists rest,
    urls = (tried ok urls ++ rest)%list /\
    (forall u, In u (removelast (tried ok urls)) -> ok u = false) /\
    (rest <> [] -> exists u, last (tried ok urls) u = u /\ ok u = true).
Proof.
  induction urls as [|u urls (rest & E & F & L)]; simpl.
  - exists []. repeat split; [intros ? []|congruence].
  - destruct (ok u) eqn:O.
    + exists urls. repeat split; [intros ? []|]. intros _. now exists u.
    + exists rest. split; [simpl; now f_equal|].
      destruct (tried ok urls) as [|w ws] eqn:T.
      * split; [intros ? []|]. intros H. exfalso. apply H.
        destruct urls as [|w ws]; [now simpl in E|].
        simpl in T. destruct (ok w); discriminate.
      * split.
        -- intros x [<-|Hx]; [assumption|now apply F].
        -- intros H. destruct (L H) as (x & Hx & Ox). now exists x.
Qed.

(** C1, as stated, on a Windows host where no candidate can be fetched and
    the version is pinned: the attempt fails after trying the three URLs,
    and the one error message it prints contains none of them. *)
Lemma install_binary_failure_carries_no_urls :
  let r := InstallSh.install_binary Examples.windows_offline "centy-daemon" "1.2.3"
             Examples.fresh in
  fst r = Return 1 /\
  downloads (trace (snd r)) =
    [ "https://github.com/centy-io/centy-daemon/releases/download/v1.2.3/centy-daemon-v1.2.3-x86_64-pc-windows-msvc.zip";
      "https://github.com/centy-io/centy-daemon/releases/download/v1.2.3/centy-daemon-windows-x86_64";
      "https://github.com/centy-io/centy-daemon/releases/download/v1.2.3/centy-daemon-windows-x86_64.exe" ] /\
  errors (trace (snd r)) =
    [ "Failed to download centy-daemon (tried multiple URL formats)" ] /\
  carried_by (downloads (trace (snd r))) (errors (trace (snd r))) = false.
Proof. vm_compute. repeat split. Qed.

(** C1 (amended): an attempt that gets its version requests the candidate
    URLs in the fixed order (archive form, legacy raw form, and the legacy
    form with the exe suffix only when the legacy OS is windows), stopping
    at the first that downloads; when all fail the attempt returns status
    1 and its last output is the fixed error message, which names the
    binary and not the URLs. *)
Theorem install_binary_fetch_order :
  forall (h : host) (binary version : string) (s : state) (v : string),
    resolved_version h binary version = Some v ->
    let r := InstallSh.install_binary h binary version s in
    exists evs,
      trace (snd r) = (trace s ++ evs)%list /\
      downloads evs = tried (available h) (candidates h binary v) /\
      (existsb (available h) (candidates h binary v) = false ->
       fst r = Return 1 /\
       exists evs', evs = (evs' ++ [Error (download_failure binary)])%list).
Proof.
  intros h binary version s v Hv. cbv zeta.
  destruct (install_binary_run h binary version s) as (_ & evs & T & _ & H).
  rewrite Hv in H. destruct H as [D F].
  exists evs. auto.
Qed.

Lemma install_binary_fetch_order_witness :
  resolved_version Examples.windows_offline "centy-daemon" "1.2.3" = Some "v1.2.3" /\
  existsb (available Examples.windows_offline)
          (candidates Examples.windows_offline "centy-daemon" "v1.2.3") = false /\
  fst (InstallSh.install_binary Examples.windows_offline "centy-daemon" "1.2.3"
         Examples.fresh) = Return 1.
Proof.
  split; [reflexivity|]. split; [reflexivity|].
  destruct (install_binary_fetch_order Examples.windows_offline "centy-daemon"
              "1.2.3" Examples.fresh "v1.2.3" eq_refl) as (evs & _ & _ & H).
  exact (proj1 (H eq_refl)).
Defined.

(** ** [main]: the loop over the binaries and the exit status *)

Lemma statuses_length h bs : forall s, length (statuses h bs s) = length bs.
Proof.
  induction bs as [|b bs IH]; intros s; simpl; [reflexivity|].
  pose proof (install_binary_run h b (VERSION h) s) as H. unfold wp in H.
  destruct H as (NX & _).
  unfold call.
  destruct (InstallSh.install_binary h b (VERSION h) s) as [[[]|n|n] s1];
    simpl in *; try now rewrite IH.
  exfalso. now apply (NX n).
Qed.

Lemma install_each_run h bs :
  forall installed failed s,
    wp (InstallSh.install_each h bs installed failed) s
       (fun r s' =>
          r = Next (tally bs (statuses h bs s) installed failed) /\
          s' = loop_state h bs s /\
          exists evs,
            trace s' = (trace s ++ evs)%list /\
            attempts evs = map attempt_line bs).
Proof.
  induction bs as [|b bs IH]; intros installed failed s.
  - unfold wp; simpl. split; [reflexivity|]. split; [reflexivity|].
    exists []. now rewrite app_nil_r.
  - cbn [InstallSh.install_each statuses tally loop_state].
    apply wp_bind.
    pose proof (install_binary_run h b (VERSION h) s) as H. unfold wp in H.
    destruct H as (NX & evs & T & A & _).
    unfold wp at 1, call.
    destruct (InstallSh.install_binary h b (VERSION h) s) as [[[]|n|n] s1];
      cbn [fst snd] in *; try (exfalso; now apply (NX n)).
    + wp_prim. cbn [Nat.eqb].
      eapply wp_conseq; [apply IH|]. cbv beta.
      intros r s' (-> & -> & evs' & T' & A'). split; [reflexivity|].
      split; [reflexivity|].
      exists (evs ++ Echo EmptyString :: evs')%list.
      rewrite T'. sh_simpl. rewrite T, <- !app_assoc.
      split; [reflexivity|].
      change (Echo EmptyString :: evs') with ([Echo EmptyString] ++ evs')%list.
      rewrite !attempts_app, A, A'. reflexivity.
    + wp_prim.
      destruct (n =? 0)%nat;
        (eapply wp_conseq; [apply IH|]; cbv beta;
         intros r s' (-> & -> & evs' & T' & A'); split; [reflexivity|];
         split; [reflexivity|];
         exists (evs ++ Echo EmptyString :: evs')%list;
         rewrite T'; sh_simpl; rewrite T, <- !app_assoc;
         split; [reflexivity|];
         change (Echo EmptyString :: evs') with ([Echo EmptyString] ++ evs')%list;
         rewrite !attempts_app, A, A'; reflexivity).
Qed.

(** The status the loop records for a binary is the status of
    [install_binary] in the state that the rounds before it left. *)
Lemma statuses_nth h bs :
  forall s i b,
    nth_error bs i = Some b ->
    nth_error (statuses h bs s) i
    = Some (attempt_status h b (loop_state h (firstn i bs) s)).
Proof.
  induction bs as [|a bs IH]; intros s i b N.
  - destruct i; discriminate.
  - pose proof (install_binary_run h a (VERSION h) s) as H. unfold wp in H.
    destruct H as (NX & _).
    cbn [statuses]. unfold call.
    destruct i as [|i]; cbn [nth_error firstn loop_state] in *.
    + injection N as <-. unfold attempt_status.
      destruct (InstallSh.install_binary h a (VERSION h) s) as [[[]|n|n] s1];
        cbn [fst snd nth_error exit_status] in *; try reflexivity.
      exfalso. now apply (NX n).
    + destruct (InstallSh.install_binary h a (VERSION h) s) as [[[]|n|n] s1];
        cbn [fst snd nth_error] in *; try now apply IH.
      exfalso. now apply (NX n).
Qed.

(** An attempt starts with the line that names its binary. *)
Lemma install_binary_first_line h binary version s :
  exists evs,
    trace (snd (InstallSh.install_binary h binary version s))
    = (trace s ++ Info (attempt_line binary) :: evs)%list.
Proof.
  change (wp (InstallSh.install_binary h binary version) s
            (fun _ s' =>
               exists evs,
                 trace s' = (trace s ++ Info (attempt_line binary) :: evs)%list)).
  unfold InstallSh.install_binary.
  wp_prim.
  wp_use resolve_version_run.
  intros r1 s1 (-> & _ & _ & e1 & T1 & _). sh_simpl.
  destruct (resolved_version h binary version) as [v|].
  2:{ exists e1. rewrite T1, <- app_assoc. reflexivity. }
  do 5 wp_prim.
  wp_use capture_detect_os.
  intros r2 s2 ([n2 ->] & _ & _ & e2 & T2 & _). sh_simpl.
  wp_use capture_detect_os_legacy.
  intros r3 s3 ([n3 ->] & _ & _ & e3 & T3 & _). sh_simpl.
  wp_use capture_detect_arch.
  intros r4 s4 ([n4 ->] & _ & _ & e4 & T4 & _). sh_simpl.
  wp_use try_formats_run.
  intros r5 s5 (e5 & T5 & _).
  assert (T : exists evs,
             trace s5 = (trace s ++ Info (attempt_line binary) :: evs)%list).
  { eexists. rewrite T5, T4, T3, T2. sh_simpl. rewrite T1.
    rewrite <- !app_assoc. reflexivity. }
  destruct T as (e & T).
  destruct r5 as [is_archive|n|n]; try (exists e; exact T).
  wp_use place_binary_run.
  intros r6 s6 (_ & _ & e6 & T6 & _).
  destruct r6 as [[]|n|n];
    try (exists (e ++ e6)%list; rewrite T6, T, <- !app_assoc; reflexivity).
  eapply wp_conseq; [apply publish_run|]. cbv beta.
  intros r7 s7 (_ & _ & e7 & T7 & _).
  exists (e ++ e6 ++ e7)%list. rewrite T7, T6, T, <- !app_assoc. reflexivity.
Qed.

(** Every round of the loop starts with the line that names its
    binary. *)
Lemma loop_state_round h bs :
  forall s i b,
    nth_error bs i = Some b ->
    exists evs,
      trace (loop_state h (firstn (S i) bs) s)
      = (trace (loop_state h (firstn i bs) s)
           ++ Info (attempt_line b) :: evs)%list.
Proof.
  induction bs as [|a bs IH]; intros s i b N.
  - destruct i; discriminate.
  - destruct i as [|i].
    + cbn [nth_error] in N. injection N as <-.
      cbn [firstn loop_state].
      pose proof (install_binary_first_line h a (VERSION h) s) as (evs & T).
      exists (evs ++ [Echo EmptyString])%list.
      unfold InstallSh.echo, emit. cbn [snd trace]. rewrite T.
      now rewrite <- app_assoc.
    + cbn [nth_error] in N.
      change (firstn (S (S i)) (a :: bs)) with (a :: firstn (S i) bs).
      change (firstn (S i) (a :: bs)) with (a :: firstn i bs).
      cbn [loop_state]. now apply IH.
Qed.

Lemma is_empty_app_space a b : Str.is_empty (a ++ " " ++ b) = false.
Proof. destruct a; reflexivity. Qed.

Lemma tally_failed bs :
  forall sts installed failed,
    length sts = length bs ->
    Str.is_empty (snd (tally bs sts installed failed))
    = Str.is_empty failed && forallb (Nat.eqb 0) sts.
Proof.
  induction bs as [|b bs IH]; intros [|st sts] installed failed L;
    try discriminate; cbn [tally forallb Nat.eqb snd].
  - now rewrite andb_true_r.
  - injection L as L. destruct st as [|st]; cbn [tally forallb Nat.eqb andb].
    + now rewrite IH.
    + rewrite IH by assumption. rewrite is_empty_app_space.
      now rewrite andb_false_r.
Qed.

Lemma tally_installed bs :
  forall sts installed failed,
    length sts = length bs ->
    Str.is_empty (fst (tally bs sts installed failed))
    = Str.is_empty installed && negb (existsb (fun st => (st =? 0)%nat) sts).
Proof.
  induction bs as [|b bs IH]; intros [|st sts] installed failed L;
    try discriminate; cbn [tally existsb fst].
  - now rewrite andb_true_r.
  - injection L as L. destruct (st =? 0)%nat; cbn [orb negb].
    + rewrite IH by assumption. rewrite is_empty_app_space.
      now rewrite andb_false_r.
    + now rewrite IH.
Qed.

Lemma before_installs_run h s :
  wp (before_installs h) s
     (fun r s' =>
        r = (if prerequisites h
             then if base_dirs_blocked h (files s) then Exit 1 else Next tt
             else Exit 1) /\
        exists evs, trace s' = (trace s ++ evs)%list /\ quiet evs).
Proof.
  unfold wp, before_installs, InstallSh.banner, InstallSh.check_requirements,
    InstallSh.show_configuration, InstallSh.detect_arch, InstallSh.detect_os,
    InstallSh.make_dir, prerequisites, base_dirs_blocked.
  sh_unfold. sh_simpl.
  destruct (has_curl h), (has_wget h), (has_tar h); sh_simpl;
    try (split; [reflexivity|]; trace_ext).
  all: destruct (Platform.detect_arch_name (uname_m h)); sh_simpl;
    destruct (Platform.detect_os_name (uname_s h)); sh_simpl;
    destruct (blocked (InstallSh.BIN_DIR h) (files s)); sh_simpl;
    try (split; [reflexivity|]; trace_ext);
    rewrite blocked_mkdir_p;
    destruct (blocked (InstallSh.VERSIONS_DIR h) (files s)); sh_simpl;
    (split; [reflexivity|]; trace_ext).
Qed.

(** The PATH step, whole: its result, the files and the lines it
    leaves. *)
Lemma setup_path_eq h s :
  exists evs,
    quiet evs /\
    InstallSh.setup_path h s
    = (if on_path h then Return 0
       else if path_step_fails h (files s)
            then Exit (S (redirect_error h)) else Next tt,
       {| files := path_step h (files s); trace := (trace s ++ evs)%list;
          DOWNLOAD_CMD := DOWNLOAD_CMD s; exit_trap := exit_trap s;
          mktemp_count := mktemp_count s |}).
Proof.
  unfold InstallSh.setup_path, InstallSh.config_file_for, InstallSh.redirect,
    path_step, path_step_fails, path_step_on, config_file_of, on_path.
  sh_unfold. sh_simpl.
  repeat match goal with
         | |- context [if ?c then _ else _] =>
             lazymatch c with
             | context [if _ then _ else _] => fail
             | _ => destruct c eqn:?; sh_simpl
             end
         end.
  all: try match goal with
           | H : writable ?p ?f = false |- _ =>
               exfalso;
               assert (is_file p f = true)
                 by (repeat apply is_file_append_line; assumption);
               rewrite is_file_writable in H by assumption; discriminate H
           end.
  all: try (exists (@nil event); split; [split; reflexivity|];
            rewrite app_nil_r; destruct s; reflexivity).
  all: eexists; (split; [|rewrite <- ?app_assoc; reflexivity]);
    split; reflexivity.
Qed.

Lemma run_setup_path h s :
  exists evs,
    quiet evs /\
    run (InstallSh.setup_path h) s
    = (if path_step_fails h (files s)
       then Exit (S (redirect_error h)) else Next tt,
       {| files := path_step h (files s); trace := (trace s ++ evs)%list;
          DOWNLOAD_CMD := DOWNLOAD_CMD s; exit_trap := exit_trap s;
          mktemp_count := mktemp_count s |}).
Proof.
  destruct (setup_path_eq h s) as (evs & Q & E).
  exists evs. split; [exact Q|].
  unfold run, call, bind. rewrite E.
  unfold path_step_fails.
  destruct (on_path h); cbn [negb andb Nat.eqb]; [reflexivity|].
  destruct (negb (is_file _ _) && negb (writable _ _)); reflexivity.
Qed.

Lemma setup_path_run h s :
  wp (run (InstallSh.setup_path h)) s
     (fun r s' =>
        r = (if path_step_fails h (files s)
             then Exit (S (redirect_error h)) else Next tt) /\
        exists evs, trace s' = (trace s ++ evs)%list /\ quiet evs).
Proof.
  unfold wp. destruct (run_setup_path h s) as (evs & Q & ->).
  cbn [fst snd trace]. split; [reflexivity|]. exists evs. auto.
Qed.

Lemma list_installed_run h bs :
  forall s,
    wp (InstallSh.list_installed h bs) s
       (fun r s' =>
          r = Next tt /\
          exists evs, trace s' = (trace s ++ evs)%list /\ quiet evs).
Proof.
  induction bs as [|b bs IH]; intros s; cbn [InstallSh.list_installed].
  - unfold wp; simpl. split; [reflexivity|]. trace_ext.
  - wp_prim. apply wp_bind.
    destruct (is_symlink _ _).
    + unfold wp at 1. sh_unfold. sh_simpl.
      eapply wp_conseq; [apply IH|]. cbv beta.
      intros r s' (-> & evs & T & Q1 & Q2). split; [reflexivity|].
      exists (Echo ("  - " ++ InstallSh.BIN_DIR h ++ "/" ++ b) :: evs).
      rewrite T. sh_simpl. rewrite <- app_assoc. split; [reflexivity|].
      split; [exact Q1 | exact Q2].
    + unfold wp at 1. sh_unfold. sh_simpl. apply IH.
Qed.

Lemma print_summary_run h s :
  wp (run (InstallSh.print_summary h)) s
     (fun r s' =>
        r = Next tt /\
        exists evs, trace s' = (trace s ++ evs)%list /\ quiet evs).
Proof.
  unfold run, call. apply wp_bind. unfold wp at 1.
  assert (H : wp (InstallSh.print_summary h) s
                 (fun r s' =>
                    r = Next tt /\
                    exists evs, trace s' = (trace s ++ evs)%list /\ quiet evs)).
  { unfold InstallSh.print_summary.
    do 6 wp_prim.
    wp_use list_installed_run.
    intros r1 s1 (-> & e1 & T1 & Q1a & Q1b).
    do 3 wp_prim. unfold wp. sh_unfold. sh_simpl.
    split; [reflexivity|].
    rewrite T1. sh_simpl.
    exists ([Echo EmptyString; Echo InstallSh.rule;
             Success "Installation complete!"; Echo InstallSh.rule;
             Echo EmptyString; Echo "Installed binaries:"] ++ e1
            ++ [Echo EmptyString;
                Echo ("To get started, ensure " ++ InstallSh.BIN_DIR h
                        ++ " is in your PATH,");
                Echo "then run any of the installed binaries.";
                Echo EmptyString])%list.
    split; [rewrite <- !app_assoc; reflexivity|].
    split.
    - rewrite !downloads_app, Q1a. reflexivity.
    - rewrite !attempts_app, Q1b. reflexivity. }
  unfold wp in H. destruct H as (E & evs & T & Q).
  destruct (InstallSh.print_summary h s) as [[[]|n|n] s1];
    cbn [fst snd] in *; try discriminate.
  unfold wp, ret. cbn [Nat.eqb fst snd]. split; [reflexivity|]. eauto.
Qed.

Lemma report_run h installed failed s :
  wp (InstallSh.report h installed failed) s
     (fun r s' =>
        r = (if Str.is_empty failed then Next tt else Exit 1) /\
        exists evs, trace s' = (trace s ++ evs)%list /\ quiet evs).
Proof.
  unfold InstallSh.report.
  destruct (Str.is_empty failed); cbn [negb].
  - apply print_summary_run.
  - wp_prim. apply wp_bind.
    destruct (Str.is_empty installed); cbn [negb].
    + unfold wp. sh_unfold. sh_simpl. split; [reflexivity|]. trace_ext.
    + eapply wp_conseq; [apply print_summary_run|]. cbv beta.
      intros r s' (-> & evs & T & Q1 & Q2).
      unfold wp. sh_unfold. sh_simpl. split; [reflexivity|].
      exists (Warn ("Some binaries failed to install:" ++ failed) :: evs).
      rewrite T. sh_simpl. rewrite <- app_assoc. split; [reflexivity|].
      split; [exact Q1 | exact Q2].
Qed.

Lemma after_installs_run h installed failed s :
  wp (after_installs h installed failed) s
     (fun r s' =>
        exit_status r
        = (if negb (Str.is_empty installed) && path_step_fails h (files s)
           then S (redirect_error h)
           else if Str.is_empty failed then 0 else 1) /\
        exists evs, trace s' = (trace s ++ evs)%list /\ quiet evs).
Proof.
  unfold after_installs. apply wp_bind.
  destruct (Str.is_empty installed); cbn [negb andb].
  - unfold wp at 1, ret; cbn [fst snd].
    eapply wp_conseq; [apply report_run|]. cbv beta.
    intros r s' (-> & evs & T & Q).
    split; [destruct (Str.is_empty failed); reflexivity|eauto].
  - eapply wp_conseq; [apply setup_path_run|]. cbv beta.
    intros r1 s1 (-> & e1 & T1 & Q1).
    destruct (path_step_fails h (files s)).
    + split; [reflexivity|eauto].
    + eapply wp_conseq; [apply report_run|]. cbv beta.
      intros r s' (-> & e2 & T2 & Q2).
      split; [destruct (Str.is_empty failed); reflexivity|].
      exists (e1 ++ e2)%list. rewrite T2, T1, app_assoc.
      split; [reflexivity|now apply quiet_app].
Qed.

(** [main] in three parts: what precedes the loop, the loop, and what
    follows it. *)
Lemma main_eq h s :
  InstallSh.main h s
  = bind (before_installs h)
      (fun _ =>
         bind (InstallSh.install_each h (requested h) EmptyString EmptyString)
           (fun lists => after_installs h (fst lists) (snd lists))) s.
Proof.
  unfold InstallSh.main, before_installs, after_installs, requested, bind.
  destruct (InstallSh.banner s) as [[[]|n|n] s1]; cbn [fst snd]; auto.
  destruct (run (InstallSh.check_requirements h) s1) as [[[]|n|n] s2];
    cbn [fst snd]; auto.
  destruct (InstallSh.show_configuration h s2) as [[[]|n|n] s3];
    cbn [fst snd]; auto.
  destruct (InstallSh.make_dir (InstallSh.BIN_DIR h) s3) as [[[]|n|n] s4];
    cbn [fst snd]; auto.
  destruct (InstallSh.make_dir (InstallSh.VERSIONS_DIR h) s4)
    as [[[]|n|n] s5]; cbn [fst snd]; auto.
  destruct (InstallSh.install_each h (words (InstallSh.BINARIES h))
              EmptyString EmptyString s5) as [[[installed failed]|n|n] s6];
    reflexivity.
Qed.

(** With the prerequisites there and the base directories made, [main]
    ends the way its last part ends in the state the loop left, with the
    two strings the statuses of the attempts give. *)
Lemma main_unfold h s :
  prerequisites h = true ->
  base_dirs_blocked h (files s) = false ->
  InstallSh.main h s
  = after_installs h
      (fst (tally (requested h) (statuses h (requested h) (loop_start h s))
              EmptyString EmptyString))
      (snd (tally (requested h) (statuses h (requested h) (loop_start h s))
              EmptyString EmptyString))
      (loop_state h (requested h) (loop_start h s)).
Proof.
  intros P B. rewrite main_eq. unfold bind, loop_start.
  pose proof (before_installs_run h s) as H. unfold wp in H.
  destruct H as (E & _). rewrite P, B in E.
  destruct (before_installs h s) as [r0 s0]. cbn [fst snd] in *. subst r0.
  pose proof (install_each_run h (requested h) EmptyString EmptyString s0) as H.
  unfold wp in H. destruct H as (E1 & E2 & _).
  destruct (InstallSh.install_each h (requested h) EmptyString EmptyString s0)
    as [r1 s1]. cbn [fst snd] in *. subst r1 s1. reflexivity.
Qed.

(** [main], as its status and its trace show it. *)
Lemma main_run h s :
  exit_status (fst (InstallSh.main h s))
  = (if prerequisites h then
       if base_dirs_blocked h (files s) then 1
       else if existsb (fun st => (st =? 0)%nat)
                 (statuses h (requested h) (loop_start h s))
               && path_step_fails h
                    (files (loop_state h (requested h) (loop_start h s)))
            then S (redirect_error h)
            else if forallb (Nat.eqb 0)
                      (statuses h (requested h) (loop_start h s))
                 then 0 else 1
     else 1) /\
  exists evs,
    trace (snd (InstallSh.main h s)) = (trace s ++ evs)%list /\
    (prerequisites h = true -> base_dirs_blocked h (files s) = false ->
     attempts evs = map attempt_line (requested h)).
Proof.
  rewrite main_eq. unfold bind, loop_start.
  pose proof (before_installs_run h s) as H. unfold wp in H.
  destruct H as (E & e0 & T0 & Q0a & Q0b).
  destruct (before_installs h s) as [r0 s0]. cbn [fst snd] in *. subst r0.
  destruct (prerequisites h).
  2:{ split; [reflexivity|]. exists e0. split; [assumption|discriminate]. }
  destruct (base_dirs_blocked h (files s)).
  { split; [reflexivity|]. exists e0. split; [assumption|discriminate]. }
  pose proof (install_each_run h (requested h) EmptyString EmptyString s0) as H.
  unfold wp in H. destruct H as (E1 & E2 & e1 & T1 & A1).
  destruct (InstallSh.install_each h (requested h) EmptyString EmptyString s0)
    as [r1 s1]. cbn [fst snd] in *. subst r1.
  pose proof (tally_failed (requested h) (statuses h (requested h) s0)
                EmptyString EmptyString (statuses_length h (requested h) s0)) as TF.
  pose proof (tally_installed (requested h) (statuses h (requested h) s0)
                EmptyString EmptyString (statuses_length h (requested h) s0)) as TI.
  cbn [Str.is_empty andb] in TF, TI.
  pose proof (after_installs_run h
                (fst (tally (requested h) (statuses h (requested h) s0)
                        EmptyString EmptyString))
                (snd (tally (requested h) (statuses h (requested h) s0)
                        EmptyString EmptyString)) s1) as H.
  unfold wp in H. destruct H as (E3 & e3 & T3 & Q3a & Q3b).
  rewrite TF, TI, negb_involutive in E3. rewrite <- E2.
  split; [exact E3|].
  exists (e0 ++ e1 ++ e3)%list.
  split; [rewrite T3, T1, T0, <- !app_assoc; reflexivity|].
  intros _ _. rewrite !attempts_app, Q0b, A1, Q3b. now rewrite app_nil_r.
Qed.

Lemma forallb_zero sts :
  forallb (Nat.eqb 0) sts = true <-> Forall (fun st => st = 0) sts.
Proof.
  rewrite forallb_forall, Forall_forall.
  split; intros H st I; specialize (H st I).
  - now apply Nat.eqb_eq in H.
  - now subst.
Qed.

Lemma existsb_zero sts :
  existsb (fun st => (st =? 0)%nat) sts = true
  <-> Exists (fun st => st = 0) sts.
Proof.
  rewrite existsb_exists, Exists_exists.
  split; intros (st & I & H); exists st; (split; [exact I|]).
  - now apply Nat.eqb_eq.
  - now subst.
Qed.

Lemma some_failed sts :
  Exists (fun st => st <> 0) sts -> forallb (Nat.eqb 0) sts = false.
Proof.
  intros X. apply not_true_is_false. intros F.
  apply forallb_zero in F. rewrite Forall_forall in F.
  apply Exists_exists in X as (st & I & N). now apply N, F.
Qed.

Lemma all_failed sts :
  Forall (fun st => st <> 0) sts ->
  existsb (fun st => (st =? 0)%nat) sts = false.
Proof.
  intros F. apply not_true_is_false. intros X.
  apply existsb_zero in X. rewrite Forall_forall in F.
  apply Exists_exists in X as (st & I & Z). now apply (F st I).
Qed.






(** A run in which the first binary installs and the second has no
    release: both are attempted, the statuses are 0 and 1, the script
    exits with status 1, and the first binary's link and file are in
    place. *)
Example partial_failure_run :
  let r := InstallSh.script Examples.tui_unreleased Examples.fresh in
  statuses Examples.tui_unreleased (requested Examples.tui_unreleased)
    (loop_start Examples.tui_unreleased Examples.fresh) = [0; 1] /\
  attempts (trace (snd r))
  = [attempt_line "centy-daemon"; attempt_line "centy-tui"] /\
  fst r = 1 /\
  lookup "/home/u/.centy/bin/centy-daemon" (files (snd r))
  = Some (Symlink "/home/u/.centy/versions/centy-daemon/0.1.6/centy-daemon") /\
  lookup "/home/u/.centy/versions/centy-daemon/0.1.6/centy-daemon" (files (snd r))
  = Some (File "daemon-elf" true) /\
  lookup "/home/u/.centy/bin/centy-tui" (files (snd r)) = None.
Proof. cbv zeta. repeat split; vm_compute; reflexivity. Qed.

(** ** Symbolic links: which steps can create one *)

Create HintDb links.

Lemma nns_refl f : no_new_symlinks f f.
Proof. intros p t H; exact H. Qed.

Lemma nns_write_file q c x f g :
  no_new_symlinks f g -> no_new_symlinks f (write q (File c x) g).
Proof.
  intros H p t. rewrite lookup_write.
  destruct (q =? p); [discriminate | apply H].
Qed.

Lemma nns_write_dir q f g :
  no_new_symlinks f g -> no_new_symlinks f (write q Dir g).
Proof.
  intros H p t. rewrite lookup_write.
  destruct (q =? p); [discriminate | apply H].
Qed.

Lemma nns_remove q f g :
  no_new_symlinks f g -> no_new_symlinks f (remove q g).
Proof.
  intros H p t. rewrite lookup_remove.
  destruct (q =? p); [discriminate | apply H].
Qed.

Lemma nns_mkdir_p q f g :
  no_new_symlinks f g -> no_new_symlinks f (mkdir_p q g).
Proof.
  intros H. unfold mkdir_p. destruct (blocked q g); [assumption|].
  destruct (lookup q g); [assumption|]. now apply nns_write_dir.
Qed.

Lemma nns_mv src dst f g :
  no_new_symlinks f g -> no_new_symlinks f (mv src dst g).
Proof.
  intros H. unfold mv. destruct (lookup src g) as [[c x| |t]|]; try assumption.
  destruct (is_dir dst g).
  - destruct (is_dir _ g); [assumption|]. now apply nns_write_file, nns_remove.
  - destruct (dir_exists _ g); [|assumption].
    now apply nns_write_file, nns_remove.
Qed.

Lemma nns_chmod_x q f g :
  no_new_symlinks f g -> no_new_symlinks f (chmod_x q g).
Proof.
  intros H. unfold chmod_x. destruct (lookup q g) as [[c x| |t]|]; try assumption.
  now apply nns_write_file.
Qed.

Lemma nns_rm_f q f g :
  no_new_symlinks f g -> no_new_symlinks f (rm_f q g).
Proof.
  intros H. unfold rm_f.
  destruct (lookup q g) as [[c x| |t]|]; try assumption; now apply nns_remove.
Qed.

Lemma nns_unpack dest members :
  forall f g, no_new_symlinks f g -> no_new_symlinks f (unpack dest members g).
Proof.
  induction members as [|[name [c x]] ms IH]; intros f g H; simpl.
  - assumption.
  - apply IH. now apply nns_write_file.
Qed.

#[local] Hint Resolve nns_refl nns_write_file nns_write_dir nns_remove
  nns_mkdir_p nns_mv nns_chmod_x nns_rm_f nns_unpack : links.

(** What [find] lists first, when it lists something, is a regular
    file. *)
Lemma find_head_is_file dir name f :
  Str.is_empty (hd EmptyString (find_name_type_f dir name f)) = false ->
  is_file (hd EmptyString (find_name_type_f dir name f)) f = true.
Proof.
  unfold find_name_type_f.
  destruct (filter _ (map fst f)) as [|p ps] eqn:E; simpl; [discriminate|].
  intros _.
  assert (I : In p (filter
                      (fun p => is_file p f && under dir p && (basename p =? name))
                      (map fst f))) by (rewrite E; now left).
  apply filter_In in I as [_ I].
  now apply andb_true_iff in I as [I _]; apply andb_true_iff in I as [I _].
Qed.

Lemma under_app dir x : under dir (dir ++ "/" ++ x) = true.
Proof.
  unfold under. rewrite <- string_app_assoc. apply starts_with_app.
Qed.

Lemma outside_child dir x q : under dir q = false -> dir ++ "/" ++ x <> q.
Proof. intros U <-. now rewrite under_app in U. Qed.

Lemma find_head_under dir name f :
  Str.is_empty (hd EmptyString (find_name_type_f dir name f)) = false ->
  under dir (hd EmptyString (find_name_type_f dir name f)) = true.
Proof.
  unfold find_name_type_f.
  destruct (filter _ (map fst f)) as [|p ps] eqn:E; simpl; [discriminate|].
  intros _.
  assert (I : In p (filter
                      (fun p => is_file p f && under dir p && (basename p =? name))
                      (map fst f))) by (rewrite E; now left).
  apply filter_In in I as [_ I].
  apply andb_true_iff in I as [I _]. now apply andb_true_iff in I as [_ I].
Qed.


Lemma wp_and A (c : sh A) s (Q1 Q2 : flow A -> state -> Prop) :
  wp c s Q1 -> wp c s Q2 -> wp c s (fun r s' => Q1 r s' /\ Q2 r s').
Proof. unfold wp; auto. Qed.

Lemma resolve_version_count h binary version s :
  wp (InstallSh.resolve_version h binary version) s
     (fun r s' => mktemp_count s' = mktemp_count s).
Proof.
  unfold wp, InstallSh.resolve_version, InstallSh.get_latest_version.
  sh_unfold. sh_simpl.
  destruct (Str.is_empty version); sh_simpl; [|reflexivity].
  destruct (release_index h _) as [response|]; sh_simpl; [|reflexivity].
  destruct (Str.is_empty (scan_tag_name h response)); reflexivity.
Qed.


(** *** The paths of one attempt *)

Lemma area_self d : area d d = true.
Proof. unfold area. now rewrite String.eqb_refl. Qed.

Lemma area_child d x : area d (d ++ "/" ++ x) = true.
Proof. unfold area. rewrite under_app. apply orb_true_r. Qed.

Lemma area_archive d ext : area d (d ++ "/download." ++ ext) = true.
Proof. apply (area_child d ("download." ++ ext)). Qed.

Lemma area_under d q : under d q = true -> area d q = true.
Proof. unfold area. intros ->. apply orb_true_r. Qed.

Create HintDb touch.

#[local] Hint Resolve touches_refl touches_write touches_remove touches_unpack
  area_self area_child area_archive : touch.

Lemma app_nonempty_neq (a b : string) : Str.is_empty b = false -> a ++ b <> a.
Proof.
  intros N E. rewrite <- (string_app_empty_r a) in E at 2.
  apply string_app_inv_head in E. subst b. discriminate N.
Qed.

Lemma under_install_path h binary v :
  under (InstallSh.INSTALL_DIR h) (install_path_of h binary v) = true.
Proof.
  unfold install_path_of, InstallSh.VERSIONS_DIR, under.
  rewrite !string_app_assoc.
  change ("/versions" ++ "/" ++ binary ++ "/" ++ strip_v v)
    with ("/" ++ "versions" ++ "/" ++ binary ++ "/" ++ strip_v v).
  rewrite <- (string_app_assoc _ "/"). apply starts_with_app.
Qed.

Lemma under_target h binary v :
  under (InstallSh.INSTALL_DIR h) (target_of h binary v) = true.
Proof.
  apply (under_trans _ (install_path_of h binary v));
    [apply under_install_path | apply under_app].
Qed.

Lemma under_bin_dir h :
  under (InstallSh.INSTALL_DIR h) (InstallSh.BIN_DIR h) = true.
Proof. apply under_app. Qed.

Lemma under_link h binary :
  under (InstallSh.INSTALL_DIR h) (link_of h binary) = true.
Proof.
  apply (under_trans _ (InstallSh.BIN_DIR h));
    [apply under_bin_dir | apply under_app].
Qed.

(** A path of the temporary directory is no path [p] of the
    installation directory and lies in none. *)
Lemma tmp_apart h tmp p q :
  apart tmp (InstallSh.INSTALL_DIR h) = true ->
  under (InstallSh.INSTALL_DIR h) p = true ->
  area tmp q = true ->
  (q =? p) = false /\ under p q = false.
Proof.
  intros A P Q. pose proof (apart_area _ _ _ A Q) as U. split.
  - apply String.eqb_neq. intros ->. congruence.
  - apply not_true_is_false. intros H.
    rewrite (under_trans _ _ _ P H) in U. discriminate.
Qed.

(** Paths below the bin directory against paths below the versions
    directory. *)
Ltac installed_paths :=
  unfold target_of, install_path_of, link_of, InstallSh.BIN_DIR,
    InstallSh.VERSIONS_DIR, under;
  rewrite ?string_app_assoc.

Lemma link_not_install_path h binary v :
  (install_path_of h binary v =? link_of h binary) = false
  /\ under (link_of h binary) (install_path_of h binary v) = false.
Proof.
  split.
  - apply String.eqb_neq. installed_paths. intros E.
    apply string_app_inv_head in E. discriminate E.
  - installed_paths. rewrite starts_with_head. reflexivity.
Qed.

Lemma link_not_target h binary v :
  (target_of h binary v =? link_of h binary) = false
  /\ under (link_of h binary) (target_of h binary v) = false.
Proof.
  split.
  - apply String.eqb_neq. installed_paths. intros E.
    apply string_app_inv_head in E. discriminate E.
  - installed_paths. rewrite starts_with_head. reflexivity.
Qed.

Lemma bin_dir_not_target h binary v :
  (InstallSh.BIN_DIR h =? target_of h binary v) = false
  /\ under (target_of h binary v) (InstallSh.BIN_DIR h) = false.
Proof.
  split.
  - apply String.eqb_neq. installed_paths. intros E.
    apply string_app_inv_head in E. discriminate E.
  - installed_paths. rewrite starts_with_head. reflexivity.
Qed.

Lemma bin_dir_not_install_path h binary v :
  (InstallSh.BIN_DIR h =? install_path_of h binary v) = false.
Proof.
  apply String.eqb_neq. installed_paths. intros E.
  apply string_app_inv_head in E. discriminate E.
Qed.

Lemma bin_dir_not_link h binary :
  (InstallSh.BIN_DIR h =? link_of h binary) = false
  /\ under (link_of h binary) (InstallSh.BIN_DIR h) = false.
Proof.
  unfold link_of. split.
  - apply String.eqb_neq. intros E. symmetry in E. revert E.
    now apply app_nonempty_neq.
  - now apply under_longer.
Qed.

Lemma install_path_not_target h binary v :
  (install_path_of h binary v =? target_of h binary v) = false
  /\ under (target_of h binary v) (install_path_of h binary v) = false.
Proof.
  unfold target_of. split.
  - apply String.eqb_neq. intros E. symmetry in E. revert E.
    now apply app_nonempty_neq.
  - now apply under_longer.
Qed.

(** *** The steps of one attempt on a disk that is ready *)

Lemma try_formats_files h binary version tmp_dir os os_legacy arch ext s :
  wp (InstallSh.try_formats h binary version tmp_dir os os_legacy arch ext) s
     (fun r s' =>
        no_new_symlinks (files s) (files s') /\
        touches (area tmp_dir) (files s) (files s') /\
        (r = Next false -> is_file (tmp_dir ++ "/" ++ binary) (files s') = true)).
Proof.
  unfold wp, InstallSh.try_formats, InstallSh.try_download.
  sh_unfold. sh_simpl.
  repeat sh_case.
  all: split; [auto 10 with links|].
  all: split; [auto 10 with touch|].
  all: try discriminate.
  all: intros _; unfold is_file; now rewrite lookup_write_same.
Qed.

(** [mv] of a file of the temporary directory to its place, on a disk
    that differs from a ready one in the temporary directory only. *)
Lemma mv_placed tmp install_path binary f g src :
  touches (area tmp) f g ->
  is_file src g = true ->
  Str.has_char "/" binary = false ->
  lookup install_path f = Some Dir ->
  no_dir (install_path ++ "/" ++ binary) f = true ->
  (forall q, area tmp q = true ->
             (q =? install_path) = false
             /\ (q =? install_path ++ "/" ++ binary) = false
             /\ under (install_path ++ "/" ++ binary) q = false) ->
  exists c x,
    mv src (install_path ++ "/" ++ binary) g
    = write (install_path ++ "/" ++ binary) (File c x) (remove src g).
Proof.
  intros T S B D N Sep. unfold is_file in S.
  destruct (lookup src g) as [[c x| |t]|] eqn:L; try discriminate.
  exists c, x. apply mv_lands; [exact L| |].
  - apply (touches_no_dir (area tmp) _ f g T).
    + destruct (area tmp (install_path ++ "/" ++ binary)) eqn:E; [|reflexivity].
      destruct (Sep _ E) as (_ & H & _). now rewrite String.eqb_refl in H.
    + intros q Q. now apply Sep.
    + exact N.
  - rewrite (dirname_app _ _ B). rewrite (proj1 T); [exact D|].
    destruct (area tmp install_path) eqn:E; [|reflexivity].
    destruct (Sep _ E) as (H & _). now rewrite String.eqb_refl in H.
Qed.

Lemma place_binary_files h binary tmp_dir install_path ext is_archive s :
  (is_archive = false -> is_file (tmp_dir ++ "/" ++ binary) (files s) = true) ->
  Str.has_char "/" binary = false ->
  lookup install_path (files s) = Some Dir ->
  no_dir (install_path ++ "/" ++ binary) (files s) = true ->
  (forall q, area tmp_dir q = true ->
             (q =? install_path) = false
             /\ (q =? install_path ++ "/" ++ binary) = false
             /\ under (install_path ++ "/" ++ binary) q = false) ->
  wp (InstallSh.place_binary h binary tmp_dir install_path ext is_archive) s
     (fun r s' =>
        no_new_symlinks (files s) (files s') /\
        touches (fun q => area tmp_dir q
                          || (q =? install_path ++ "/" ++ binary))
                (files s) (files s') /\
        (r = Next tt ->
         exists c x,
           lookup (install_path ++ "/" ++ binary) (files s') = Some (File c x))).
Proof.
  intros Raw B D N Sep.
  assert (Sub : forall g,
             touches (area tmp_dir) (files s) g ->
             touches (fun q => area tmp_dir q
                               || (q =? install_path ++ "/" ++ binary))
                     (files s) g).
  { intros g. apply touches_sub. intros q ->. reflexivity. }
  assert (Moved : forall g src,
             touches (area tmp_dir) (files s) g ->
             no_new_symlinks (files s) g ->
             is_file src g = true ->
             area tmp_dir src = true ->
             let g' := mv src (install_path ++ "/" ++ binary) g in
             no_new_symlinks (files s) g' /\
             touches (fun q => area tmp_dir q
                               || (q =? install_path ++ "/" ++ binary))
                     (files s) g' /\
             (Next tt = Next tt :> flow unit ->
              exists c x,
                lookup (install_path ++ "/" ++ binary) g' = Some (File c x))).
  { intros g src T NS F A. cbv zeta.
    destruct (mv_placed tmp_dir install_path binary (files s) g src
                T F B D N Sep) as (c & x & ->).
    split; [auto with links|]. split.
    - apply touches_write; [now rewrite String.eqb_refl, orb_true_r|].
      apply touches_remove; [now rewrite A|]. now apply Sub.
    - intros _. exists c, x. apply lookup_write_same. }
  unfold wp, InstallSh.place_binary, InstallSh.find_and_move,
    InstallSh.extract_archive.
  sh_unfold. sh_simpl.
  destruct is_archive.
  2:{ sh_simpl. apply Moved; auto with links touch. }
  clear Raw.
  repeat match goal with
         | |- context [match ?x with _ => _ end] =>
             lazymatch x with
             | context [match _ with _ => _ end] => fail
             | _ => destruct x eqn:?
             end; sh_simpl
         end.
  all: try (split; [auto 10 with links|];
            split; [apply Sub; auto 10 with touch|]; discriminate).
  all: apply Moved; auto 10 with links touch.
  all: first [apply find_head_is_file | apply area_under, find_head_under];
    match goal with
    | H : negb (Str.is_empty _) = true |- _ =>
        now apply negb_true_iff in H
    end.
Qed.

Lemma link_is_not_target h binary version_display :
  InstallSh.BIN_DIR h ++ "/" ++ binary
  <> (InstallSh.VERSIONS_DIR h ++ "/" ++ binary ++ "/" ++ version_display)
     ++ "/" ++ binary.
Proof.
  unfold InstallSh.BIN_DIR, InstallSh.VERSIONS_DIR.
  rewrite !string_app_assoc. intros E.
  apply string_app_inv_head in E. discriminate E.
Qed.

Lemma publish_files h binary version_display install_path s c x :
  lookup (install_path ++ "/" ++ binary) (files s) = Some (File c x) ->
  InstallSh.BIN_DIR h ++ "/" ++ binary <> install_path ++ "/" ++ binary ->
  no_dir (InstallSh.BIN_DIR h ++ "/" ++ binary) (files s) = true ->
  wp (InstallSh.publish h binary version_display install_path) s
     (fun r s' =>
        lookup (install_path ++ "/" ++ binary) (files s') = Some (File c true) /\
        forall p t,
          lookup p (files s') = Some (Symlink t) ->
          lookup p (files s) = Some (Symlink t) \/
          (p = InstallSh.BIN_DIR h ++ "/" ++ binary /\
           t = install_path ++ "/" ++ binary)).
Proof.
  intros Target Distinct NoDir.
  unfold wp, InstallSh.publish. sh_unfold. sh_simpl.
  set (target := install_path ++ "/" ++ binary) in *.
  set (link := InstallSh.BIN_DIR h ++ "/" ++ binary) in *.
  assert (C : chmod_x target (files s) = write target (File c true) (files s)).
  { unfold chmod_x. now rewrite Target. }
  rewrite C. clear C.
  set (f1 := write target (File c true) (files s)).
  assert (T1 : lookup target f1 = Some (File c true)) by apply lookup_write_same.
  assert (N1 : no_new_symlinks (files s) f1) by (unfold f1; auto with links).
  assert (I1 : inhabited link f1 = false).
  { unfold f1. rewrite (inhabited_write_over _ _ _ _ _ Target).
    now apply no_dir_inhabited. }
  assert (L1 : lookup link f1 <> Some Dir).
  { unfold f1. rewrite lookup_write_other by auto.
    unfold no_dir in NoDir. now destruct (lookup link (files s)) as [[| |]|]. }
  set (f2 := rm_f link f1).
  assert (R2 : f2 = remove link f1).
  { unfold f2, rm_f. destruct (lookup link f1) as [[| |]|]; congruence. }
  assert (T2 : lookup target f2 = Some (File c true)).
  { rewrite R2, lookup_remove_other; auto. }
  assert (N2 : no_new_symlinks (files s) f2) by (unfold f2; auto with links).
  assert (L2 : lookup link f2 = None) by (rewrite R2; apply lookup_remove_same).
  assert (D2 : is_dir link f2 = false).
  { unfold is_dir. rewrite L2. apply not_true_is_false. intros H.
    rewrite R2 in H. apply inhabited_remove in H. congruence. }
  unfold ln_s. rewrite D2, L2.
  destruct (dir_exists (dirname link) f2).
  - split.
    + rewrite lookup_write_other; auto.
    + intros p t. rewrite lookup_write.
      destruct (link =? p) eqn:E.
      * apply String.eqb_eq in E. intros H. injection H as <-. right. auto.
      * intros H. left. now apply N2.
  - split; [assumption|]. intros p t H. left. now apply N2.
Qed.

Lemma nns_trans f g k :
  no_new_symlinks f g -> no_new_symlinks g k -> no_new_symlinks f k.
Proof. intros H1 H2 p t H. apply H1, H2, H. Qed.

Lemma plain_name_no_slash n : plain_name n = true -> Str.has_char "/" n = false.
Proof.
  unfold plain_name. intros H.
  repeat (apply andb_true_iff in H as [H ?]).
  now apply negb_true_iff.
Qed.

Lemma no_dir_write d p n f :
  (p =? d) = false -> under d p = false ->
  no_dir d f = true -> no_dir d (write p n f) = true.
Proof.
  intros E U. apply (touches_no_dir (fun q => q =? p)).
  - apply touches_write; [apply String.eqb_refl | apply touches_refl].
  - now rewrite String.eqb_sym.
  - intros q Q. apply String.eqb_eq in Q. now subst q.
Qed.

Lemma no_dir_mkdir_p d p f :
  (p =? d) = false -> under d p = false ->
  no_dir d f = true -> no_dir d (mkdir_p p f) = true.
Proof.
  intros E U. apply (touches_no_dir (fun q => q =? p)).
  - apply touches_mkdir_p; [apply String.eqb_refl | apply touches_refl].
  - now rewrite String.eqb_sym.
  - intros q Q. apply String.eqb_eq in Q. now subst q.
Qed.

Lemma lookup_mkdir_p q p f : p <> q -> lookup q (mkdir_p p f) = lookup q f.
Proof.
  intros N. unfold mkdir_p. destruct (blocked p f); [reflexivity|].
  destruct (lookup p f); [reflexivity|].
  apply lookup_write_other. congruence.
Qed.

Lemma tmp_apart_not_area h tmp p :
  apart tmp (InstallSh.INSTALL_DIR h) = true ->
  under (InstallSh.INSTALL_DIR h) p = true ->
  area tmp p = false.
Proof.
  intros A P. destruct (area tmp p) eqn:E; [|reflexivity].
  destruct (tmp_apart h tmp p p A P E) as [H _].
  now rewrite String.eqb_refl in H.
Qed.

(** One attempt on a disk that is ready, as the file system shows it. *)
Lemma install_binary_files h binary version s :
  ready h binary version s = true ->
  wp (InstallSh.install_binary h binary version) s
     (fun r s' =>
        (forall p t,
           lookup p (files s') = Some (Symlink t) ->
           lookup p (files s) = Some (Symlink t) \/
           (p = link_of h binary /\
            exists v c,
              resolved_version h binary version = Some v /\
              t = target_of h binary v /\
              lookup t (files s') = Some (File c true))) /\
        (r = Next tt ->
         exists v c,
           resolved_version h binary version = Some v /\
           lookup (target_of h binary v) (files s') = Some (File c true))).
Proof.
  unfold ready. intros R.
  apply andb_true_iff in R as [R M]. apply andb_true_iff in R as [R AP].
  apply andb_true_iff in R as [R NL]. apply andb_true_iff in R as [_ PN].
  pose proof (plain_name_no_slash _ PN) as SL.
  unfold InstallSh.install_binary.
  wp_prim.
  apply wp_bind. eapply wp_conseq.
  { apply wp_and; [apply resolve_version_run | apply resolve_version_count]. }
  cbv beta. intros r1 s1 ((-> & F1 & _ & _) & C1). sh_simpl.
  revert M. destruct (resolved_version h binary version) as [v|]; intros M.
  2:{ split; [|discriminate]. intros p t H. left. now rewrite <- F1. }
  apply andb_true_iff in M as [M _]. apply andb_true_iff in M as [M ND].
  apply andb_true_iff in M as [_ NB].
  apply negb_true_iff in NB.
  do 5 wp_prim.
  rewrite F1, C1.
  set (tmp := tmp_name (mktemp_count s)) in *.
  change (InstallSh.VERSIONS_DIR h ++ "/" ++ binary ++ "/" ++ strip_v v)
    with (install_path_of h binary v).
  set (f3 := write tmp Dir
               (mkdir_p (InstallSh.BIN_DIR h)
                  (mkdir_p (install_path_of h binary v) (files s)))).
  assert (T : forall p q, under (InstallSh.INSTALL_DIR h) p = true ->
                          area tmp q = true ->
                          (q =? p) = false /\ under p q = false)
    by (intros p q; now apply tmp_apart).
  assert (D3 : lookup (install_path_of h binary v) f3 = Some Dir).
  { unfold f3. rewrite lookup_write_other.
    - rewrite lookup_mkdir_p; [now apply mkdir_p_makes|].
      apply String.eqb_neq, bin_dir_not_install_path.
    - apply String.eqb_neq. rewrite String.eqb_sym.
      apply (proj1 (T _ _ (under_install_path h binary v) (area_self tmp))). }
  assert (N3 : no_dir (target_of h binary v) f3 = true).
  { unfold f3.
    destruct (T _ _ (under_target h binary v) (area_self tmp)) as [E U].
    apply no_dir_write; [exact E | exact U|].
    apply no_dir_mkdir_p; [apply bin_dir_not_target..|].
    apply no_dir_mkdir_p; [apply install_path_not_target..|exact ND]. }
  assert (L3 : no_dir (link_of h binary) f3 = true).
  { unfold f3.
    destruct (T _ _ (under_link h binary) (area_self tmp)) as [E U].
    apply no_dir_write; [exact E | exact U|].
    apply no_dir_mkdir_p; [apply bin_dir_not_link..|].
    apply no_dir_mkdir_p; [apply link_not_install_path..|exact NL]. }
  assert (S3 : no_new_symlinks (files s) f3) by (unfold f3; auto with links).
  wp_use capture_detect_os.
  intros r2 s2 ([n2 ->] & F2 & _ & _). sh_simpl.
  wp_use capture_detect_os_legacy.
  intros r3 s3 ([n3 ->] & F3 & _ & _).
  wp_use capture_detect_arch.
  intros r4 s4 ([n4 ->] & F4 & _ & _).
  assert (F : files s4 = f3) by (now rewrite F4, F3, F2).
  wp_use try_formats_files.
  rewrite F. intros r5 s5 (S5 & T5 & Raw).
  destruct r5 as [is_archive|n|n];
    try (split; [|discriminate]; intros p t H; left; now apply S3, S5).
  pose proof (tmp_apart_not_area h tmp _ AP (under_install_path h binary v))
    as A1.
  pose proof (tmp_apart_not_area h tmp _ AP (under_target h binary v)) as A2.
  pose proof (tmp_apart_not_area h tmp _ AP (under_link h binary)) as A3.
  assert (D5 : lookup (install_path_of h binary v) (files s5) = Some Dir)
    by (rewrite (proj1 T5 _ A1); exact D3).
  assert (N5 : no_dir (target_of h binary v) (files s5) = true).
  { apply (touches_no_dir _ _ _ _ T5 A2); [|exact N3].
    intros q Q. now apply (T _ _ (under_target h binary v) Q). }
  assert (L5 : no_dir (link_of h binary) (files s5) = true).
  { apply (touches_no_dir _ _ _ _ T5 A3); [|exact L3].
    intros q Q. now apply (T _ _ (under_link h binary) Q). }
  apply wp_bind.
  eapply wp_conseq.
  { apply place_binary_files; [intros ->; now apply Raw | exact SL
                               | exact D5 | exact N5 |].
    intros q Q. split; [|split].
    - now apply (T _ _ (under_install_path h binary v) Q).
    - now apply (T _ _ (under_target h binary v) Q).
    - now apply (T _ _ (under_target h binary v) Q). }
  cbv beta. intros r6 s6 (S6 & T6 & Placed).
  destruct r6 as [[]|n|n];
    try (split; [|discriminate]; intros p t H; left; now apply S3, S5, S6).
  destruct (Placed eq_refl) as (c & x & P).
  assert (L6 : no_dir (link_of h binary) (files s6) = true).
  { apply (touches_no_dir _ _ _ _ T6); [| |exact L5].
    - rewrite A3. cbn [orb]. rewrite String.eqb_sym.
      apply link_not_target.
    - intros q Q. apply orb_true_iff in Q as [Q|Q].
      + now apply (T _ _ (under_link h binary) Q).
      + apply String.eqb_eq in Q. subst q. apply link_not_target. }
  eapply wp_conseq.
  { eapply publish_files; [exact P | apply link_is_not_target | exact L6]. }
  cbv beta. intros r7 s7 (T7 & L7).
  split.
  - intros p t H. destruct (L7 p t H) as [Old|[-> ->]].
    + left. now apply S3, S5, S6.
    + right. split; [reflexivity|]. exists v, c.
      split; [reflexivity|]. split; [reflexivity|]. exact T7.
  - intros _. exists v, c. split; [reflexivity|]. exact T7.
Qed.




(** ** Locating the binary in the extracted archive *)

Lemma under_nonempty dir p : under dir p = true -> Str.is_empty p = false.
Proof.
  unfold under. destruct p; [|reflexivity].
  destruct dir; discriminate.
Qed.

Lemma find_head_nonempty dir name f p rest :
  find_name_type_f dir name f = p :: rest -> Str.is_empty p = false.
Proof.
  unfold find_name_type_f. intros E.
  assert (I : In p (filter
                      (fun p => is_file p f && under dir p && (basename p =? name))
                      (map fst f))) by (rewrite E; now left).
  apply filter_In in I as [_ I].
  apply andb_true_iff in I as [I _]. apply andb_true_iff in I as [_ I].
  now apply under_nonempty in I.
Qed.

(** C6, as stated, on the multi-format installer: the archive holds the
    binary in a directory of the same name and, listed before it, another
    file of that name.  The archive-only installer installs the file from
    the same-named directory; the multi-format installer installs the other
    one. *)
Lemma multi_format_skips_subdirectory :
  let old := ArchiveOnly.install_binary Examples.wrapped_archive
               "centy-daemon" "0.1.6" Examples.fresh in
  let new := InstallSh.install_binary Examples.wrapped_archive
               "centy-daemon" "0.1.6" Examples.fresh in
  lookup "/home/u/.centy/versions/centy-daemon/0.1.6/centy-daemon" (files (snd old))
  = Some (File "daemon-elf" true) /\
  lookup "/home/u/.centy/versions/centy-daemon/0.1.6/centy-daemon" (files (snd new))
  = Some (File "completion-script" true) /\
  is_file "/tmp/tmp.0/centy-daemon/centy-daemon" (files (snd new)) = true /\
  fst new = Next tt.
Proof. vm_compute. repeat split. Qed.

(** C6 (amended): after extraction the archive-only installer takes the
    file at the root of the temporary directory, else the file in the
    same-named directory, else the first file of that name that the
    recursive search lists, and fails with status 1 and the message that
    the binary could not be found when there is none; the multi-format
    installer takes the file at the root, else the first file that the
    recursive search lists, with the same failure. *)
Theorem find_and_move_order :
  forall (binary tmp_dir install_path : string) (s : state),
    let f := files s in
    let root := tmp_dir ++ "/" ++ binary in
    let sub := tmp_dir ++ "/" ++ binary ++ "/" ++ binary in
    let dst := install_path ++ "/" ++ binary in
    let listed := find_name_type_f tmp_dir binary f in
    let not_found :=
      Error ("Could not find " ++ binary ++ " in extracted archive") in
    let old := ArchiveOnly.find_and_move binary tmp_dir install_path s in
    let new := InstallSh.find_and_move binary tmp_dir install_path s in
    (is_file root f = true ->
     fst old = Next tt /\ files (snd old) = mv root dst f /\
     fst new = Next tt /\ files (snd new) = mv root dst f) /\
    (is_file root f = false -> is_file sub f = true ->
     fst old = Next tt /\ files (snd old) = mv sub dst f) /\
    (forall p rest,
       is_file root f = false -> listed = p :: rest ->
       (is_file sub f = false ->
        fst old = Next tt /\ files (snd old) = mv p dst f) /\
       fst new = Next tt /\ files (snd new) = mv p dst f) /\
    (is_file root f = false -> listed = [] ->
     (is_file sub f = false ->
      fst old = Return 1 /\ files (snd old) = f /\
      trace (snd old) = (trace s ++ [not_found])%list) /\
     fst new = Return 1 /\ files (snd new) = f /\
     trace (snd new) = (trace s ++ [not_found])%list).
Proof.
  intros binary tmp_dir install_path s. cbv zeta.
  unfold ArchiveOnly.find_and_move, InstallSh.find_and_move.
  sh_unfold. sh_simpl.
  repeat split.
  all: intros.
  all: repeat match goal with
              | H : is_file _ _ = _ |- _ => rewrite H; clear H
              | H : find_name_type_f _ _ _ = [] |- _ => rewrite H; clear H
              end; sh_simpl; try reflexivity.
  all: match goal with
       | H : find_name_type_f _ _ _ = _ :: _ |- _ =>
           rewrite H; apply find_head_nonempty in H; cbn [hd]; rewrite H
       end; reflexivity.
Qed.

Lemma find_and_move_order_witness :
  let s := {| files := [("/opt/v", Dir);
                        ("/tmp/tmp.0/centy-daemon/centy-daemon",
                         File "daemon-elf" true)];
              trace := []; DOWNLOAD_CMD := "curl"; exit_trap := None;
              mktemp_count := 1 |} in
  is_file "/tmp/tmp.0/centy-daemon" (files s) = false /\
  is_file "/tmp/tmp.0/centy-daemon/centy-daemon" (files s) = true /\
  fst (ArchiveOnly.find_and_move "centy-daemon" "/tmp/tmp.0" "/opt/v" s) = Next tt /\
  files (snd (ArchiveOnly.find_and_move "centy-daemon" "/tmp/tmp.0" "/opt/v" s))
  = [("/opt/v", Dir); ("/opt/v/centy-daemon", File "daemon-elf" true)].
Proof.
  cbv zeta. split; [reflexivity|]. split; [reflexivity|].
  exact (proj1 (proj2 (find_and_move_order "centy-daemon" "/tmp/tmp.0" "/opt/v"
                         {| files := [("/opt/v", Dir);
                                      ("/tmp/tmp.0/centy-daemon/centy-daemon",
                                       File "daemon-elf" true)];
                            trace := []; DOWNLOAD_CMD := "curl";
                            exit_trap := None; mktemp_count := 1 |}))
               eq_refl eq_refl).
Defined.

(** ** Running the PATH step twice *)

(** C7 at the failing input: with the installation directory [/opt/[x]]
    the first run creates the configuration file with the export line;
    the line contains the directory, but [grep] reads the directory as a
    pattern in which [[x]] stands for the letter x, finds nothing, and the
    second run appends the export line again. *)
Theorem setup_path_rerun_appends_again :
  let h := Examples.bracket_dir in
  let s1 := snd (run (InstallSh.setup_path h) Examples.fresh) in
  let s2 := snd (run (InstallSh.setup_path h) s1) in
  InstallSh.file_content "/home/u/.zshrc" (files s1)
  = line (InstallSh.path_export h) /\
  Str.contains (InstallSh.BIN_DIR h)
    (InstallSh.file_content "/home/u/.zshrc" (files s1)) = true /\
  Grep.grep_q (InstallSh.BIN_DIR h)
    (InstallSh.file_content "/home/u/.zshrc" (files s1)) = false /\
  InstallSh.file_content "/home/u/.zshrc" (files s2)
  = line (InstallSh.path_export h) ++ line EmptyString
      ++ line "# Added by Centy installer" ++ line (InstallSh.path_export h) /\
  files s2 <> files s1.
Proof.
  cbv zeta. repeat split; try (vm_compute; reflexivity).
  vm_compute. discriminate.
Qed.

(** ** Temporary directories at the end of the script *)

(** C8 at the failing input: the default list of two binaries.  Each
    attempt makes a temporary directory and sets the EXIT action to remove
    it, replacing the action the attempt before had set; when the script
    ends only the second directory is removed, and the first one is left
    with the archive in it.  With one binary the directory is removed,
    when the script ends. *)
Theorem script_leaves_first_tmp_dir :
  let two := InstallSh.script Examples.linux Examples.fresh in
  let one := InstallSh.script Examples.wrapped_archive Examples.fresh in
  requested Examples.linux = ["centy-daemon"; "centy-tui"] /\
  fst two = 0 /\
  lookup "/tmp/tmp.0" (files (snd two)) = Some Dir /\
  lookup "/tmp/tmp.0/download.tar.gz" (files (snd two))
  = Some (File "daemon-tgz" false) /\
  lookup "/tmp/tmp.1" (files (snd two)) = None /\
  exit_trap (snd two) = Some "/tmp/tmp.1" /\
  requested Examples.wrapped_archive = ["centy-daemon"] /\
  lookup "/tmp/tmp.0" (files (snd one)) = None /\
  lookup "/tmp/tmp.0" (files (snd (InstallSh.main Examples.wrapped_archive
                                     Examples.fresh))) = Some Dir.
Proof. cbv zeta. repeat split; vm_compute; reflexivity. Qed.

Lemma install_binary_exit_trap h binary version s :
  exit_trap (snd (InstallSh.install_binary h binary version s))
  = match resolved_version h binary version with
    | Some _ => Some (tmp_name (mktemp_count s))
    | None => exit_trap s
    end.
Proof.
  change (wp (InstallSh.install_binary h binary version) s
            (fun _ s' =>
               exit_trap s'
               = match resolved_version h binary version with
                 | Some _ => Some (tmp_name (mktemp_count s))
                 | None => exit_trap s
                 end)).
  unfold InstallSh.install_binary.
  wp_prim.
  apply wp_bind. eapply wp_conseq.
  { apply wp_and; [apply resolve_version_run | apply resolve_version_count]. }
  cbv beta. intros r1 s1 ((-> & _ & X1 & _) & C1). sh_simpl.
  destruct (resolved_version h binary version) as [v|]; [|exact X1].
  do 5 wp_prim.
  wp_use capture_detect_os.
  intros r2 s2 ([n2 ->] & _ & X2 & _). sh_simpl.
  wp_use capture_detect_os_legacy.
  intros r3 s3 ([n3 ->] & _ & X3 & _).
  wp_use capture_detect_arch.
  intros r4 s4 ([n4 ->] & _ & X4 & _).
  assert (X : exit_trap s4 = Some (tmp_name (mktemp_count s)))
    by (now rewrite X4, X3, X2, C1).
  wp_use try_formats_run.
  intros r5 s5 (_ & _ & _ & _ & _ & _ & _ & X5).
  destruct r5 as [is_archive|n|n]; try (now rewrite X5).
  wp_use place_binary_run.
  intros r6 s6 (_ & X6 & _).
  destruct r6 as [[]|n|n]; try (now rewrite X6, X5).
  eapply wp_conseq; [apply publish_run|]. cbv beta.
  intros r7 s7 (_ & X7 & _). now rewrite X7, X6, X5.
Qed.

(** X2: Every attempt that gets its version makes the EXIT action remove its
    own temporary directory, whatever action was set before; an attempt
    that gets no version leaves the action as it was. *)
Theorem install_binary_replaces_exit_trap :
  forall (h : host) (binary version : string) (s : state),
    exit_trap (snd (InstallSh.install_binary h binary version s))
    = match resolved_version h binary version with
      | Some _ => Some (tmp_name (mktemp_count s))
      | None => exit_trap s
      end.
Proof. intros h binary version s. apply install_binary_exit_trap. Qed.

(** ** The npm installer: redirects *)

Import Npm NpmObs.

Lemma httpsGet_follows web n :
  forall url final,
    hop web n url = Some final ->
    forall fuel, httpsGet web (n + fuel) url = httpsGet web fuel final.
Proof.
  induction n as [|n IH]; intros url final H fuel; simpl in *.
  - now injection H as ->.
  - destruct (web url) as [code loc body|msg]; [|discriminate].
    destruct ((code =? 302)%nat || (code =? 301)%nat); [|discriminate].
    now apply IH.
Qed.

Lemma hop_chain n : hop chain_web n (chain_url n) = Some EmptyString.
Proof. induction n as [|n IH]; simpl; [reflexivity | exact IH]. Qed.

(** C9 (amended): [httpsGet] follows 301 and 302 redirects with no limit
    on their number: a chain of any length [n] that ends in a 200 response
    resolves to the body of that response (given the [n + 1] requests it
    takes), and one that ends in another status is rejected with the
    message naming that status and the last URL. *)
Theorem httpsGet_follows_any_chain :
  forall (web : string -> response) (n : nat) (url final location body : string)
         (statusCode : nat),
    hop web n url = Some final ->
    web final = Response statusCode location body ->
    forall fuel, n < fuel ->
      (statusCode = 200 -> httpsGet web fuel url = Some (Resolved body)) /\
      (statusCode <> 200 -> statusCode <> 301 -> statusCode <> 302 ->
       httpsGet web fuel url
       = Some (Rejected ("HTTP " ++ show_nat statusCode ++ ": " ++ final))).
Proof.
  intros web n url final location body code H F fuel L.
  replace fuel with (n + S (fuel - S n)) by lia.
  rewrite (httpsGet_follows web n url final H). simpl. rewrite F.
  split.
  - intros ->. reflexivity.
  - intros N200 N301 N302.
    apply Nat.eqb_neq in N200, N301, N302.
    now rewrite N200, N301, N302.
Qed.

Lemma httpsGet_follows_any_chain_witness :
  hop chain_web 25 (chain_url 25) = Some EmptyString /\
  chain_web EmptyString = Response 200 EmptyString "payload" /\
  25 < 26 /\
  httpsGet chain_web 26 (chain_url 25) = Some (Resolved "payload").
Proof.
  assert (H : hop chain_web 25 (chain_url 25) = Some EmptyString)
    by reflexivity.
  assert (L : 25 < 26) by lia.
  split; [exact H|]. split; [reflexivity|]. split; [exact L|].
  exact (proj1 (httpsGet_follows_any_chain chain_web 25 (chain_url 25)
                  EmptyString EmptyString "payload" 200 H eq_refl 26 L)
               eq_refl).
Defined.

(** C9, as stated: no depth bounds the redirects that [httpsGet] follows;
    for every depth there is a longer chain that it follows to the end. *)
Lemma httpsGet_has_no_redirect_limit :
  ~ exists depth, redirects_bounded_by depth.
Proof.
  intros [depth B].
  apply (B chain_web (chain_url (S depth)) EmptyString EmptyString "payload"
           (S depth) (hop_chain (S depth)) eq_refl (Nat.lt_succ_diag_r depth)
           (S (S depth))).
  apply (httpsGet_follows_any_chain chain_web (S depth) (chain_url (S depth))
           EmptyString EmptyString "payload" 200 (hop_chain (S depth)) eq_refl);
    [lia | reflexivity].
Qed.

(** ** The bin wrapper *)

(** C10, as stated, on a FreeBSD machine without the binary: the
    installer's platform check throws before anything is awaited, its
    [catch] block ends the process, and the wrapper's exit status is 1. *)
Lemma wrapper_exits_1_on_unsupported_platform :
  lookup (wrapper_binary freebsd) (disk started) = None /\
  forall child,
    wrapper freebsd child started
    = (1, {| disk := [];
             console := [ not_found_line;
                          Err "Failed to install centy: Unsupported platform: freebsd";
                          manual_line ] |}).
Proof. split; [reflexivity|]. intros child. reflexivity. Qed.

(** C10 (amended): when the binary is missing the wrapper starts the
    installer and never runs the binary.  On a supported platform and
    architecture the installer sends its first request and is suspended;
    the wrapper then exits with status 0 at once, whatever the answer
    would have been, and nothing is installed.  On any other platform or
    architecture the installer's check fails before the first request and
    the process exits with status 1. *)
Theorem wrapper_without_binary :
  forall (m : machine) (child : child_outcome) (p : process),
    lookup (wrapper_binary m) (disk p) = None ->
    match getPlatform m with
    | inr _ =>
        wrapper m child p
        = (0, {| disk := disk p;
                 console := (console p ++ [not_found_line; Request api_url])%list |})
    | inl message =>
        wrapper m child p
        = (1, {| disk := disk p;
                 console := (console p
                               ++ [ not_found_line;
                                    Err ("Failed to install centy: " ++ message);
                                    manual_line ])%list |})
    end.
Proof.
  intros m child p Missing. unfold wrapper. rewrite Missing.
  unfold main. destruct (getPlatform m) as [message|info]; cbn [run_sync failed].
  - unfold say; cbn [disk console]. now rewrite <- !app_assoc.
  - unfold say; cbn [disk console]. now rewrite <- !app_assoc.
Qed.

Lemma wrapper_without_binary_witness :
  lookup (wrapper_binary linux_offline) (disk started) = None /\
  fst (wrapper linux_offline (ChildExit (Some 0)) started) = 0 /\
  run_loop linux_offline 2 5 (main linux_offline) started
  = Some (1, {| disk := [];
                console := [ Request api_url;
                             Err "Failed to install centy: getaddrinfo ENOTFOUND api.github.com";
                             manual_line ] |}).
Proof.
  split; [reflexivity|]. split; [|reflexivity].
  exact (f_equal fst (wrapper_without_binary linux_offline (ChildExit (Some 0))
                        started eq_refl)).
Defined.

(** ** [grep] on plain patterns *)

Lemma plain_char_tests c :
  Grep.plain_char c = true ->
  Ascii.eqb c "\" = false /\ Ascii.eqb c "[" = false /\
  Ascii.eqb c "*" = false /\ Ascii.eqb c "^" = false /\
  Ascii.eqb c "$" = false /\ Ascii.eqb c Str.nl = false.
Proof.
  unfold Grep.plain_char. cbn [Str.has_char].
  rewrite !(Ascii.eqb_sym _ c).
  destruct (Ascii.eqb c "\"), (Ascii.eqb c "["), (Ascii.eqb c "*"),
    (Ascii.eqb c "^"), (Ascii.eqb c "$"), (Ascii.eqb c Str.nl);
    cbn; intros H; try discriminate; repeat split.
Qed.

Lemma parse_plain p :
  forall acc,
    Grep.plain p = true ->
    Grep.parse Grep.Normal acc p
    = Some ((rev acc ++ Grep.plain_pieces p)%list, false).
Proof.
  induction p as [|c r IH]; intros acc P; cbn [Grep.parse Grep.plain_pieces].
  - now rewrite app_nil_r.
  - cbn [Grep.plain] in P. apply andb_true_iff in P as [Pc Pr].
    destruct (plain_char_tests c Pc) as (E1 & E2 & E3 & E4 & E5 & E6).
    rewrite E1, E2, E3, E5. cbn [andb].
    destruct (Ascii.eqb c ".");
      (rewrite IH by assumption; cbn [rev]; now rewrite <- app_assoc).
Qed.

Lemma compile_plain p :
  Grep.plain p = true ->
  Grep.compile p
  = Some {| Grep.bol := false; Grep.pieces := Grep.plain_pieces p;
            Grep.eol := false |}.
Proof.
  intros P. unfold Grep.compile. destruct p as [|c r].
  - reflexivity.
  - pose proof P as P'. cbn [Grep.plain] in P'.
    apply andb_true_iff in P' as [Pc _].
    destruct (plain_char_tests c Pc) as (_ & _ & _ & E4 & _).
    rewrite E4. now rewrite parse_plain.
Qed.

Lemma match_here_plain p rest :
  Grep.match_here (Grep.plain_pieces p) false (p ++ rest) = true.
Proof.
  induction p as [|c r IH]; cbn [Grep.plain_pieces Grep.match_here append].
  - reflexivity.
  - rewrite IH, andb_true_r.
    destruct (Ascii.eqb c "."); cbn [Grep.atom_matches];
      [reflexivity | apply Ascii.eqb_refl].
Qed.

Lemma match_from_plain p pre rest :
  Grep.match_from (Grep.plain_pieces p) false (pre ++ p ++ rest) = true.
Proof.
  induction pre as [|c pre IH]; cbn [append].
  - destruct (p ++ rest) eqn:E; cbn [Grep.match_from];
      rewrite <- E, match_here_plain; reflexivity.
  - cbn [Grep.match_from]. rewrite IH. apply orb_true_r.
Qed.

Lemma has_char_app c a b :
  Str.has_char c (a ++ b) = Str.has_char c a || Str.has_char c b.
Proof.
  induction a as [|x a IH]; cbn [append Str.has_char]; [reflexivity|].
  now rewrite IH, orb_assoc.
Qed.

Lemma plain_no_newline p : Grep.plain p = true -> no_newline p.
Proof.
  unfold no_newline. induction p as [|c r IH]; cbn [Grep.plain Str.has_char].
  - reflexivity.
  - intros P. apply andb_true_iff in P as [Pc Pr].
    destruct (plain_char_tests c Pc) as (_ & _ & _ & _ & _ & E).
    now rewrite E, IH.
Qed.

Lemma lines_nonempty c s : Grep.lines (String c s) <> [].
Proof.
  cbn [Grep.lines]. destruct (Ascii.eqb c Str.nl); [discriminate|].
  destruct (Grep.lines s); discriminate.
Qed.

Lemma lines_one l :
  no_newline l -> Grep.lines (l ++ String Str.nl EmptyString) = [l].
Proof.
  unfold no_newline. induction l as [|c l IH]; cbn [append Str.has_char].
  - intros _. cbn [Grep.lines]. now rewrite Ascii.eqb_refl.
  - intros H. apply orb_false_iff in H as [Hc Hl].
    cbn [Grep.lines]. rewrite Hc, IH by assumption. reflexivity.
Qed.

Lemma lines_split a b :
  Grep.lines (a ++ String Str.nl b)
  = (Grep.lines (a ++ String Str.nl EmptyString) ++ Grep.lines b)%list.
Proof.
  induction a as [|c a IH]; cbn [append].
  - cbn [Grep.lines]. now rewrite Ascii.eqb_refl.
  - cbn [Grep.lines]. destruct (Ascii.eqb c Str.nl).
    + now rewrite IH.
    + rewrite IH.
      destruct (Grep.lines (a ++ String Str.nl EmptyString)) as [|l ls] eqn:E.
      * exfalso. destruct a; cbn [append] in E; now apply lines_nonempty in E.
      * reflexivity.
Qed.

(** A file that ends with a line holding the plain pattern is matched. *)
Lemma grep_q_last_line pattern before pre post :
  Grep.plain pattern = true ->
  no_newline (pre ++ pattern ++ post) ->
  (before = EmptyString \/ exists b, before = b ++ String Str.nl EmptyString) ->
  Grep.grep_q pattern (before ++ line (pre ++ pattern ++ post)) = true.
Proof.
  intros P N B. unfold Grep.grep_q. rewrite (compile_plain pattern P).
  assert (M : Grep.matches_line
                {| Grep.bol := false; Grep.pieces := Grep.plain_pieces pattern;
                   Grep.eol := false |} (pre ++ pattern ++ post) = true).
  { unfold Grep.matches_line; cbn [Grep.bol Grep.pieces Grep.eol].
    apply match_from_plain. }
  unfold line. destruct B as [->|[b ->]].
  - cbn [append]. rewrite lines_one by assumption. cbn [existsb].
    now rewrite M.
  - rewrite string_app_assoc. cbn [append].
    rewrite lines_split, existsb_app.
    rewrite (lines_one (pre ++ pattern ++ post)) by assumption.
    cbn [existsb]. rewrite M. now rewrite orb_true_r.
Qed.

(** ** The PATH step on plain directories *)

Lemma setup_path_files h s :
  files (snd (run (InstallSh.setup_path h) s)) = path_step h (files s).
Proof. destruct (run_setup_path h s) as (evs & _ & ->). reflexivity. Qed.

Lemma path_export_shape h :
  InstallSh.path_export h
  = ("export PATH=" ++ Str.dquote ++ "${PATH}:") ++ InstallSh.BIN_DIR h ++ Str.dquote.
Proof. unfold InstallSh.path_export. now rewrite !string_app_assoc. Qed.

Lemma path_export_no_newline h :
  Grep.plain (InstallSh.BIN_DIR h) = true ->
  no_newline (("export PATH=" ++ Str.dquote ++ "${PATH}:")
                ++ InstallSh.BIN_DIR h ++ Str.dquote).
Proof.
  intros P. unfold no_newline. rewrite !has_char_app.
  now rewrite (plain_no_newline _ P).
Qed.

Lemma path_step_on_settles h config_file f :
  Grep.plain (InstallSh.BIN_DIR h) = true ->
  path_step_on h config_file (path_step_on h config_file f)
  = path_step_on h config_file f.
Proof.
  intros P.
  pose proof (path_export_no_newline h P) as N.
  remember (path_step_on h config_file f) as f1 eqn:E.
  unfold path_step_on, is_file, InstallSh.file_content, append_line,
    create_with_line in E.
  destruct (lookup config_file f) as [[c x| |t]|] eqn:L.
  - destruct (Grep.grep_q (InstallSh.BIN_DIR h) c) eqn:G; cbn [negb] in E.
    + subst f1. unfold path_step_on, is_file, InstallSh.file_content.
      now rewrite L, G.
    + rewrite !lookup_write_same in E.
      assert (L1 : lookup config_file f1
                   = Some (File (((c ++ line EmptyString)
                                    ++ line "# Added by Centy installer")
                                   ++ line (InstallSh.path_export h)) x)).
      { subst f1. apply lookup_write_same. }
      unfold path_step_on, is_file, InstallSh.file_content. rewrite L1.
      rewrite path_export_shape at 1.
      rewrite grep_q_last_line; [reflexivity|assumption|assumption|].
      right. unfold line. rewrite <- string_app_assoc. eauto.
  - assert (F : f1 = f) by (subst f1; now destruct (writable _ _)).
    rewrite F. unfold path_step_on, is_file, create_with_line. rewrite L.
    now destruct (writable _ _).
  - assert (F : f1 = f) by (subst f1; now destruct (writable _ _)).
    rewrite F. unfold path_step_on, is_file, create_with_line. rewrite L.
    now destruct (writable _ _).
  - destruct (writable config_file f) eqn:W.
    2:{ subst f1. unfold path_step_on, is_file. now rewrite L, W. }
    assert (L1 : lookup config_file f1
                 = Some (File (line (InstallSh.path_export h)) false)).
    { subst f1. apply lookup_write_same. }
    unfold path_step_on, is_file, InstallSh.file_content. rewrite L1.
    rewrite path_export_shape at 1.
    change (line (("export PATH=" ++ Str.dquote ++ "${PATH}:")
                    ++ InstallSh.BIN_DIR h ++ Str.dquote))
      with (EmptyString ++ line (("export PATH=" ++ Str.dquote ++ "${PATH}:")
                                   ++ InstallSh.BIN_DIR h ++ Str.dquote)).
    rewrite grep_q_last_line; [reflexivity|assumption|assumption|now left].
Qed.

Lemma path_step_on_other h config_file f q :
  q <> config_file ->
  lookup q (path_step_on h config_file f) = lookup q f.
Proof.
  intros D. unfold path_step_on, append_line, create_with_line, is_file.
  destruct (lookup config_file f) as [[c x| |t]|] eqn:L;
    try (now destruct (writable _ _)).
  - destruct (negb _); [|reflexivity].
    rewrite !lookup_write_same. now rewrite !lookup_write_other.
  - destruct (writable _ _); [|reflexivity]. now rewrite lookup_write_other.
Qed.

Lemma path_step_on_keeps_file h config_file f :
  is_file config_file f = true ->
  is_file config_file (path_step_on h config_file f) = true.
Proof.
  unfold path_step_on. intros F. rewrite F.
  destruct (negb _); [|assumption].
  unfold is_file in *. unfold append_line.
  destruct (lookup config_file f) as [[c x| |t]|]; try discriminate.
  now rewrite !lookup_write_same.
Qed.

Lemma config_file_of_stable h f :
  config_file_of h (path_step_on h (config_file_of h f) f) = config_file_of h f.
Proof.
  unfold config_file_of. cbv zeta.
  destruct (basename (SHELL h) =? "bash"); [|reflexivity].
  destruct (is_file (HOME h ++ "/.bash_profile") f) eqn:F.
  - now rewrite path_step_on_keeps_file.
  - unfold is_file in *. rewrite path_step_on_other; [now rewrite F|].
    intros E. apply string_app_inv_head in E. discriminate E.
Qed.

(** X1: When the directory is a plain pattern (no backslash, bracket, star,
    caret, dollar or newline in it) and does not start with a dash, so
    that [grep] reads it as its pattern and not as options, running the
    PATH step a second time changes no file. *)
Theorem setup_path_idempotent_on_plain_directories :
  forall (h : host) (s : state),
    Grep.plain (InstallSh.BIN_DIR h) = true ->
    Str.starts_with "-" (InstallSh.BIN_DIR h) = false ->
    let s1 := snd (run (InstallSh.setup_path h) s) in
    files (snd (run (InstallSh.setup_path h) s1)) = files s1.
Proof.
  intros h s P _. cbv zeta. rewrite !setup_path_files.
  unfold path_step.
  destruct (on_path h); [reflexivity|].
  rewrite config_file_of_stable. now apply path_step_on_settles.
Qed.

Lemma setup_path_idempotent_on_plain_directories_witness :
  Grep.plain (InstallSh.BIN_DIR Examples.linux) = true /\
  Str.starts_with "-" (InstallSh.BIN_DIR Examples.linux) = false /\
  files (snd (run (InstallSh.setup_path Examples.linux)
                (snd (run (InstallSh.setup_path Examples.linux) Examples.fresh))))
  = (files Examples.fresh
       ++ [("/home/u/.zshrc",
            File (line (InstallSh.path_export Examples.linux)) false)])%list.
Proof.
  split; [reflexivity|]. split; [reflexivity|].
  exact (setup_path_idempotent_on_plain_directories Examples.linux Examples.fresh
           eq_refl eq_refl).
Defined.

(** * Further properties of the scripts *)

Import Obs2.

(** ** Versions *)

Lemma ensure_v_prefix_shape raw :
  ensure_v_prefix raw = String marker (version_display raw).
Proof.
  unfold version_display, ensure_v_prefix.
  destruct raw as [|c r]; [reflexivity|].
  change (Str.starts_with "v" (String c r)) with (has_marker (String c r)).
  rewrite has_marker_cons.
  destruct (Ascii.eqb c marker) eqn:E; cbn [strip_v append].
  - rewrite E. apply Ascii.eqb_eq in E. now subst c.
  - reflexivity.
Qed.

(** X4: A pinned version on one line and without a backslash gives the
    same attempt with and without the leading v, and the version in the
    URLs is the letter v followed by the version of the installation
    path. *)
Theorem pinned_version_prefix_is_optional :
  forall (h : host) (binary raw : string) (s : state),
    one_line raw = true ->
    Str.is_empty raw = false ->
    has_marker raw = false ->
    InstallSh.install_binary h binary ("v" ++ raw) s
    = InstallSh.install_binary h binary raw s /\
    resolved_version h binary raw = Some ("v" ++ raw) /\
    version_display raw = raw.
Proof.
  intros h binary raw s _ NE NM.
  assert (E1 : ensure_v_prefix ("v" ++ raw) = "v" ++ raw).
  { unfold ensure_v_prefix. cbn [append Str.starts_with].
    rewrite Ascii.eqb_refl. now destruct raw. }
  assert (E2 : ensure_v_prefix raw = "v" ++ raw).
  { unfold ensure_v_prefix. fold (has_marker raw). now rewrite NM. }
  split; [|split].
  - unfold InstallSh.install_binary, bind.
    destruct (InstallSh.info ("Installing " ++ binary ++ "...") s) as [[[]|n|n] s1];
      try reflexivity.
    assert (R : InstallSh.resolve_version h binary ("v" ++ raw) s1
                = InstallSh.resolve_version h binary raw s1).
    { unfold InstallSh.resolve_version, bind, ret.
      change (Str.is_empty ("v" ++ raw)) with false.
      now rewrite NE, E1, E2. }
    now rewrite R.
  - unfold resolved_version. now rewrite NE, E2.
  - pose proof (ensure_v_prefix_shape raw) as S. rewrite E2 in S.
    cbn [append] in S. now injection S as <-.
Qed.

Lemma pinned_version_prefix_is_optional_witness :
  one_line "1.2.3" = true /\
  Str.is_empty "1.2.3" = false /\ has_marker "1.2.3" = false /\
  InstallSh.install_binary Examples.linux "centy-daemon" "v1.2.3" Examples.fresh
  = InstallSh.install_binary Examples.linux "centy-daemon" "1.2.3" Examples.fresh.
Proof.
  split; [reflexivity|]. split; [reflexivity|]. split; [reflexivity|].
  exact (proj1 (pinned_version_prefix_is_optional Examples.linux "centy-daemon"
                  "1.2.3" Examples.fresh eq_refl eq_refl eq_refl)).
Defined.

(** ** Platform tables *)

(** X5: The two OS tables of the script accept the same [uname] outputs and
    pair the new and the legacy name of the same system; the archive
    extension is zip on exactly the hosts whose legacy name is windows,
    which are the hosts for which the exe candidate is tried. *)
Theorem os_tables_agree :
  forall uname : string,
    match Platform.detect_os_name uname,
          Platform.detect_os_legacy_name uname with
    | Some os, Some legacy =>
        In (os, legacy) os_pairs /\
        (Platform.get_archive_ext os =? "zip") = (legacy =? "windows")
    | None, None => True
    | _, _ => False
    end.
Proof.
  intros uname.
  unfold Platform.detect_os_name, Platform.detect_os_legacy_name, os_pairs.
  destruct (Str.starts_with "Darwin" uname);
    [split; [now left|reflexivity]|].
  destruct (Str.starts_with "Linux" uname);
    [split; [right; now left|reflexivity]|].
  destruct (Str.starts_with "MINGW" uname || Str.starts_with "MSYS" uname
            || Str.starts_with "CYGWIN" uname);
    [split; [right; right; now left|reflexivity]|exact I].
Qed.

(** ** Field splitting *)

Lemma split_words_spec s :
  blank_free (fst (split_words s)) /\
  Forall (fun w => Str.is_empty w = false /\ blank_free w) (snd (split_words s)).
Proof.
  induction s as [|c r [IH1 IH2]]; cbn [split_words].
  - split; [intros c _; reflexivity | constructor].
  - destruct (split_words r) as [w ws]. cbn [fst snd] in *.
    destruct (is_space c) eqn:Sp; cbn [fst snd].
    + split; [intros d _; reflexivity|].
      destruct (Str.is_empty w) eqn:E; [assumption|].
      constructor; [split; assumption | assumption].
    + split; [|assumption].
      intros d Hd. cbn [Str.has_char]. rewrite (IH1 d Hd), orb_false_r.
      apply not_true_is_false. intros Eq. apply Ascii.eqb_eq in Eq. subst d.
      congruence.
Qed.

(** X6: When [BINARIES] has no pattern character and no backslash, so that
    the words of the loop are those of field splitting, the loop never
    gets an empty name or a name with a blank in it. *)
Theorem requested_names_are_words :
  forall (h : host) (binary : string),
    pattern_free (InstallSh.BINARIES h) = true ->
    In binary (requested h) ->
    Str.is_empty binary = false /\ blank_free binary.
Proof.
  intros h binary _. unfold requested, words.
  pose proof (split_words_spec (InstallSh.BINARIES h)) as [W1 W2].
  destruct (split_words (InstallSh.BINARIES h)) as [w ws]. cbn [fst snd] in *.
  rewrite Forall_forall in W2.
  destruct (Str.is_empty w) eqn:E.
  - intros H. now apply W2.
  - intros [<-|H]; [split; assumption | now apply W2].
Qed.

Lemma requested_names_are_words_witness :
  pattern_free (InstallSh.BINARIES Examples.linux) = true /\
  In "centy-tui" (requested Examples.linux) /\
  Str.is_empty "centy-tui" = false /\ blank_free "centy-tui".
Proof.
  assert (H : In "centy-tui" (requested Examples.linux))
    by (right; left; reflexivity).
  split; [reflexivity|]. split; [exact H|].
  exact (requested_names_are_words Examples.linux "centy-tui" eq_refl H).
Defined.

(** ** Requests of one attempt *)

Lemma tried_length ok urls : length (tried ok urls) <= length urls.
Proof.
  induction urls as [|u urls IH]; cbn [tried length]; [lia|].
  destruct (ok u); cbn [length]; lia.
Qed.

Lemma tried_last_ok ok urls d :
  existsb ok urls = true -> ok (last (tried ok urls) d) = true.
Proof.
  induction urls as [|u urls IH]; cbn [existsb tried]; [discriminate|].
  destruct (ok u) eqn:O; cbn [orb].
  - intros _. exact O.
  - intros H. specialize (IH H).
    destruct (tried ok urls) as [|w ws] eqn:T.
    + destruct urls as [|w ws]; [discriminate H|].
      cbn [tried] in T. destruct (ok w); discriminate T.
    + exact IH.
Qed.

Lemma tried_before_last_fail ok urls :
  forall u, In u (removelast (tried ok urls)) -> ok u = false.
Proof.
  destruct (tried_prefix ok urls) as (rest & _ & F & _). exact F.
Qed.

Lemma candidates_length h binary v :
  length (candidates h binary v)
  = if os_legacy_of h =? "windows" then 3 else 2.
Proof.
  unfold candidates, candidate_urls. cbv zeta.
  destruct (os_legacy_of h =? "windows"); reflexivity.
Qed.

(** X7: An attempt sends at most three download requests, and at most two on
    a host that is not Windows; every request but the last one failed; an
    attempt that ends with status 0 got its version and its last request
    succeeded. *)
Theorem install_binary_requests :
  forall (h : host) (binary version : string) (s : state),
    let r := InstallSh.install_binary h binary version s in
    exists evs,
      trace (snd r) = (trace s ++ evs)%list /\
      length (downloads evs) <= (if os_legacy_of h =? "windows" then 3 else 2) /\
      (forall u, In u (removelast (downloads evs)) -> available h u = false) /\
      (fst r = Next tt ->
       resolved_version h binary version <> None /\
       available h (last (downloads evs) EmptyString) = true).
Proof.
  intros h binary version s. cbv zeta.
  destruct (install_binary_run h binary version s) as (_ & evs & T & _ & H).
  exists evs. split; [exact T|].
  destruct (resolved_version h binary version) as [v|].
  - destruct H as [D F]. rewrite D.
    split; [rewrite <- (candidates_length h binary v); apply tried_length|].
    split; [apply tried_before_last_fail|].
    intros S. split; [discriminate|].
    apply tried_last_ok.
    destruct (existsb (available h) (candidates h binary v)); [reflexivity|].
    destruct (F eq_refl) as [E _]. rewrite E in S. discriminate S.
  - destruct H as [E D]. rewrite D.
    split; [destruct (os_legacy_of h =? "windows"); cbn; lia|].
    split; [intros u []|].
    intros S. rewrite E in S. discriminate S.
Qed.

Lemma install_binary_requests_witness :
  fst (InstallSh.install_binary Examples.linux "centy-tui" EmptyString
         Examples.fresh) = Next tt /\
  resolved_version Examples.linux "centy-tui" EmptyString <> None.
Proof.
  assert (S : fst (InstallSh.install_binary Examples.linux "centy-tui"
                     EmptyString Examples.fresh) = Next tt)
    by (vm_compute; reflexivity).
  split; [exact S|].
  destruct (install_binary_requests Examples.linux "centy-tui" EmptyString
              Examples.fresh) as (evs & _ & _ & _ & H).
  exact (proj1 (H S)).
Defined.

(** ** The PATH step: what it leaves alone *)

(** X8: In the PATH step a configuration file that is a regular file keeps
    its mode and its content, to which lines are only appended; and with
    the directory already on the PATH no file changes at all. *)
Theorem setup_path_only_appends :
  forall (h : host) (s : state),
    let f := files s in
    let f' := files (snd (run (InstallSh.setup_path h) s)) in
    let config_file := config_file_of h f in
    (forall c x,
       lookup config_file f = Some (File c x) ->
       exists suffix, lookup config_file f' = Some (File (c ++ suffix) x)) /\
    (Str.contains (":" ++ InstallSh.BIN_DIR h ++ ":") (":" ++ PATH h ++ ":") = true ->
     f' = f).
Proof.
  intros h s. cbv zeta. rewrite setup_path_files. unfold path_step, on_path.
  destruct (Str.contains _ _).
  - split; [|reflexivity].
    intros c x L. exists EmptyString. now rewrite string_app_empty_r.
  - split; [|discriminate].
    intros c x L. unfold path_step_on, is_file, InstallSh.file_content.
    rewrite L. destruct (negb _).
    + unfold append_line. rewrite L, !lookup_write_same.
      eexists. rewrite !string_app_assoc. reflexivity.
    + exists EmptyString. now rewrite string_app_empty_r.
Qed.

Lemma setup_path_only_appends_witness :
  let s := {| files := [("/home/u", Dir);
                        ("/home/u/.zshrc", File (line "alias ll=ls") false)];
              trace := []; DOWNLOAD_CMD := "curl"; exit_trap := None;
              mktemp_count := 0 |} in
  lookup (config_file_of Examples.linux (files s)) (files s)
  = Some (File (line "alias ll=ls") false) /\
  exists suffix,
    lookup (config_file_of Examples.linux (files s))
           (files (snd (run (InstallSh.setup_path Examples.linux) s)))
    = Some (File (line "alias ll=ls" ++ suffix) false).
Proof.
  cbv zeta. split; [reflexivity|].
  exact (proj1 (setup_path_only_appends Examples.linux
                  {| files := [("/home/u", Dir);
                               ("/home/u/.zshrc",
                                File (line "alias ll=ls") false)];
                     trace := []; DOWNLOAD_CMD := "curl";
                     exit_trap := None; mktemp_count := 0 |})
               (line "alias ll=ls") false eq_refl).
Defined.

(** ** The summary *)

Lemma list_installed_lists h bs :
  forall s,
    wp (InstallSh.list_installed h bs) s
       (fun r s' =>
          r = Next tt /\ files s' = files s /\ exit_trap s' = exit_trap s /\
          trace s' = (trace s ++ listed h bs (files s))%list).
Proof.
  induction bs as [|b bs IH]; intros s;
    cbn [InstallSh.list_installed listed filter map].
  - unfold wp; cbn. now rewrite app_nil_r.
  - wp_prim. apply wp_bind.
    destruct (is_symlink (InstallSh.BIN_DIR h ++ "/" ++ b) (files s)).
    + unfold wp at 1. sh_unfold. sh_simpl.
      eapply wp_conseq; [apply IH|]. cbv beta.
      intros r s' (-> & F & X & T). split; [reflexivity|].
      split; [exact F|]. split; [exact X|]. rewrite T. sh_simpl. unfold listed.
      cbn [map]. now rewrite <- app_assoc.
    + unfold wp at 1. sh_unfold. sh_simpl. apply IH.
Qed.

Lemma print_summary_trace h s :
  wp (InstallSh.print_summary h) s
     (fun r s' =>
        r = Next tt /\ files s' = files s /\ exit_trap s' = exit_trap s /\
        trace s'
        = (trace s ++ summary_head ++ listed h (requested h) (files s)
             ++ summary_foot h)%list).
Proof.
  unfold InstallSh.print_summary.
  do 6 wp_prim.
  wp_use list_installed_lists.
  intros r1 s1 (-> & F1 & X1 & T1).
  do 3 wp_prim. unfold wp. sh_unfold. sh_simpl.
  split; [reflexivity|]. split; [exact F1|]. split; [exact X1|].
  rewrite T1. sh_simpl. unfold summary_head, summary_foot, requested.
  rewrite <- !app_assoc. reflexivity.
Qed.


(** ** [main]: what it does to the files *)

Lemma before_installs_files h s :
  files (snd (before_installs h s))
  = if prerequisites h then
      if blocked (InstallSh.BIN_DIR h) (files s) then files s
      else if blocked (InstallSh.VERSIONS_DIR h) (files s)
           then mkdir_p (InstallSh.BIN_DIR h) (files s)
           else mkdir_p (InstallSh.VERSIONS_DIR h)
                  (mkdir_p (InstallSh.BIN_DIR h) (files s))
    else files s.
Proof.
  unfold before_installs, InstallSh.banner, InstallSh.check_requirements,
    InstallSh.show_configuration, InstallSh.detect_arch, InstallSh.detect_os,
    InstallSh.make_dir, prerequisites.
  sh_unfold. sh_simpl.
  destruct (has_curl h), (has_wget h), (has_tar h); sh_simpl;
    try reflexivity.
  all: destruct (Platform.detect_arch_name (uname_m h)); sh_simpl;
    destruct (Platform.detect_os_name (uname_s h)); sh_simpl;
    destruct (blocked (InstallSh.BIN_DIR h) (files s)); sh_simpl;
    try reflexivity;
    rewrite blocked_mkdir_p;
    destruct (blocked (InstallSh.VERSIONS_DIR h) (files s)); reflexivity.
Qed.

Lemma report_state h installed failed s :
  files (snd (InstallSh.report h installed failed s)) = files s /\
  exit_trap (snd (InstallSh.report h installed failed s)) = exit_trap s.
Proof.
  assert (P : forall s0,
             files (snd (run (InstallSh.print_summary h) s0)) = files s0 /\
             exit_trap (snd (run (InstallSh.print_summary h) s0)) = exit_trap s0).
  { intros s0. destruct (print_summary_trace h s0) as (E & F & X & _).
    unfold run, call, bind.
    destruct (InstallSh.print_summary h s0) as [[[]|n|n] s1];
      cbn [fst snd] in *; try discriminate. auto. }
  unfold InstallSh.report.
  destruct (Str.is_empty failed); cbn [negb]; [apply P|].
  unfold bind, InstallSh.warn, emit.
  destruct (Str.is_empty installed); cbn [negb].
  - split; reflexivity.
  - match goal with
    | |- context [run (InstallSh.print_summary h) ?s0] =>
        pose proof (P s0) as F;
        destruct (run (InstallSh.print_summary h) s0) as [[[]|n|n] s1]
    end; exact F.
Qed.

Lemma after_installs_files h installed failed s :
  files (snd (after_installs h installed failed s))
  = if Str.is_empty installed then files s
    else files (snd (run (InstallSh.setup_path h) s)).
Proof.
  unfold after_installs, bind.
  destruct (Str.is_empty installed); cbn [negb].
  - unfold ret. apply report_state.
  - destruct (run (InstallSh.setup_path h) s) as [[[]|n|n] s1];
      cbn [snd]; try reflexivity. apply report_state.
Qed.

(** The files [main] leaves, from the files its parts leave. *)
Lemma main_files_eq h s :
  files (snd (InstallSh.main h s))
  = if prerequisites h then
      if blocked (InstallSh.BIN_DIR h) (files s) then files s
      else if blocked (InstallSh.VERSIONS_DIR h) (files s)
           then mkdir_p (InstallSh.BIN_DIR h) (files s)
           else if existsb (fun st => (st =? 0)%nat)
                     (statuses h (requested h) (loop_start h s))
                then files (snd (run (InstallSh.setup_path h)
                                   (loop_state h (requested h)
                                      (loop_start h s))))
                else files (loop_state h (requested h) (loop_start h s))
    else files s.
Proof.
  rewrite main_eq. unfold bind, loop_start.
  pose proof (before_installs_run h s) as H. unfold wp in H.
  destruct H as (E & _).
  pose proof (before_installs_files h s) as F.
  unfold base_dirs_blocked in E.
  destruct (before_installs h s) as [r0 s0]. cbn [fst snd] in *. subst r0.
  destruct (prerequisites h); [|exact F].
  destruct (blocked (InstallSh.BIN_DIR h) (files s)); [exact F|].
  destruct (blocked (InstallSh.VERSIONS_DIR h) (files s)); [exact F|].
  cbn [orb].
  pose proof (install_each_run h (requested h) EmptyString EmptyString s0) as H.
  unfold wp in H. destruct H as (E1 & E2 & _).
  destruct (InstallSh.install_each h (requested h) EmptyString EmptyString s0)
    as [r1 s1]. cbn [fst snd] in *. subst r1 s1.
  rewrite after_installs_files.
  rewrite (tally_installed _ _ _ _ (statuses_length h (requested h) s0)).
  cbn [Str.is_empty andb].
  now destruct (existsb _ _).
Qed.



(** ** One attempt: the paths it can touch *)

Lemma lookup_mv q src dst f :
  src <> q -> dst <> q -> under dst q = false ->
  lookup q (mv src dst f) = lookup q f.
Proof.
  intros N1 N2 U. unfold mv.
  destruct (lookup src f) as [[c x| |t]|]; try reflexivity.
  destruct (is_dir dst f).
  - destruct (is_dir _ f); [reflexivity|].
    rewrite lookup_write_other.
    + apply lookup_remove_other. congruence.
    + intros E. symmetry in E. revert E. now apply outside_child.
  - destruct (dir_exists _ f); [|reflexivity].
    rewrite lookup_write_other by congruence.
    apply lookup_remove_other. congruence.
Qed.

Lemma lookup_chmod_x q p f : p <> q -> lookup q (chmod_x p f) = lookup q f.
Proof.
  intros N. unfold chmod_x. destruct (lookup p f) as [[c x| |t]|]; try reflexivity.
  apply lookup_write_other. congruence.
Qed.

Lemma lookup_rm_f q p f : p <> q -> lookup q (rm_f p f) = lookup q f.
Proof.
  intros N. unfold rm_f.
  destruct (lookup p f) as [[c x| |t]|]; try reflexivity;
    apply lookup_remove_other; congruence.
Qed.

Lemma lookup_ln_s q t p f :
  p <> q -> under p q = false -> lookup q (ln_s t p f) = lookup q f.
Proof.
  intros N U. unfold ln_s. destruct (is_dir p f).
  - destruct (lookup _ f); [reflexivity|].
    destruct (is_dir _ f); [reflexivity|].
    apply lookup_write_other.
    intros E. symmetry in E. revert E. now apply outside_child.
  - destruct (lookup p f); [reflexivity|].
    destruct (dir_exists _ f); [|reflexivity].
    apply lookup_write_other. congruence.
Qed.

Lemma lookup_unpack q dest members :
  under dest q = false ->
  forall f, lookup q (unpack dest members f) = lookup q f.
Proof.
  intros U. induction members as [|[name [c x]] ms IH]; intros f; simpl.
  - reflexivity.
  - rewrite IH. apply lookup_write_other.
    intros E. symmetry in E. revert E. now apply outside_child.
Qed.

Lemma try_formats_frame h binary version tmp_dir os os_legacy arch ext q s :
  under tmp_dir q = false ->
  wp (InstallSh.try_formats h binary version tmp_dir os os_legacy arch ext) s
     (fun _ s' => lookup q (files s') = lookup q (files s)).
Proof.
  intros U.
  assert (N1 : q <> tmp_dir ++ "/download." ++ ext).
  { intros E. symmetry in E. revert E.
    change (tmp_dir ++ "/download." ++ ext)
      with (tmp_dir ++ "/" ++ ("download." ++ ext)).
    now apply outside_child. }
  assert (N2 : q <> tmp_dir ++ "/" ++ binary).
  { intros E. symmetry in E. revert E. now apply outside_child. }
  unfold wp, InstallSh.try_formats, InstallSh.try_download.
  sh_unfold. sh_simpl.
  repeat sh_case.
  all: rewrite ?lookup_write_other by assumption; reflexivity.
Qed.

Lemma place_binary_frame h binary tmp_dir install_path ext is_archive q s :
  under tmp_dir q = false ->
  install_path ++ "/" ++ binary <> q ->
  under (install_path ++ "/" ++ binary) q = false ->
  wp (InstallSh.place_binary h binary tmp_dir install_path ext is_archive) s
     (fun _ s' => lookup q (files s') = lookup q (files s)).
Proof.
  intros U D UD.
  assert (N : tmp_dir ++ "/" ++ binary <> q) by now apply outside_child.
  unfold wp, InstallSh.place_binary, InstallSh.find_and_move,
    InstallSh.extract_archive.
  sh_unfold. sh_simpl.
  destruct is_archive.
  2:{ sh_simpl. now apply lookup_mv. }
  repeat match goal with
         | |- context [match ?x with _ => _ end] =>
             lazymatch x with
             | context [match _ with _ => _ end] => fail
             | _ => destruct x eqn:?
             end; sh_simpl
         end.
  all: try reflexivity.
  all: try (rewrite lookup_mv by assumption).
  all: try (now apply lookup_unpack).
  all: rewrite lookup_mv;
    [ now apply lookup_unpack
    | intros E;
      match goal with
      | H : negb (Str.is_empty _) = true |- _ =>
          apply negb_true_iff in H; apply find_head_under in H;
          rewrite E in H; congruence
      end
    | assumption
    | assumption ].
Qed.

Lemma publish_frame h binary version_display install_path q s :
  install_path ++ "/" ++ binary <> q ->
  InstallSh.BIN_DIR h ++ "/" ++ binary <> q ->
  under (InstallSh.BIN_DIR h ++ "/" ++ binary) q = false ->
  wp (InstallSh.publish h binary version_display install_path) s
     (fun _ s' => lookup q (files s') = lookup q (files s)).
Proof.
  intros N1 N2 U. unfold wp, InstallSh.publish. sh_unfold. sh_simpl.
  rewrite lookup_ln_s, lookup_rm_f, lookup_chmod_x by assumption.
  reflexivity.
Qed.

Lemma publish_files_or_not h binary version_display install_path q s :
  wp (InstallSh.publish h binary version_display install_path) s
     (fun _ s' =>
        install_path ++ "/" ++ binary <> q ->
        InstallSh.BIN_DIR h ++ "/" ++ binary <> q ->
        under (InstallSh.BIN_DIR h ++ "/" ++ binary) q = false ->
        lookup q (files s') = lookup q (files s)).
Proof.
  unfold wp. intros N1 N2 U.
  now apply (publish_frame h binary version_display install_path q s).
Qed.

Lemma link_is_not_bin_dir h binary :
  InstallSh.BIN_DIR h ++ "/" ++ binary <> InstallSh.BIN_DIR h.
Proof. now apply app_nonempty_neq. Qed.

Lemma link_is_not_install_path h binary version_display :
  InstallSh.BIN_DIR h ++ "/" ++ binary
  <> InstallSh.VERSIONS_DIR h ++ "/" ++ binary ++ "/" ++ version_display.
Proof.
  unfold InstallSh.BIN_DIR, InstallSh.VERSIONS_DIR.
  rewrite !string_app_assoc. intros E.
  apply string_app_inv_head in E. discriminate E.
Qed.

Lemma link_not_under_target h binary v :
  under (target_of h binary v) (link_of h binary) = false.
Proof. installed_paths. rewrite starts_with_head. reflexivity. Qed.

(** One attempt and one path: the path keeps what it holds unless it is
    the temporary directory or lies in it, is the bin directory, the
    directory of the version, the binary in it or a path in that, or is
    the link of an attempt that ends with status 0 or a path in it. *)
Lemma install_binary_touches h binary version s q :
  q <> tmp_name (mktemp_count s) ->
  under (tmp_name (mktemp_count s)) q = false ->
  InstallSh.BIN_DIR h <> q ->
  (forall v,
     resolved_version h binary version = Some v ->
     install_path_of h binary v <> q /\
     target_of h binary v <> q /\
     under (target_of h binary v) q = false) ->
  wp (InstallSh.install_binary h binary version) s
     (fun r s' =>
        (r = Next tt ->
         link_of h binary <> q /\ under (link_of h binary) q = false) ->
        lookup q (files s') = lookup q (files s)).
Proof.
  intros NT UT B0 V.
  unfold InstallSh.install_binary.
  wp_prim.
  apply wp_bind. eapply wp_conseq.
  { apply wp_and; [apply resolve_version_run | apply resolve_version_count]. }
  cbv beta. intros r1 s1 ((-> & F1 & _ & _) & C1). sh_simpl.
  destruct (resolved_version h binary version) as [v|]; [|now rewrite F1].
  destruct (V v eq_refl) as (P0 & P1 & P2). clear V.
  unfold target_of, install_path_of in P0, P1, P2.
  do 5 wp_prim. rewrite C1.
  set (install_path := InstallSh.VERSIONS_DIR h ++ "/" ++ binary ++ "/" ++ strip_v v) in *.
  set (tmp_dir := tmp_name (mktemp_count s)) in *.
  wp_use capture_detect_os.
  intros r2 s2 ([n2 ->] & F2 & _ & _). sh_simpl.
  wp_use capture_detect_os_legacy.
  intros r3 s3 ([n3 ->] & F3 & _ & _).
  wp_use capture_detect_arch.
  intros r4 s4 ([n4 ->] & F4 & _ & _).
  assert (K4 : lookup q (files s4) = lookup q (files s)).
  { rewrite F4, F3, F2. sh_simpl.
    rewrite lookup_write_other by assumption.
    rewrite !lookup_mkdir_p by assumption. now rewrite F1. }
  apply wp_bind. eapply wp_conseq; [apply try_formats_frame with (q := q); exact UT|].
  cbv beta. intros r5 s5 K5.
  destruct r5 as [is_archive|n|n]; try (now rewrite K5).
  apply wp_bind. eapply wp_conseq; [apply place_binary_frame with (q := q); assumption|].
  cbv beta. intros r6 s6 K6.
  destruct r6 as [[]|n|n]; try (now rewrite K6, K5).
  eapply wp_conseq.
  { apply wp_and; [apply publish_run | apply publish_files_or_not with (q := q)]. }
  cbv beta. intros r7 s7 ((-> & _) & K7) L.
  destruct (L eq_refl) as [L1 L2].
  rewrite K7, K6, K5; [exact K4 | exact P1 | exact L1 | exact L2].
Qed.



(** ** A zip archive on a host without unzip *)

Lemma try_formats_first h binary version tmp_dir os os_legacy arch ext s :
  available h (InstallSh.download_base binary version
                 ++ InstallSh.name1 binary version arch os ext) = true ->
  wp (InstallSh.try_formats h binary version tmp_dir os os_legacy arch ext) s
     (fun r s' =>
        r = Next true /\
        exists evs,
          trace s' = (trace s ++ evs)%list /\
          downloads evs
          = [InstallSh.download_base binary version
               ++ InstallSh.name1 binary version arch os ext]).
Proof.
  unfold available. intros A.
  unfold wp, InstallSh.try_formats, InstallSh.try_download.
  sh_unfold. sh_simpl.
  destruct (asset h _) as [body|]; [|discriminate A]. sh_simpl.
  split; [reflexivity|].
  eexists. split; [rewrite <- ?app_assoc; reflexivity|]. reflexivity.
Qed.

Lemma place_binary_unzip h binary tmp_dir install_path s :
  has_unzip h = false ->
  wp (InstallSh.place_binary h binary tmp_dir install_path "zip" true) s
     (fun r s' =>
        r = Return 1 /\
        trace s' = (trace s ++ [Info "  Extracting...";
                                Error ("Failed to extract " ++ binary)])%list).
Proof.
  intros U.
  unfold wp, InstallSh.place_binary, InstallSh.extract_archive.
  change ("zip" =? "tar.gz") with false.
  change ("zip" =? "zip") with true.
  rewrite U. sh_unfold. sh_simpl.
  split; [reflexivity|]. now rewrite <- app_assoc.
Qed.

(** X12: The prerequisites ask for tar only.  On a Windows host without unzip,
    an attempt whose zip archive can be downloaded sends that one request
    and then fails: it reports "Failed to extract" and returns 1, without
    trying the names of the raw binary. *)
Theorem zip_archive_needs_unzip :
  forall (h : host) (binary version v : string) (s : state),
    os_of h = "pc-windows-msvc" ->
    has_unzip h = false ->
    resolved_version h binary version = Some v ->
    available h (hd EmptyString (candidates h binary v)) = true ->
    let r := InstallSh.install_binary h binary version s in
    fst r = Return 1 /\
    exists evs,
      trace (snd r)
      = (trace s ++ evs ++ [Error ("Failed to extract " ++ binary)])%list /\
      downloads evs = [hd EmptyString (candidates h binary v)].
Proof.
  intros h binary version v s W U V A. cbv zeta.
  change (wp (InstallSh.install_binary h binary version) s
            (fun r s' =>
               r = Return 1 /\
               exists evs,
                 trace s'
                 = (trace s ++ evs ++ [Error ("Failed to extract " ++ binary)])%list /\
                 downloads evs = [hd EmptyString (candidates h binary v)])).
  unfold candidates, candidate_urls in *. cbv zeta in *. cbn [hd] in *.
  rewrite W in *.
  change (Platform.get_archive_ext "pc-windows-msvc") with "zip" in *.
  unfold InstallSh.install_binary.
  wp_prim.
  wp_use resolve_version_run.
  intros r1 s1 (-> & _ & _ & e1 & T1 & Q1 & _). sh_simpl.
  rewrite V.
  do 5 wp_prim.
  wp_use capture_detect_os.
  intros r2 s2 ([n2 ->] & _ & _ & e2 & T2 & Q2 & _). sh_simpl.
  wp_use capture_detect_os_legacy.
  intros r3 s3 ([n3 ->] & _ & _ & e3 & T3 & Q3 & _). sh_simpl.
  wp_use capture_detect_arch.
  intros r4 s4 ([n4 ->] & _ & _ & e4 & T4 & Q4 & _). sh_simpl.
  rewrite W.
  change (Platform.get_archive_ext "pc-windows-msvc") with "zip".
  apply wp_bind. eapply wp_conseq; [apply try_formats_first; exact A|].
  cbv beta. intros r5 s5 (-> & e5 & T5 & D5).
  apply wp_bind. eapply wp_conseq; [apply place_binary_unzip; exact U|].
  cbv beta. intros r6 s6 (-> & T6).
  split; [reflexivity|].
  exists ((Info (attempt_line binary) :: e1)
            ++ (Info ("  Version: " ++ strip_v v) :: e2) ++ e3 ++ e4 ++ e5
            ++ [Info "  Extracting..."])%list.
  split.
  - rewrite T6, T5, T4, T3, T2. sh_simpl. rewrite T1.
    repeat (rewrite <- ?app_assoc; cbn [app]). reflexivity.
  - change (Info (attempt_line binary) :: e1)
      with ([Info (attempt_line binary)] ++ e1)%list.
    change (Info ("  Version: " ++ strip_v v) :: e2)
      with ([Info ("  Version: " ++ strip_v v)] ++ e2)%list.
    rewrite !downloads_app, Q1, Q2, Q3, Q4, D5. reflexivity.
Qed.

Lemma zip_archive_needs_unzip_witness :
  prerequisites git_bash = true /\
  fst (InstallSh.install_binary git_bash "centy-daemon" "0.1.6" Examples.fresh)
  = Return 1.
Proof.
  split; [reflexivity|].
  apply (zip_archive_needs_unzip git_bash "centy-daemon" "0.1.6" "v0.1.6"
           Examples.fresh); reflexivity.
Defined.

(** ** The archive-only installer: one request per attempt *)

Lemma archive_name_is_name1 binary version arch os ext :
  binary ++ "-" ++ version ++ "-" ++ (arch ++ "-" ++ os) ++ "." ++ ext
  = InstallSh.name1 binary version arch os ext.
Proof. unfold InstallSh.name1. now rewrite !string_app_assoc. Qed.

Lemma extract_archive_run h archive dest ext s :
  wp (call (InstallSh.extract_archive h archive dest ext)) s
     (fun r s' =>
        (exists n, r = Next n) /\
        exists evs, trace s' = (trace s ++ evs)%list /\ downloads evs = []).
Proof.
  unfold wp, InstallSh.extract_archive. sh_unfold. sh_simpl.
  repeat match goal with
         | |- context [match ?x with _ => _ end] =>
             lazymatch x with
             | context [match _ with _ => _ end] => fail
             | _ => destruct x eqn:?
             end; sh_simpl
         end.
  all: split; [eauto|].
  all: first [ exists (@nil event); split; [now rewrite app_nil_r | reflexivity]
             | eexists; split; [reflexivity | reflexivity] ].
Qed.

Lemma archive_only_find_and_move_run binary tmp_dir install_path s :
  wp (ArchiveOnly.find_and_move binary tmp_dir install_path) s
     (fun r s' =>
        (r = Next tt \/ r = Return 1) /\
        exists evs, trace s' = (trace s ++ evs)%list /\ downloads evs = []).
Proof.
  unfold wp, ArchiveOnly.find_and_move. sh_unfold. sh_simpl.
  repeat match goal with
         | |- context [if ?x then _ else _] => destruct x eqn:?; sh_simpl
         end.
  all: split; [auto|].
  all: first [ exists (@nil event); split; [now rewrite app_nil_r | reflexivity]
             | eexists; split; [reflexivity | reflexivity] ].
Qed.

Lemma download_run h url output s :
  wp (ArchiveOnly.download h url output) s
     (fun r s' =>
        r = Next (available h url) /\
        trace s' = (trace s ++ [Download url])%list).
Proof.
  unfold wp, ArchiveOnly.download, InstallSh.try_download, available.
  sh_unfold. sh_simpl.
  destruct (asset h url); sh_simpl; [split; reflexivity|].
  destruct (DOWNLOAD_CMD s =? "curl"); split; reflexivity.
Qed.

(** X13: What an attempt of the archive-only installer asks for: nothing when
    it gets no version, and otherwise one download, of the archive that
    the multi-format installer tries first.  When that download fails the
    attempt ends with status 1 on the message that the download failed;
    there is no second name to try. *)
Theorem archive_only_single_request :
  forall (h : host) (binary version : string) (s : state),
    let r := ArchiveOnly.install_binary h binary version s in
    exists evs,
      trace (snd r) = (trace s ++ evs)%list /\
      match resolved_version h binary version with
      | None => downloads evs = [] /\ fst r = Return 1
      | Some v =>
          downloads evs = [hd EmptyString (candidates h binary v)] /\
          (available h (hd EmptyString (candidates h binary v)) = false ->
           fst r = Return 1 /\
           last evs (Echo EmptyString) = Error ("Failed to download " ++ binary))
      end.
Proof.
  intros h binary version s. cbv zeta.
  change (wp (ArchiveOnly.install_binary h binary version) s
            (fun r s' =>
               exists evs,
                 trace s' = (trace s ++ evs)%list /\
                 match resolved_version h binary version with
                 | None => downloads evs = [] /\ r = Return 1
                 | Some v =>
                     downloads evs = [hd EmptyString (candidates h binary v)] /\
                     (available h (hd EmptyString (candidates h binary v)) = false ->
                      r = Return 1 /\
                      last evs (Echo EmptyString)
                      = Error ("Failed to download " ++ binary))
                 end)).
  unfold candidates, candidate_urls. cbv zeta. cbn [hd].
  unfold ArchiveOnly.install_binary.
  wp_prim.
  wp_use resolve_version_run.
  intros r1 s1 (-> & _ & _ & e1 & T1 & Q1 & _). sh_simpl.
  destruct (resolved_version h binary version) as [v|].
  2:{ rewrite T1, <- app_assoc. eexists. split; [reflexivity|].
      rewrite downloads_app, Q1. split; reflexivity. }
  wp_prim.
  wp_use capture_detect_os.
  intros r2 s2 ([n2 ->] & _ & _ & e2 & T2 & Q2 & _). sh_simpl.
  wp_use capture_detect_arch.
  intros r4 s4 ([n4 ->] & _ & _ & e4 & T4 & Q4 & _). sh_simpl.
  rewrite archive_name_is_name1.
  set (url := InstallSh.download_base binary v
                ++ InstallSh.name1 binary v (arch_of h) (os_of h)
                     (Platform.get_archive_ext (os_of h))).
  set (pre := ((Info (attempt_line binary) :: e1)
                 ++ (Info ("  Version: " ++ strip_v v) :: e2) ++ e4)%list).
  assert (T : trace s4 = (trace s ++ pre)%list).
  { unfold pre. rewrite T4, T2. sh_simpl. rewrite T1.
    repeat (rewrite <- ?app_assoc; cbn [app]). reflexivity. }
  assert (D : downloads pre = []).
  { unfold pre.
    change (Info (attempt_line binary) :: e1)
      with ([Info (attempt_line binary)] ++ e1)%list.
    change (Info ("  Version: " ++ strip_v v) :: e2)
      with ([Info ("  Version: " ++ strip_v v)] ++ e2)%list.
    rewrite !downloads_app, Q1, Q2, Q4. reflexivity. }
  clearbody pre. clear T1 T2 T4 Q1 Q2 Q4 e1 e2 e4.
  do 5 wp_prim.
  wp_use download_run.
  intros r0 s0 (-> & T0). sh_simpl.
  destruct (available h url) eqn:A; sh_simpl.
  2:{ unfold wp. sh_unfold. sh_simpl. rewrite T0. sh_simpl. rewrite T.
      exists ((pre ++ [Info ("  Downloading from: " ++ url); Download url])
                ++ [Error ("Failed to download " ++ binary)])%list.
      split; [repeat (rewrite <- ?app_assoc; cbn [app]); reflexivity|].
      rewrite !downloads_app, D.
      split; [reflexivity|]. intros _.
      split; [reflexivity|]. apply last_last. }
  wp_prim.
  wp_use extract_archive_run.
  intros r5 s5 ([n5 ->] & e5 & T5 & Q5). sh_simpl.
  set (head := (pre ++ [Info ("  Downloading from: " ++ url); Download url;
                        Info "  Extracting..."])%list).
  assert (T' : trace s5 = (trace s ++ head ++ e5)%list).
  { unfold head. rewrite T5. sh_simpl. rewrite T0. sh_simpl. rewrite T.
    repeat (rewrite <- ?app_assoc; cbn [app]). reflexivity. }
  assert (D' : forall tl, downloads tl = [] ->
                          downloads (head ++ e5 ++ tl) = [url]).
  { intros tl Htl. unfold head. rewrite !downloads_app, D, Q5, Htl. reflexivity. }
  clearbody head. clear T5 T0 T.
  destruct (n5 =? 0)%nat; sh_simpl.
  2:{ unfold wp. sh_unfold. sh_simpl. rewrite T'.
      exists (head ++ e5 ++ [Error ("Failed to extract " ++ binary)])%list.
      split; [now rewrite <- !app_assoc|].
      split; [now apply D'|]. discriminate. }
  wp_use archive_only_find_and_move_run.
  intros r6 s6 (R6 & e6 & T6 & Q6).
  destruct R6 as [-> | ->].
  2:{ exists (head ++ e5 ++ e6)%list.
      split; [rewrite T6, T'; now rewrite <- !app_assoc|].
      split; [now apply D'|]. discriminate. }
  eapply wp_conseq; [apply publish_run|]. cbv beta.
  intros r7 s7 (-> & _ & e7 & T7 & Q7 & _).
  exists (head ++ e5 ++ e6 ++ e7)%list.
  split; [rewrite T7, T6, T'; now rewrite <- !app_assoc|].
  split; [|discriminate].
  apply D'. now rewrite downloads_app, Q6, Q7.
Qed.

Lemma archive_only_single_request_witness :
  available Examples.linux
    (hd EmptyString (candidates Examples.linux "centy-tui" "v0.2.0")) = false /\
  fst (ArchiveOnly.install_binary Examples.linux "centy-tui" EmptyString
         Examples.fresh) = Return 1.
Proof.
  split; [reflexivity|].
  destruct (archive_only_single_request Examples.linux "centy-tui" EmptyString
              Examples.fresh) as (evs & _ & H).
  change (resolved_version Examples.linux "centy-tui" EmptyString)
    with (Some "v0.2.0") in H.
  exact (proj1 (proj2 H eq_refl)).
Defined.

(** ** The npm installer: redirect cycles and the outcome of a run *)

Import NpmObs2.

Lemma httpsGet_short web n :
  forall url final fuel,
    hop web n url = Some final -> fuel <= n -> httpsGet web fuel url = None.
Proof.
  induction n as [|n IH]; intros url final fuel H L.
  - replace fuel with 0 by lia. reflexivity.
  - destruct fuel as [|fuel]; [reflexivity|]. simpl in *.
    destruct (web url) as [code loc body|msg]; [|discriminate].
    destruct ((code =? 302)%nat || (code =? 301)%nat); [|discriminate].
    apply (IH loc final); [assumption | lia].
Qed.

(** X14: A URL from which one or more redirects lead back to itself is never
    settled: however many requests are granted, [httpsGet] is still
    following redirects when they are used up. *)
Theorem httpsGet_redirect_cycle :
  forall (web : string -> response) (n : nat) (url : string),
    0 < n ->
    hop web n url = Some url ->
    forall fuel, httpsGet web fuel url = None.
Proof.
  intros web n url N H fuel.
  induction fuel as [fuel IH] using (well_founded_induction lt_wf).
  destruct (Nat.le_gt_cases fuel n) as [L|G].
  - now apply (httpsGet_short web n url url).
  - replace fuel with (n + (fuel - n)) by lia.
    rewrite (httpsGet_follows web n url url H).
    apply IH. lia.
Qed.

Lemma httpsGet_redirect_cycle_witness :
  hop ping_pong 2 "https://a.example/" = Some "https://a.example/" /\
  httpsGet ping_pong 1000 "https://a.example/" = None.
Proof.
  assert (H : hop ping_pong 2 "https://a.example/" = Some "https://a.example/")
    by reflexivity.
  split; [exact H|].
  apply (httpsGet_redirect_cycle ping_pong 2 "https://a.example/"); [lia | exact H].
Defined.

Lemma run_loop_unfold m rounds fuel prog p :
  run_loop m rounds fuel prog p
  = match run_sync prog p with
    | (Exited code, p') => Some (code, p')
    | (Finished, p') => Some (0, p')
    | (Suspended url k, p') =>
        match rounds with
        | O => None
        | S rounds' =>
            match httpsGet (web m) fuel url with
            | None => None
            | Some r => run_loop m rounds' fuel (k r) p'
            end
        end
    end.
Proof. destruct rounds; reflexivity. Qed.

Lemma getPlatform_ext m pi :
  getPlatform m = inr pi ->
  ext pi = if platform m =? "win32" then "zip" else "tar.gz".
Proof.
  unfold getPlatform.
  destruct (if platform m =? "darwin" then _ else _); [|discriminate].
  destruct (if arch m =? "x64" then _ else _); [|discriminate].
  intros E. injection E as <-. reflexivity.
Qed.

Lemma failed_run message p :
  run_sync (failed message) p
  = (Exited 1,
     {| disk := disk p;
        console := (console p ++ [] ++ [Err ("Failed to install centy: " ++ message);
                                        manual_line])%list |}).
Proof.
  unfold failed, manual_line. cbn [run_sync app]. unfold say.
  cbn [disk console]. now rewrite <- app_assoc.
Qed.

Lemma bin_path_is_wrapper_binary m :
  (package_dir m ++ "/bin") ++ "/" ++
    (if platform m =? "win32" then BINARY_NAME ++ ".exe" else BINARY_NAME)
  = wrapper_binary m.
Proof.
  unfold wrapper_binary, BINARY_NAME. rewrite string_app_assoc.
  destruct (platform m =? "win32"); reflexivity.
Qed.

Lemma temp_is_not_binary m :
  wrapper_binary m <> temp_archive m.
Proof.
  rewrite <- bin_path_is_wrapper_binary. unfold temp_archive, BINARY_NAME.
  intros E. apply string_app_inv_head in E.
  destruct (platform m =? "win32"); discriminate E.
Qed.

(** X15: A run of the installer that comes to its end exits with 1 or 0.
    With 1, the last two lines on the console are the failure with its
    message and the hint at the manual installation.  With 0, the last
    line reports the success, the temporary archive is gone, and on a
    platform other than Windows the path that the bin wrapper looks at
    exists. *)
Theorem npm_main_outcome :
  forall (m : machine) (rounds fuel : nat) (p : process)
         (code : nat) (p' : process),
    run_loop m rounds fuel (Npm.main m) p = Some (code, p') ->
    (code = 1 /\
     exists message pre,
       console p'
       = (console p ++ pre
            ++ [Err ("Failed to install centy: " ++ message); manual_line])%list)
    \/
    (code = 0 /\
     (exists version, last (console p') manual_line = success_line version) /\
     lookup (temp_archive m) (disk p') = None /\
     ((platform m =? "win32") = false ->
      exists n, lookup (wrapper_binary m) (disk p') = Some n)).
Proof.
  intros m rounds fuel p code p' H.
  rewrite run_loop_unfold in H. unfold Npm.main in H.
  destruct (getPlatform m) as [message|pi] eqn:GP.
  { rewrite failed_run in H. injection H as <- <-. left.
    split; [reflexivity|]. exists message, []. reflexivity. }
  apply getPlatform_ext in GP.
  cbn [run_sync] in H.
  destruct rounds as [|rounds]; [discriminate|].
  match type of H with
  | context [say (Request ?u) p] => set (api := u) in H
  end.
  destruct (httpsGet (web m) fuel api) as [[data|message]|]; [| |discriminate].
  2:{ rewrite run_loop_unfold, failed_run in H. injection H as <- <-. left.
      split; [reflexivity|]. exists message, [Request api].
      unfold say. cbn [console disk]. now rewrite <- !app_assoc. }
  destruct (tag_name m data) as [version|].
  2:{ rewrite run_loop_unfold, failed_run in H. injection H as <- <-. left.
      split; [reflexivity|]. exists "Unexpected token in JSON", [Request api].
      unfold say. cbn [console disk]. now rewrite <- !app_assoc. }
  rewrite run_loop_unfold in H. cbn [run_sync] in H.
  unfold say in H. cbn [disk console] in H.
  destruct rounds as [|rounds]; [discriminate|].
  match type of H with
  | context [(?l ++ [Request ?u])%list] =>
      lazymatch l with
      | (_ ++ [Log ?d])%list => set (url := u) in H; set (line := d) in H
      end
  end.
  set (pre := [Request api; Log line; Request url]).
  assert (P : forall tl : list output,
              ((((console p ++ [Request api]) ++ [Log line]) ++ [Request url]) ++ tl
               = console p ++ pre ++ tl)%list).
  { intros tl. unfold pre. now rewrite <- !app_assoc. }
  destruct (httpsGet (web m) fuel url) as [[body|message]|]; [| |discriminate].
  2:{ rewrite run_loop_unfold, failed_run in H. injection H as <- <-. left.
      split; [reflexivity|]. exists message, pre.
      cbn [console disk app]. apply P. }
  rewrite run_loop_unfold in H. cbn [run_sync] in H.
  rewrite GP in H. rewrite bin_path_is_wrapper_binary in H.
  set (f0 := mkdir_p (package_dir m ++ "/bin") (disk p)) in H.
  unfold temp_archive.
  destruct (platform m =? "win32") eqn:W.
  - change ("zip" =? "tar.gz") with false in H. cbv iota in H.
    unfold extractZip in H. cbn [disk console] in H.
    destruct (zip_members m body) as [members|].
    + cbn [run_sync] in H. unfold say in H. cbn [disk console] in H.
      injection H as <- <-. right. split; [reflexivity|]. cbn [disk console].
      split; [exists version; apply last_last|].
      split; [apply lookup_remove_same | discriminate].
    + injection H as <- <-. left. split; [reflexivity|].
      exists "Command failed: unzip", pre.
      unfold say. cbn [console disk]. rewrite <- app_assoc. apply P.
  - change ("tar.gz" =? "tar.gz") with true in H. cbv iota in H.
    unfold extractTarGz in H. cbn [disk console] in H.
    destruct (gunzip m body) as [gunzipped|].
    2:{ injection H as <- <-. left. split; [reflexivity|].
        exists "incorrect header check", pre.
        unfold say. cbn [console disk]. rewrite <- app_assoc. apply P. }
    destruct (tar_members m gunzipped) as [members|].
    2:{ injection H as <- <-. left. split; [reflexivity|].
        exists "Command failed: tar", pre.
        unfold say. cbn [console disk]. rewrite <- app_assoc. apply P. }
    cbn [run_sync disk console] in H. unfold chmodSync in H.
    match type of H with
    | context [lookup (wrapper_binary m) ?f] =>
        set (f1 := f) in H;
        assert (R : lookup (package_dir m ++ "/bin" ++ "/temp.tar") f1 = None)
          by (rewrite <- string_app_assoc; apply lookup_remove_same)
    end.
    pose proof (temp_is_not_binary m) as N. unfold temp_archive in N.
    rewrite W, string_app_assoc in N.
    rewrite string_app_assoc.
    destruct (lookup (wrapper_binary m) f1) as [[c x| |t]|] eqn:L.
    + cbn [run_sync] in H. unfold say in H. cbn [disk console] in H.
      injection H as <- <-. right. split; [reflexivity|]. cbn [disk console].
      split; [exists version; apply last_last|].
      split; [|intros _; eexists; apply lookup_write_same].
      rewrite lookup_write_other by congruence. exact R.
    + cbn [run_sync] in H. unfold say in H. cbn [disk console] in H.
      injection H as <- <-. right. split; [reflexivity|]. cbn [disk console].
      split; [exists version; apply last_last|].
      split; [exact R | intros _; eexists; exact L].
    + cbn [run_sync] in H. unfold say in H. cbn [disk console] in H.
      injection H as <- <-. right. split; [reflexivity|]. cbn [disk console].
      split; [exists version; apply last_last|].
      split; [exact R | intros _; eexists; exact L].
    + injection H as <- <-. left. split; [reflexivity|].
      eexists; exists pre.
      unfold say. cbn [console disk]. rewrite <- app_assoc. apply P.
Qed.

Lemma npm_main_outcome_witness :
  run_loop linux_online 2 5 (Npm.main linux_online) started
  = Some (0, {| disk := [("/usr/lib/node_modules/centy/bin", Dir);
                         ("/usr/lib/node_modules/centy/bin/centy", File "ELF" true)];
                console :=
                  [Request api_url;
                   Log "Downloading centy v1.0.0 for x86_64-unknown-linux-gnu...";
                   Request "https://github.com/tupe12334/centy-installer/releases/download/v1.0.0/centy-x86_64-unknown-linux-gnu.tar.gz";
                   Log "Successfully installed centy v1.0.0"] |}) /\
  lookup (temp_archive linux_online)
    [("/usr/lib/node_modules/centy/bin", Dir);
     ("/usr/lib/node_modules/centy/bin/centy", File "ELF" true)] = None.
Proof.
  assert (H : run_loop linux_online 2 5 (Npm.main linux_online) started
              = Some (0, {| disk := [("/usr/lib/node_modules/centy/bin", Dir);
                                     ("/usr/lib/node_modules/centy/bin/centy",
                                      File "ELF" true)];
                            console :=
                              [Request api_url;
                               Log "Downloading centy v1.0.0 for x86_64-unknown-linux-gnu...";
                               Request "https://github.com/tupe12334/centy-installer/releases/download/v1.0.0/centy-x86_64-unknown-linux-gnu.tar.gz";
                               Log "Successfully installed centy v1.0.0"] |}))
    by (vm_compute; reflexivity).
  split; [exact H|].
  destruct (npm_main_outcome linux_online 2 5 started 0 _ H) as [[E _]|(_ & _ & T & _)]; [discriminate E | exact T].
Defined.

(** * The raw-binary installer: where the link goes *)

(** ** Paths that are free or a directory *)

Lemma free_or_dir_cases p f :
  RawObs.free_or_dir p f = true <-> lookup p f = None \/ lookup p f = Some Dir.
Proof.
  unfold RawObs.free_or_dir, is_file, is_symlink.
  destruct (lookup p f) as [[c x| |t]|]; cbn; split; intros H; auto;
    try discriminate; destruct H; discriminate.
Qed.

Lemma fod_write_other p q n f :
  p <> q -> RawObs.free_or_dir q (write p n f) = RawObs.free_or_dir q f.
Proof.
  intros N. unfold RawObs.free_or_dir, is_file, is_symlink.
  rewrite lookup_write_other by congruence. reflexivity.
Qed.

Lemma fod_write_dir p q f :
  RawObs.free_or_dir q f = true -> RawObs.free_or_dir q (write p Dir f) = true.
Proof.
  intros H. apply free_or_dir_cases. rewrite lookup_write.
  destruct (p =? q); [now right | now apply free_or_dir_cases].
Qed.

Lemma fod_remove p q f :
  RawObs.free_or_dir q f = true -> RawObs.free_or_dir q (remove p f) = true.
Proof.
  intros H. apply free_or_dir_cases. rewrite lookup_remove.
  destruct (p =? q); [now left | now apply free_or_dir_cases].
Qed.

Lemma fod_mkdir_p p q f :
  RawObs.free_or_dir q f = true -> RawObs.free_or_dir q (mkdir_p p f) = true.
Proof.
  intros H. unfold mkdir_p. destruct (blocked p f); [exact H|].
  destruct (lookup p f); [exact H|].
  now apply fod_write_dir.
Qed.

Lemma fod_chmod_x p q f :
  p <> q -> RawObs.free_or_dir q (chmod_x p f) = RawObs.free_or_dir q f.
Proof.
  intros N. unfold chmod_x. destruct (lookup p f) as [[c x| |t]|]; try reflexivity.
  now apply fod_write_other.
Qed.

Lemma fod_rm_f p q f :
  RawObs.free_or_dir q f = true -> RawObs.free_or_dir q (RawOnly.rm_f p f) = true.
Proof.
  intros H. unfold RawOnly.rm_f. destruct (RawOnly.is_dir p f); [exact H|].
  now apply fod_remove.
Qed.

Lemma fod_ln_s target link q f :
  (forall x, q <> link ++ "/" ++ x) ->
  (q = link -> RawOnly.is_dir link f = true) ->
  RawObs.free_or_dir q f = true ->
  RawObs.free_or_dir q (RawOnly.ln_s target link f) = true.
Proof.
  intros Inside Same H. unfold RawOnly.ln_s. cbv zeta.
  destruct (RawOnly.is_dir link f) eqn:D.
  - destruct (lookup (link ++ "/" ++ basename target) f); [exact H|].
    destruct (RawOnly.is_dir (link ++ "/" ++ basename target) f); [exact H|].
    rewrite fod_write_other; [exact H|]. intros E. now apply (Inside (basename target)).
  - destruct (lookup link f); [exact H|]. rewrite D.
    rewrite fod_write_other; [exact H|]. intros E.
    symmetry in E. specialize (Same E). discriminate Same.
Qed.

Lemma lookup_in p n f : lookup p f = Some n -> In (p, n) f.
Proof.
  induction f as [|[q m] f IH]; cbn [lookup]; [discriminate|].
  destruct (q =? p) eqn:E.
  - apply String.eqb_eq in E. subst q. intros H. injection H as ->. now left.
  - intros H. right. now apply IH.
Qed.

(** A path that is free or a directory, and in which something lies, is a
    directory. *)
Lemma is_dir_holds p x n f :
  RawObs.free_or_dir p f = true ->
  lookup (p ++ "/" ++ x) f = Some n ->
  RawOnly.is_dir p f = true.
Proof.
  intros H L. apply free_or_dir_cases in H. unfold RawOnly.is_dir.
  destruct H as [H|H]; rewrite H; [|reflexivity].
  apply existsb_exists. exists (p ++ "/" ++ x, n).
  split; [now apply lookup_in | apply under_app].
Qed.

(** ** One attempt *)

Lemma raw_resolve_version_files h binary version s :
  wp (RawOnly.resolve_version h binary version) s
     (fun r s' =>
        files s' = files s /\ ((exists v, r = Next v) \/ r = Return 1)).
Proof.
  unfold wp, RawOnly.resolve_version, RawOnly.get_latest_version.
  sh_unfold. sh_simpl.
  destruct (Str.is_empty version); sh_simpl; [|eauto].
  destruct (release_index h _) as [response|]; sh_simpl; [|auto].
  destruct (Str.is_empty (scan_tag_name h response)); sh_simpl; eauto.
Qed.

Lemma raw_download_files h url output s :
  wp (RawOnly.download h url output) s
     (fun r s' =>
        (r = Next true /\
         exists body, files s' = write output (File body false) (files s)) \/
        (r = Next false /\
         (files s' = files s \/
          files s' = write output (File EmptyString false) (files s)))).
Proof.
  unfold wp, RawOnly.download, InstallSh.try_download.
  sh_unfold. sh_simpl.
  destruct (asset h url) as [body|]; sh_simpl; [left; eauto|].
  destruct (DOWNLOAD_CMD s =? "curl"); sh_simpl; right; auto.
Qed.

Lemma raw_paths h binary version :
  RawOnly.INSTALL_DIR h ++ "/" ++ binary ++ "/" ++ version
  = RawObs.link_path h binary ++ "/" ++ version /\
  (RawOnly.INSTALL_DIR h ++ "/" ++ binary ++ "/" ++ version) ++ "/" ++ binary
  = RawObs.link_path h binary ++ "/" ++ version ++ "/" ++ binary.
Proof. unfold RawObs.link_path. now rewrite !string_app_assoc. Qed.

(** One attempt and one name [q] that does not lie inside the directory
    of the binary: when the path of the binary and [q] are free or
    directories, they still are afterwards; and after an attempt that
    ends with status 0 the path of the binary is a directory in which the
    file of the version lies, executable. *)
Lemma raw_install_binary_names h binary version s q :
  (forall x, q <> RawObs.link_path h binary ++ "/" ++ x) ->
  RawObs.free_or_dir (RawObs.link_path h binary) (files s) = true ->
  RawObs.free_or_dir q (files s) = true ->
  wp (RawOnly.install_binary h binary version) s
     (fun r s' =>
        RawObs.free_or_dir q (files s') = true /\
        RawObs.free_or_dir (RawObs.link_path h binary) (files s') = true /\
        (r = Next tt ->
         RawOnly.is_dir (RawObs.link_path h binary) (files s') = true /\
         exists v c,
           lookup (RawObs.link_path h binary ++ "/" ++ v ++ "/" ++ binary)
                  (files s')
           = Some (File c true))).
Proof.
  intros Inside FL FQ.
  assert (InsideL : forall x, RawObs.link_path h binary
                              <> RawObs.link_path h binary ++ "/" ++ x).
  { intros x E. symmetry in E. revert E. now apply app_nonempty_neq. }
  unfold RawOnly.install_binary.
  wp_prim.
  wp_use raw_resolve_version_files.
  intros r1 s1 (F1 & [[v ->]| ->]); sh_simpl;
    [|rewrite F1; repeat split; try assumption; discriminate].
  wp_prim.
  wp_use capture_detect_os.
  intros r2 s2 ([n2 ->] & F2 & _ & _). sh_simpl.
  wp_use capture_detect_arch.
  intros r3 s3 ([n3 ->] & F3 & _ & _). sh_simpl.
  destruct (raw_paths h binary v) as [-> ->].
  set (link := RawObs.link_path h binary) in *.
  set (bp := link ++ "/" ++ v ++ "/" ++ binary).
  do 2 wp_prim.
  set (f0 := mkdir_p (link ++ "/" ++ v) (files s3)).
  assert (Q0 : RawObs.free_or_dir q f0 = true).
  { apply fod_mkdir_p. now rewrite F3, F2, F1. }
  assert (L0 : RawObs.free_or_dir link f0 = true).
  { apply fod_mkdir_p. now rewrite F3, F2, F1. }
  wp_use raw_download_files.
  intros r4 s4 [(-> & body & F4) | (-> & F4)]; sh_simpl.
  - do 3 wp_prim. unfold wp. sh_unfold. sh_simpl. rewrite F4. sh_simpl.
    fold f0. set (f1 := write bp (File body false) f0).
    assert (C : chmod_x bp f1 = write bp (File body true) f1).
    { unfold chmod_x, f1. now rewrite lookup_write_same. }
    rewrite C. set (f2 := write bp (File body true) f1).
    assert (B2 : lookup bp f2 = Some (File body true)) by apply lookup_write_same.
    assert (Q2 : RawObs.free_or_dir q f2 = true).
    { unfold f2, f1. rewrite !fod_write_other; [exact Q0| |]; intros E;
        now apply (Inside (v ++ "/" ++ binary)). }
    assert (L2 : RawObs.free_or_dir link f2 = true).
    { unfold f2, f1. rewrite !fod_write_other; [exact L0| |]; intros E;
        now apply (InsideL (v ++ "/" ++ binary)). }
    assert (D2 : RawOnly.is_dir link f2 = true)
      by (now apply (is_dir_holds link (v ++ "/" ++ binary) (File body true))).
    assert (R : RawOnly.rm_f link f2 = f2) by (unfold RawOnly.rm_f; now rewrite D2).
    change (RawOnly.INSTALL_DIR h ++ "/" ++ binary) with link.
    rewrite R.
    assert (K : forall p, lookup p f2 = Some (File body true) ->
                          lookup p (RawOnly.ln_s bp link f2) = Some (File body true)).
    { intros p Lp. unfold RawOnly.ln_s. cbv zeta. rewrite D2.
      destruct (lookup (link ++ "/" ++ basename bp) f2) eqn:E; [exact Lp|].
      destruct (RawOnly.is_dir (link ++ "/" ++ basename bp) f2); [exact Lp|].
      rewrite lookup_write_other; [exact Lp|]. intros ->. congruence. }
    split; [apply fod_ln_s; auto|].
    split; [apply fod_ln_s; auto|].
    intros _. split.
    + apply (is_dir_holds link (v ++ "/" ++ binary) (File body true)).
      * apply fod_ln_s; auto.
      * now apply K.
    + exists v, body. now apply K.
  - do 2 wp_prim. unfold wp. sh_unfold. sh_simpl. fold f0.
    destruct F4 as [F4|F4]; rewrite F4; sh_simpl; fold f0.
    + split; [now apply fod_rm_f|]. split; [now apply fod_rm_f|]. discriminate.
    + split; [|split; [|discriminate]]; apply fod_rm_f;
        rewrite fod_write_other; auto; intros E.
      * now apply (Inside (v ++ "/" ++ binary)).
      * now apply (InsideL (v ++ "/" ++ binary)).
Qed.



(** ** Upgrades *)

Lemma app_nonempty_neq_l (a b : string) : Str.is_empty a = false -> a ++ b <> b.
Proof.
  intros NE E.
  assert (L : String.length (a ++ b) = String.length a + String.length b).
  { clear. induction a as [|c a IH]; cbn; [reflexivity | now rewrite IH]. }
  rewrite E in L. destruct a; [discriminate NE|]. cbn in L. lia.
Qed.

Lemma lookup_mkdir_p_some q p n f :
  lookup q f = Some n -> lookup q (mkdir_p p f) = Some n.
Proof.
  intros L. unfold mkdir_p. destruct (blocked p f); [exact L|].
  destruct (lookup p f) eqn:E; [exact L|].
  rewrite lookup_write_other; [exact L|]. intros ->. congruence.
Qed.

Lemma raw_rm_f_other q p f :
  p <> q -> lookup q (RawOnly.rm_f p f) = lookup q f.
Proof.
  intros N. unfold RawOnly.rm_f. destruct (RawOnly.is_dir p f); [reflexivity|].
  apply lookup_remove_other. congruence.
Qed.

Lemma raw_ln_s_some q n target link f :
  lookup q f = Some n -> lookup q (RawOnly.ln_s target link f) = Some n.
Proof.
  intros L. unfold RawOnly.ln_s. cbv zeta.
  set (name := if RawOnly.is_dir link f then _ else _).
  destruct (lookup name f) eqn:E; [exact L|].
  destruct (RawOnly.is_dir name f); [exact L|].
  rewrite lookup_write_other; [exact L|]. intros ->. congruence.
Qed.

Lemma raw_install_binary_keeps_inner h binary version s n :
  lookup (RawObs.link_path h binary ++ "/" ++ binary) (files s) = Some n ->
  wp (RawOnly.install_binary h binary version) s
     (fun _ s' =>
        lookup (RawObs.link_path h binary ++ "/" ++ binary) (files s') = Some n).
Proof.
  intros L.
  unfold RawOnly.install_binary.
  wp_prim.
  wp_use raw_resolve_version_files.
  intros r1 s1 (F1 & [[v ->]| ->]); sh_simpl; [|now rewrite F1].
  wp_prim.
  wp_use capture_detect_os.
  intros r2 s2 ([n2 ->] & F2 & _ & _). sh_simpl.
  wp_use capture_detect_arch.
  intros r3 s3 ([n3 ->] & F3 & _ & _). sh_simpl.
  destruct (raw_paths h binary v) as [-> ->].
  change (RawOnly.INSTALL_DIR h ++ "/" ++ binary) with (RawObs.link_path h binary).
  set (link := RawObs.link_path h binary) in *.
  set (inner := link ++ "/" ++ binary) in *.
  set (bp := link ++ "/" ++ v ++ "/" ++ binary).
  assert (NB : bp <> inner).
  { unfold bp, inner. intros E. do 2 apply string_app_inv_head in E.
    rewrite <- string_app_assoc in E. revert E.
    apply app_nonempty_neq_l. now destruct v. }
  assert (NL : link <> inner).
  { unfold inner. intros E. symmetry in E. revert E. now apply app_nonempty_neq. }
  do 2 wp_prim.
  set (f0 := mkdir_p (link ++ "/" ++ v) (files s3)).
  assert (L0 : lookup inner f0 = Some n).
  { apply lookup_mkdir_p_some. now rewrite F3, F2, F1. }
  wp_use raw_download_files.
  intros r4 s4 [(-> & body & F4) | (-> & F4)]; sh_simpl.
  - do 3 wp_prim. unfold wp. sh_unfold. sh_simpl. rewrite F4. sh_simpl.
    fold f0. apply raw_ln_s_some.
    rewrite raw_rm_f_other, lookup_chmod_x, lookup_write_other by congruence.
    exact L0.
  - do 2 wp_prim. unfold wp. sh_unfold. sh_simpl. fold f0.
    rewrite raw_rm_f_other by congruence.
    destruct F4 as [F4|F4]; rewrite F4; sh_simpl; fold f0; [exact L0|].
    rewrite lookup_write_other by congruence. exact L0.
Qed.



(** ** The whole run *)

Lemma raw_main_split h s Q :
  wp (RawObs.before_installs h) s
     (fun r s1 =>
        match r with
        | Next _ =>
            wp (failed <- RawOnly.install_each h (RawObs.requested h) EmptyString ;;
                RawObs.after_installs h failed)%sh s1 Q
        | Return n => Q (Return n) s1
        | Exit n => Q (Exit n) s1
        end) ->
  wp (RawOnly.main h) s Q.
Proof.
  unfold wp, RawOnly.main, RawObs.before_installs, RawObs.after_installs,
    RawObs.requested, bind.
  destruct (InstallSh.banner s) as [[[]|n|n] s1]; cbn [fst snd]; auto.
  destruct (run (RawOnly.check_requirements h) s1) as [[[]|n|n] s2];
    cbn [fst snd]; auto.
  destruct (InstallSh.info _ s2) as [[[]|n|n] s3]; cbn [fst snd]; auto.
  destruct (InstallSh.info _ s3) as [[[]|n|n] s4]; cbn [fst snd]; auto.
  destruct (capture (InstallSh.detect_arch h) s4) as [[[n5 arch]|n|n] s5];
    cbn [fst snd]; auto.
  destruct (capture (InstallSh.detect_os h) s5) as [[[n6 os]|n|n] s6];
    cbn [fst snd]; auto.
  destruct (InstallSh.info _ s6) as [[[]|n|n] s7]; cbn [fst snd]; auto.
  destruct (InstallSh.echo _ s7) as [[[]|n|n] s8]; cbn [fst snd]; auto.
  destruct (InstallSh.make_dir (RawOnly.INSTALL_DIR h) s8) as [[[]|n|n] s9];
    cbn [fst snd]; auto.
Qed.

Lemma raw_before_installs_files h s :
  wp (RawObs.before_installs h) s
     (fun r s' =>
        (r = Next tt \/ r = Exit 1) /\
        (files s' = files s \/
         files s' = mkdir_p (RawOnly.INSTALL_DIR h) (files s))).
Proof.
  unfold wp, RawObs.before_installs, InstallSh.banner,
    RawOnly.check_requirements, InstallSh.detect_arch, InstallSh.detect_os,
    InstallSh.make_dir.
  sh_unfold. sh_simpl.
  destruct (has_curl h), (has_wget h); sh_simpl; auto.
  all: destruct (Platform.detect_arch_name (uname_m h)); sh_simpl;
    destruct (Platform.detect_os_name (uname_s h)); sh_simpl;
    destruct (blocked (RawOnly.INSTALL_DIR h) (files s)); sh_simpl; auto.
Qed.

Lemma names_apart h b b' x :
  RawObs.one_component b' ->
  RawObs.link_path h b' <> RawObs.link_path h b ++ "/" ++ x.
Proof.
  unfold RawObs.one_component, RawObs.link_path. intros O E.
  rewrite !string_app_assoc in E. do 2 apply string_app_inv_head in E.
  rewrite E, has_char_app in O.
  apply orb_false_iff in O as [_ O]. cbn in O.
  rewrite Ascii.eqb_refl in O. discriminate O.
Qed.

Lemma raw_install_each_names h names :
  (forall b, In b names -> RawObs.one_component b) ->
  forall bs, incl bs names ->
  forall failed s,
    RawObs.names_free h names (files s) ->
    wp (RawOnly.install_each h bs failed) s
       (fun _ s' => RawObs.names_free h names (files s')).
Proof.
  intros One. induction bs as [|b bs IH]; intros Sub failed s Free.
  - exact Free.
  - cbn [RawOnly.install_each].
    assert (Inb : In b names) by (apply Sub; now left).
    assert (Step : RawObs.names_free h names
                     (files (snd (RawOnly.install_binary h b (VERSION h) s)))).
    { intros b' Inb'.
      apply (raw_install_binary_names h b (VERSION h) s (RawObs.link_path h b')).
      - intros x. apply names_apart. now apply One.
      - now apply Free.
      - now apply Free. }
    apply wp_bind. unfold wp at 1, call.
    destruct (RawOnly.install_binary h b (VERSION h) s) as [[[]|n|n] s1];
      cbn [fst snd] in *; [| |exact Step].
    + wp_prim. apply IH; [|exact Step].
      intros x Hx. apply Sub. now right.
    + wp_prim. apply IH; [|exact Step].
      intros x Hx. apply Sub. now right.
Qed.

Lemma nns_append_line p l f g :
  no_new_symlinks f g -> no_new_symlinks f (append_line p l g).
Proof.
  intros H. unfold append_line.
  destruct (lookup p g) as [[c x| |t]|]; auto with links.
Qed.

Lemma nns_create_with_line p l f g :
  no_new_symlinks f g -> no_new_symlinks f (create_with_line p l g).
Proof.
  intros H. unfold create_with_line.
  destruct (lookup p g) as [[c x| |t]|]; auto with links.
Qed.

Lemma raw_setup_path_links h s :
  wp (run (RawOnly.setup_path h)) s
     (fun r s' =>
        (r = Next tt \/ exists n, r = Exit n) /\
        no_new_symlinks (files s) (files s')).
Proof.
  unfold wp, RawOnly.setup_path, InstallSh.config_file_for, InstallSh.redirect.
  sh_unfold. sh_simpl.
  repeat match goal with
         | |- context [if ?c then _ else _] => destruct c eqn:?; sh_simpl
         end.
  all: split; [eauto|].
  all: auto using nns_append_line, nns_create_with_line with links.
Qed.

Lemma raw_list_installed_lists h bs :
  forall s,
    wp (RawOnly.list_installed h bs) s
       (fun r s' =>
          r = Next tt /\ files s' = files s /\
          trace s' = (trace s ++ RawObs.listed h bs (files s))%list).
Proof.
  unfold RawObs.listed, RawObs.link_path.
  induction bs as [|b bs IH]; intros s;
    cbn [RawOnly.list_installed filter map].
  - unfold wp; cbn. now rewrite app_nil_r.
  - wp_prim. apply wp_bind.
    destruct (is_symlink (RawOnly.INSTALL_DIR h ++ "/" ++ b) (files s)).
    + unfold wp at 1. sh_unfold. sh_simpl.
      eapply wp_conseq; [apply IH|]. cbv beta.
      intros r s' (-> & F & T). split; [reflexivity|].
      split; [exact F|]. rewrite T. sh_simpl.
      cbn [map]. now rewrite <- app_assoc.
    + unfold wp at 1. sh_unfold. sh_simpl. apply IH.
Qed.

Lemma raw_print_summary_trace h s :
  wp (run (RawOnly.print_summary h)) s
     (fun r s' =>
        r = Next tt /\ files s' = files s /\
        trace s'
        = (trace s ++ RawObs.summary_head
             ++ RawObs.listed h (RawObs.requested h) (files s)
             ++ RawObs.summary_foot h)%list).
Proof.
  unfold run, call. apply wp_bind. unfold wp at 1.
  assert (H : wp (RawOnly.print_summary h) s
                 (fun r s' =>
                    r = Next tt /\ files s' = files s /\
                    trace s'
                    = (trace s ++ RawObs.summary_head
                         ++ RawObs.listed h (RawObs.requested h) (files s)
                         ++ RawObs.summary_foot h)%list)).
  { unfold RawOnly.print_summary.
    do 6 wp_prim.
    wp_use raw_list_installed_lists.
    intros r1 s1 (-> & F1 & T1).
    do 3 wp_prim. unfold wp. sh_unfold. sh_simpl.
    split; [reflexivity|]. split; [exact F1|].
    rewrite T1. sh_simpl.
    unfold RawObs.summary_head, RawObs.summary_foot, RawObs.requested.
    rewrite <- !app_assoc. reflexivity. }
  unfold wp in H. destruct H as (E & F & T).
  destruct (RawOnly.print_summary h s) as [[[]|n|n] s1];
    cbn [fst snd] in *; try discriminate.
  unfold wp, ret. cbn [Nat.eqb fst snd]. auto.
Qed.

Lemma listed_nothing h bs f :
  (forall b, In b bs -> is_symlink (RawObs.link_path h b) f = false) ->
  RawObs.listed h bs f = [].
Proof.
  intros H. unfold RawObs.listed.
  induction bs as [|b bs IH]; [reflexivity|]. cbn [filter].
  rewrite (H b) by now left. apply IH. intros x Hx. apply H. now right.
Qed.

Lemma free_is_no_link p f :
  RawObs.free_or_dir p f = true -> is_symlink p f = false.
Proof.
  unfold RawObs.free_or_dir. intros H. apply andb_true_iff in H as [_ H].
  now apply negb_true_iff in H.
Qed.

Lemma nns_no_link p f g :
  no_new_symlinks f g -> is_symlink p f = false -> is_symlink p g = false.
Proof.
  intros N H. unfold is_symlink in *.
  destruct (lookup p g) as [[c x| |t]|] eqn:L; try reflexivity.
  apply N in L. now rewrite L in H.
Qed.



(** ** The request of one attempt *)

Lemma raw_resolve_version_run h binary version s :
  wp (RawOnly.resolve_version h binary version) s
     (fun r s' =>
        r = match RawObs.resolved_version h binary version with
            | Some v => Next v
            | None => Return 1
            end /\
        exists evs, trace s' = (trace s ++ evs)%list /\ downloads evs = []).
Proof.
  unfold wp, RawOnly.resolve_version, RawOnly.get_latest_version,
    RawObs.resolved_version, RawOnly.GITHUB_ORG.
  sh_unfold. sh_simpl.
  destruct (Str.is_empty version); sh_simpl.
  2:{ split; [reflexivity|]. exists []. now rewrite app_nil_r. }
  destruct (release_index h _) as [response|]; sh_simpl.
  2:{ split; [reflexivity|]. eexists. split; [rewrite <- app_assoc|]; reflexivity. }
  destruct (Str.is_empty (scan_tag_name h response)); sh_simpl.
  - split; [reflexivity|]. eexists. split; [rewrite <- app_assoc|]; reflexivity.
  - split; [reflexivity|]. eexists. split; reflexivity.
Qed.

(** X20: An attempt of the raw-binary installer that gets its version sends
    one download request, and the version goes into its URL behind a
    letter v whatever it looks like: a pinned version is taken as it is
    given, the latest tag loses its leading v first.  When the download
    fails the attempt ends with status 1. *)
Theorem raw_only_single_request :
  forall (h : host) (binary version : string) (s : state),
    let r := RawOnly.install_binary h binary version s in
    exists evs,
      trace (snd r) = (trace s ++ evs)%list /\
      match RawObs.resolved_version h binary version with
      | None => downloads evs = [] /\ fst r = Return 1
      | Some v =>
          downloads evs = [RawObs.url_of h binary v] /\
          Str.starts_with
            ("https://github.com/centy-io/" ++ binary ++ "/releases/download/v" ++ v ++ "/")
            (RawObs.url_of h binary v) = true /\
          (available h (RawObs.url_of h binary v) = false -> fst r = Return 1)
      end.
Proof.
  intros h binary version s. cbv zeta.
  change (wp (RawOnly.install_binary h binary version) s
            (fun r s' =>
               exists evs,
                 trace s' = (trace s ++ evs)%list /\
                 match RawObs.resolved_version h binary version with
                 | None => downloads evs = [] /\ r = Return 1
                 | Some v =>
                     downloads evs = [RawObs.url_of h binary v] /\
                     Str.starts_with
                       ("https://github.com/centy-io/" ++ binary
                          ++ "/releases/download/v" ++ v ++ "/")
                       (RawObs.url_of h binary v) = true /\
                     (available h (RawObs.url_of h binary v) = false ->
                      r = Return 1)
                 end)).
  unfold RawOnly.install_binary.
  wp_prim.
  wp_use raw_resolve_version_run.
  intros r1 s1 (-> & e1 & T1 & Q1). sh_simpl.
  destruct (RawObs.resolved_version h binary version) as [v|].
  2:{ rewrite T1, <- app_assoc. eexists. split; [reflexivity|].
      rewrite downloads_app, Q1. split; reflexivity. }
  wp_prim.
  wp_use capture_detect_os.
  intros r2 s2 ([n2 ->] & _ & _ & e2 & T2 & Q2 & _). sh_simpl.
  wp_use capture_detect_arch.
  intros r3 s3 ([n3 ->] & _ & _ & e3 & T3 & Q3 & _). sh_simpl.
  fold (RawObs.url_of h binary v).
  set (url := RawObs.url_of h binary v).
  assert (U : Str.starts_with
                ("https://github.com/centy-io/" ++ binary
                   ++ "/releases/download/v" ++ v ++ "/") url = true).
  { unfold url, RawObs.url_of, RawOnly.download_url, RawOnly.GITHUB_ORG.
    repeat rewrite <- string_app_assoc.
    rewrite !string_app_assoc.
    repeat rewrite <- (string_app_assoc _ _ (binary ++ "-" ++ _)).
    apply starts_with_app. }
  set (pre := ((Info (attempt_line binary) :: e1)
                 ++ (Info ("  Version: " ++ v) :: e2) ++ e3)%list).
  assert (T : trace s3 = (trace s ++ pre)%list).
  { unfold pre. rewrite T3, T2. sh_simpl. rewrite T1.
    repeat (rewrite <- ?app_assoc; cbn [app]). reflexivity. }
  assert (D : downloads pre = []).
  { unfold pre.
    change (Info (attempt_line binary) :: e1)
      with ([Info (attempt_line binary)] ++ e1)%list.
    change (Info ("  Version: " ++ v) :: e2)
      with ([Info ("  Version: " ++ v)] ++ e2)%list.
    rewrite !downloads_app, Q1, Q2, Q3. reflexivity. }
  clearbody pre. clear T1 T2 T3 Q1 Q2 Q3 e1 e2 e3.
  do 2 wp_prim.
  wp_use download_run.
  intros r4 s4 (-> & T4). sh_simpl.
  destruct (available h url) eqn:A; sh_simpl.
  - do 3 wp_prim. unfold wp. sh_unfold. sh_simpl. rewrite T4. sh_simpl. rewrite T.
    eexists. split; [repeat (rewrite <- ?app_assoc; cbn [app]); reflexivity|].
    rewrite !downloads_app, D. split; [reflexivity|]. split; [exact U | discriminate].
  - do 2 wp_prim. unfold wp. sh_unfold. sh_simpl. rewrite T4. sh_simpl. rewrite T.
    eexists. split; [repeat (rewrite <- ?app_assoc; cbn [app]); reflexivity|].
    rewrite !downloads_app, D. split; [reflexivity|]. split; [exact U | reflexivity].
Qed.

Lemma raw_only_single_request_witness :
  RawObs.url_of RawObs.linux_raw "centy-daemon" "v0.1.6"
  = "https://github.com/centy-io/centy-daemon/releases/download/vv0.1.6/centy-daemon-x86_64-unknown-linux-gnu" /\
  available RawObs.linux_raw
    (RawObs.url_of RawObs.linux_raw "centy-daemon" "v0.1.6") = false /\
  fst (RawOnly.install_binary RawObs.linux_raw "centy-daemon" "v0.1.6"
         RawObs.empty_disk) = Return 1.
Proof.
  split; [reflexivity|]. split; [reflexivity|].
  destruct (raw_only_single_request RawObs.linux_raw "centy-daemon" "v0.1.6"
              RawObs.empty_disk) as (evs & _ & H).
  change (RawObs.resolved_version RawObs.linux_raw "centy-daemon" "v0.1.6")
    with (Some "v0.1.6") in H.
  exact (proj2 (proj2 H) eq_refl).
Defined.
